(** * Alara Resurgent: the design-bible parser, the rules/flavor classifier
      and the identity deriver

    A shallow embedding of the JavaScript sources

    - [src/unnamed/part_001] (the spoiler-page generator: [isRuleLine],
      [Card], [parseDesignBible] with its inner [finalizeCard]; the two
      scripts of [src/unnamed/part_000] carry the same [isRuleLine] and the
      same [finalizeCard]), embedded in [Module Spoiler];
    - [src/generate_alara.mjs] (the art generator: [Card] with
      [getColorIdentity] and [getShardIdentity], and its own forward
      [parseDesignBible]), embedded in [Module ArtGen];
    - the first script of [src/unnamed/part_000] (the parser without
      sections), embedded in [Module CardsOnly];
    - the formatting methods of [Card] and the color class and mechanics
      list of [generateHTML] in [src/unnamed/part_001], embedded in
      [Module Page].

    JavaScript strings are sequences of UTF-16 code units; they are modelled
    as [list N].  The built-ins the scripts call ([includes], [startsWith],
    [endsWith], [trim], [split], [join], [toLowerCase], [toUpperCase] and the
    regular expressions) are embedded in [Module JS]. *)

From Stdlib Require Import List NArith Bool String Ascii Arith Lia.
Import ListNotations.

Local Open Scope N_scope.

(* ================================================================== *)
(** * JavaScript strings and the built-ins the scripts use *)
(* ================================================================== *)

Module JS.

(** A string value: its UTF-16 code units. *)
Definition jsstring := list N.

(** An ASCII literal as a string value (one code unit per character). *)
Definition js (s : string) : jsstring :=
  map N_of_ascii (list_ascii_of_string s).

(** Code units that have no ASCII spelling in the sources. *)
Definition EM_DASH : N := 8212.            (* U+2014 *)
Definition LEFT_DQUOTE : N := 8220.        (* U+201C *)
Definition DQUOTE : N := 34.               (* U+0022 *)

Definition jsstring_eqb (a b : jsstring) : bool :=
  if list_eq_dec N.eq_dec a b then true else false.

(** [!s] for a string: only the empty string is falsy. *)
Definition isEmpty (s : jsstring) : bool :=
  match s with [] => true | _ :: _ => false end.

(** ** Character classes *)

Definition between (lo hi c : N) : bool := (lo <=? c) && (c <=? hi).
Definition isChar (a : string) (c : N) : bool :=
  match js a with [x] => x =? c | _ => false end.
Definition isUpperAZ : N -> bool := between 65 90.     (* [A-Z] *)
Definition isLowerAZ : N -> bool := between 97 122.    (* [a-z] *)
Definition isDigit : N -> bool := between 48 57.       (* \d    *)
Definition isUpperOrDigit (c : N) : bool := isUpperAZ c || isDigit c.

(** LineTerminator: LF, CR, LS, PS. *)
Definition isLineTerminator (c : N) : bool :=
  (c =? 10) || (c =? 13) || (c =? 8232) || (c =? 8233).

(** WhiteSpace or LineTerminator: the class [\s] of regular expressions
    and the characters [trim] strips. *)
Definition isSpace (c : N) : bool :=
  (c =? 9) || (c =? 11) || (c =? 12) || (c =? 32) || (c =? 160)
  || (c =? 5760) || between 8192 8202 c || (c =? 8239) || (c =? 8287)
  || (c =? 12288) || (c =? 65279) || isLineTerminator c.

(** The class [.] (no [s] flag): anything but a line terminator. *)
Definition isDot (c : N) : bool := negb (isLineTerminator c).

(** ** String methods *)

Fixpoint startsWith (s p : jsstring) : bool :=
  match p, s with
  | [], _ => true
  | _ :: _, [] => false
  | a :: p', b :: s' => (a =? b) && startsWith s' p'
  end.

Definition endsWith (s p : jsstring) : bool := startsWith (rev s) (rev p).

Fixpoint includes (s p : jsstring) : bool :=
  startsWith s p ||
  match s with
  | [] => false
  | _ :: s' => includes s' p
  end.

Fixpoint dropWhile (f : N -> bool) (s : jsstring) : jsstring :=
  match s with
  | [] => []
  | c :: s' => if f c then dropWhile f s' else s
  end.

Definition trim (s : jsstring) : jsstring :=
  rev (dropWhile isSpace (rev (dropWhile isSpace s))).

(** [a.join(sep)]. *)
Fixpoint join (sep : jsstring) (l : list jsstring) : jsstring :=
  match l with
  | [] => []
  | [x] => x
  | x :: rest => x ++ sep ++ join sep rest
  end.

(** [s.split(/\r?\n/)]: the pieces between line breaks, a CR directly
    before the LF belonging to the break.  [cur] is the piece being read. *)
Fixpoint splitLinesFrom (cur s : jsstring) : list jsstring :=
  match s with
  | [] => [cur]
  | c :: s' =>
      if c =? 10 then cur :: splitLinesFrom [] s'
      else
        match s' with
        | d :: s'' =>
            if (c =? 13) && (d =? 10) then cur :: splitLinesFrom [] s''
            else splitLinesFrom (cur ++ [c]) s'
        | [] => splitLinesFrom (cur ++ [c]) s'
        end
  end.

Definition splitLines (s : jsstring) : list jsstring := splitLinesFrom [] s.

(** ** Case conversion

    [toLowerCase] and [toUpperCase] map each code point in its context.
    An ASCII code unit is converted by itself: [A-Z] to [a-z] (resp.
    [a-z] to [A-Z]), any other ASCII unit unchanged.  What a non-ASCII
    code unit contributes is fixed by the Unicode tables of the engine,
    which are not part of the repository: they are a parameter, given the
    code units before and after the unit. *)
Record CaseTables := {
  lowerNonAscii : jsstring -> N -> jsstring -> jsstring;
  upperNonAscii : jsstring -> N -> jsstring -> jsstring
}.

Definition asciiLower (c : N) : N := if isUpperAZ c then c + 32 else c.
Definition asciiUpper (c : N) : N := if isLowerAZ c then c - 32 else c.

Fixpoint caseConvert (ascii : N -> N)
         (tbl : jsstring -> N -> jsstring -> jsstring)
         (before s : jsstring) : jsstring :=
  match s with
  | [] => []
  | c :: after =>
      (if c <? 128 then [ascii c] else tbl before c after)
        ++ caseConvert ascii tbl (before ++ [c]) after
  end.

Definition toLowerCase (E : CaseTables) (s : jsstring) : jsstring :=
  caseConvert asciiLower (lowerNonAscii E) [] s.
Definition toUpperCase (E : CaseTables) (s : jsstring) : jsstring :=
  caseConvert asciiUpper (upperNonAscii E) [] s.

(** ** Regular expressions

    A pattern is embedded as a backtracking matcher in continuation
    style: a matcher takes the rest of the pattern as a continuation and
    the input still to read, and answers with the first success in the
    engine's order of attempts (greedy: longest first; lazy: shortest
    first).  Quantified pieces hand the text they matched to the
    continuation, which is how capture groups are read off. *)
Section Matchers.
Context {R : Type}.

Definition Cont := jsstring -> option R.

(** One character of a class. *)
Definition chr (p : N -> bool) (k : Cont) : Cont :=
  fun s => match s with
           | c :: s' => if p c then k s' else None
           | [] => None
           end.

(** [p*] (greedy), [acc] being what the star has matched so far. *)
Fixpoint starGreedy (p : N -> bool) (k : jsstring -> Cont)
         (acc s : jsstring) : option R :=
  match s with
  | c :: s' =>
      if p c then
        match starGreedy p k (acc ++ [c]) s' with
        | Some r => Some r
        | None => k acc s
        end
      else k acc s
  | [] => k acc []
  end.

(** [p+] (greedy). *)
Definition plusGreedy (p : N -> bool) (k : jsstring -> Cont) : Cont :=
  fun s => match s with
           | c :: s' => if p c then starGreedy p k [c] s' else None
           | [] => None
           end.

(** [p*?] (lazy). *)
Fixpoint starLazy (p : N -> bool) (k : jsstring -> Cont)
         (acc s : jsstring) : option R :=
  match k acc s with
  | Some r => Some r
  | None =>
      match s with
      | c :: s' => if p c then starLazy p k (acc ++ [c]) s' else None
      | [] => None
      end
  end.

(** [p+?] (lazy). *)
Definition plusLazy (p : N -> bool) (k : jsstring -> Cont) : Cont :=
  fun s => match s with
           | c :: s' => if p c then starLazy p k [c] s' else None
           | [] => None
           end.

(** [(?:a)?] followed by the rest: [a] first, then without it. *)
Definition orElse (a b : Cont) : Cont :=
  fun s => match a s with
           | Some r => Some r
           | None => b s
           end.

(** [$] (no [m] flag) ending the pattern with result [r]. *)
Definition atEnd (r : R) : Cont :=
  fun s => match s with [] => Some r | _ :: _ => None end.

(** The pattern ends here (no anchor) with result [r]. *)
Definition accept (r : R) : Cont := fun _ => Some r.
End Matchers.

Definition isSome {A : Type} (o : option A) : bool :=
  match o with Some _ => true | None => false end.

(** ** Completions

    What a call can do besides returning: throw.  [TypeError] is what
    reading a property of [null] or [undefined] throws, [ENOENT] what
    [fs.readFileSync] throws on a missing file. *)
Inductive Exception := TypeError | ENOENT.

Inductive Completion (A : Type) :=
| Normal (a : A)
| Throw (e : Exception).
Arguments Normal {A} a.
Arguments Throw {A} e.

Definition bind {A B : Type} (c : Completion A) (f : A -> Completion B)
  : Completion B :=
  match c with
  | Normal a => f a
  | Throw e => Throw e
  end.

(** [a.forEach(f)] with a callback that threads the state [S] and may
    throw: the first throw ends the loop. *)
Fixpoint forEach {A S : Type} (f : S -> A -> Completion S) (l : list A) (s : S)
  : Completion S :=
  match l with
  | [] => Normal s
  | x :: l' => bind (f s x) (forEach f l')
  end.

(** The class [[a-z0-9]] under the flag [i] (and no flag [u]): matching
    upper-cases a single code unit and never maps a non-ASCII unit onto an
    ASCII one, so the class holds the letters of both cases and the
    digits, and nothing else. *)
Definition isAlnumIgnoreCase (c : N) : bool :=
  isLowerAZ c || isUpperAZ c || isDigit c.

(** [s.replace(/[^a-z0-9]/gi, '_')]: each code unit outside the class
    becomes an underscore. *)
Definition replaceNonAlnum (s : jsstring) : jsstring :=
  map (fun c => if isAlnumIgnoreCase c then c else 95) s.

End JS.

Import JS.

Notation "x <- c ;; k" := (bind c (fun x => k))
  (at level 61, c at next level, right associativity).

(* ================================================================== *)
(** * The spoiler-page generator ([src/unnamed/part_001]) *)
(* ================================================================== *)

Module Spoiler.

(** ** [isRuleLine] *)

(** [/^[A-Z][a-z]+ —/] *)
Definition abilityWordRegex : jsstring -> option unit :=
  chr isUpperAZ (plusGreedy isLowerAZ (fun _ =>
    chr (isChar " ") (chr (N.eqb EM_DASH) (accept tt)))).

(** [/^[A-Z][a-z]+\s\d+$/] *)
Definition keywordNumberRegex : jsstring -> option unit :=
  chr isUpperAZ (plusGreedy isLowerAZ (fun _ =>
    chr isSpace (plusGreedy isDigit (fun _ => atEnd tt)))).

Definition mechanics : list jsstring := map js
  [ "target"; "battlefield"; "graveyard"; "library"; "exile";
    "damage"; "life"; "counter"; "token"; "create"; "sacrifice";
    "destroy"; "draw"; "discard"; "tap"; "untap"; "equip"; "attach";
    "cast"; "activate"; "enter"; "leaves"; "die"; "regenerate";
    "fight"; "scry"; "mill"; "look"; "reveal"; "shuffle";
    "flying"; "haste"; "trample"; "vigilance"; "first strike";
    "double strike"; "deathtouch"; "reach"; "lifelink"; "hexproof";
    "ward"; "protection"; "flash"; "defender"; "+1/+1"; "-1/-1";
    "fabricate"; "cascade"; "exalted"; "affinity"; "replicate"; "storm";
    "cycling"; "fear"; "intimidate"; "landwalk"; "shroud" ]%string.

(** ** [class Card] (the fields and [getFileName]; the HTML formatting
    methods are in [Module Page]) *)
Record Card := {
  card_id : jsstring;
  card_name : jsstring;
  card_cost : jsstring;
  card_type : jsstring;
  card_text : list jsstring;
  card_flavor : list jsstring
}.

(** What [currentIdLine] holds: the array of a successful
    [cleanLine.match(idTagRegex)] (the whole match and the three groups,
    the third [undefined] when the cost group took no part), or the
    four-element array literal of the malformed-header branch: [null],
    the string UNKNOWN, [cleanLine] and the empty string. *)
Record MatchArray := {
  m0 : option jsstring;
  m1 : jsstring;
  m2 : jsstring;
  m3 : option jsstring
}.

(** [/^\[([A-Z0-9]+)\]\s+(.+?)(?:\s+(\{.*\})\s* )?$/] applied to [line]
    (the blank before the last parenthesis is not in the source; it keeps
    this comment well formed). *)
Definition idTagRegex (line : jsstring) : option MatchArray :=
  chr (isChar "[") (plusGreedy isUpperOrDigit (fun g1 =>
    chr (isChar "]") (plusGreedy isSpace (fun _ =>
      plusLazy isDot (fun g2 =>
        orElse
          (plusGreedy isSpace (fun _ =>
             chr (isChar "{") (starGreedy isDot (fun x =>
               chr (isChar "}") (starGreedy isSpace (fun _ =>
                 atEnd {| m0 := Some line; m1 := g1; m2 := g2;
                          m3 := Some (js "{" ++ x ++ js "}") |}) []))
               [])))
          (atEnd {| m0 := Some line; m1 := g1; m2 := g2; m3 := None |}))))))
    line.

(** [/^\[[A-Z]+\d+\]/] *)
Definition looseTagRegex : jsstring -> option unit :=
  chr (isChar "[") (plusGreedy isUpperAZ (fun _ =>
    plusGreedy isDigit (fun _ => chr (isChar "]") (accept tt)))).

(** [/^\\s*/]: a backslash and the letters s after it.
    [line.replace(sourceTagRegex, '')] removes that prefix when there
    is one. *)
Definition sourceTagRegex : jsstring -> option jsstring :=
  chr (N.eqb 92) (starGreedy (isChar "s") (fun _ rest => Some rest) []).

Definition stripSourceTag (line : jsstring) : jsstring :=
  match sourceTagRegex line with
  | Some rest => rest
  | None => line
  end.

(** [v || s] with [s] the empty string, for [v] a string or
    [undefined]. *)
Definition orEmpty (v : option jsstring) : jsstring :=
  match v with
  | Some s => s
  | None => []
  end.

Definition startsWithQuote (line : jsstring) : bool :=
  startsWith line [LEFT_DQUOTE] || startsWith line [DQUOTE].

Inductive Section_ := INTRO | FLAVOR | MECHANICS | CARDS.

Record SetInfo := {
  flavor : list jsstring;
  mechanics_ : list jsstring
}.

(** The variables of [parseDesignBible] that its [forEach] callback
    reads and writes. *)
Record PState := {
  cards : list Card;
  setInfo : SetInfo;
  currentIdLine : option MatchArray;
  currentBuffer : list jsstring;
  parsingSection : Section_
}.

(** The variables of the backward loop of [finalizeCard]. *)
Record Scan := {
  processingFlavor : bool;
  rulesStack : list jsstring;
  flavorStack : list jsstring
}.

Section Engine.
Variable E : CaseTables.

Definition isRuleLine (line : jsstring) : bool :=
  if includes line (js "{") || includes line (js "}") then true
  else if isSome (abilityWordRegex line) then true
  else if isSome (keywordNumberRegex line) then true
  else
    let lower := toLowerCase E line in
    existsb (fun term => includes lower term) mechanics.

(** One turn of the loop body, on [line = remaining[i]]. *)
Definition scanLine (st : Scan) (line : jsstring) : Scan :=
  if startsWithQuote line then
    {| processingFlavor := processingFlavor st;
       rulesStack := rulesStack st;
       flavorStack := line :: flavorStack st |}
  else
    let pf := if isRuleLine line then false else processingFlavor st in
    if pf then
      {| processingFlavor := pf;
         rulesStack := rulesStack st;
         flavorStack := line :: flavorStack st |}
    else
      {| processingFlavor := pf;
         rulesStack := line :: rulesStack st;
         flavorStack := flavorStack st |}.

(** [for (let i = n - 1; i >= 0; i--)]: [n] turns are left, the next
    one reads [remaining[n - 1]] ([undefined] out of range, whose
    [startsWith] is a [TypeError]). *)
Fixpoint scanFrom (remaining : list jsstring) (n : nat) (st : Scan)
  : Completion Scan :=
  match n with
  | O => Normal st
  | S i =>
      match nth_error remaining i with
      | Some line => scanFrom remaining i (scanLine st line)
      | None => Throw TypeError
      end
  end.

Definition scanStart : Scan :=
  {| processingFlavor := true; rulesStack := []; flavorStack := [] |}.

(** [finalizeCard(idLineMatch, bodyLines)]; [idLineMatch] is whatever
    [currentIdLine] holds, [null] ([None]) included. *)
Definition finalizeCard (idLineMatch : option MatchArray)
           (bodyLines : list jsstring) : Completion Card :=
  match idLineMatch with
  | None => Throw TypeError
  | Some m =>
      let cleanBody := filter (fun l => negb (isEmpty (trim l))) bodyLines in
      match cleanBody with
      | [] =>
          Normal {| card_id := m1 m; card_name := m2 m;
                    card_cost := orEmpty (m3 m); card_type := [];
                    card_text := []; card_flavor := [] |}
      | first :: remaining =>
          st <- scanFrom remaining (List.length remaining) scanStart ;;
          Normal {| card_id := m1 m; card_name := m2 m;
                    card_cost := orEmpty (m3 m); card_type := first;
                    card_text := rulesStack st;
                    card_flavor := flavorStack st |}
      end
  end.

Definition setSection (st : PState) (s : Section_) : PState :=
  {| cards := cards st; setInfo := setInfo st;
     currentIdLine := currentIdLine st;
     currentBuffer := currentBuffer st; parsingSection := s |}.

(** The card-start branch: emit the open card, open the new one. *)
Definition startCard (st : PState) (match_ : option MatchArray)
           (cleanLine : jsstring) : Completion PState :=
  emitted <-
    match currentIdLine st with
    | Some _ =>
        card <- finalizeCard (currentIdLine st) (currentBuffer st) ;;
        Normal (cards st ++ [card])
    | None => Normal (cards st)
    end ;;
  Normal {| cards := emitted; setInfo := setInfo st;
            currentIdLine :=
              match match_ with
              | Some m => Some m
              | None => Some {| m0 := None; m1 := js "UNKNOWN";
                                m2 := cleanLine; m3 := Some [] |}
              end;
            currentBuffer := [];
            parsingSection := parsingSection st |}.

(** The callback of [lines.forEach]. *)
Definition processLine (st : PState) (line : jsstring) : Completion PState :=
  let cleanLine := trim (stripSourceTag line) in
  if isEmpty cleanLine then Normal st
  else if includes cleanLine (js "1. FLAVOR & WORLD")
       then Normal (setSection st FLAVOR)
  else if includes cleanLine (js "2. MECHANICAL IDENTITIES")
       then Normal (setSection st MECHANICS)
  else if includes cleanLine (js "3. CARD FILE")
       then Normal (setSection st CARDS)
  else
    match parsingSection st with
    | FLAVOR =>
        Normal {| cards := cards st;
                  setInfo := {| flavor := flavor (setInfo st) ++ [cleanLine];
                                mechanics_ := mechanics_ (setInfo st) |};
                  currentIdLine := currentIdLine st;
                  currentBuffer := currentBuffer st;
                  parsingSection := parsingSection st |}
    | MECHANICS =>
        Normal {| cards := cards st;
                  setInfo := {| flavor := flavor (setInfo st);
                                mechanics_ := mechanics_ (setInfo st) ++ [cleanLine] |};
                  currentIdLine := currentIdLine st;
                  currentBuffer := currentBuffer st;
                  parsingSection := parsingSection st |}
    | CARDS =>
        let match_ := idTagRegex cleanLine in
        if isSome match_ || isSome (looseTagRegex cleanLine) then
          startCard st match_ cleanLine
        else
          match currentIdLine st with
          | Some _ =>
              Normal {| cards := cards st; setInfo := setInfo st;
                        currentIdLine := currentIdLine st;
                        currentBuffer := currentBuffer st ++ [cleanLine];
                        parsingSection := parsingSection st |}
          | None => Normal st
          end
    | INTRO => Normal st
    end.

Definition initial : PState :=
  {| cards := []; setInfo := {| flavor := []; mechanics_ := [] |};
     currentIdLine := None; currentBuffer := [];
     parsingSection := INTRO |}.

(** [parseDesignBible] from the point where [content] has been read. *)
Definition parseContent (content : jsstring)
  : Completion (list Card * SetInfo) :=
  st <- forEach processLine (splitLines content) initial ;;
  match currentIdLine st with
  | Some _ =>
      card <- finalizeCard (currentIdLine st) (currentBuffer st) ;;
      Normal (cards st ++ [card], setInfo st)
  | None => Normal (cards st, setInfo st)
  end.

(** The file system as the script sees it: the text of the file at a
    path, if there is one. *)
Definition FileSystem := jsstring -> option jsstring.

Definition INPUT_FILE : jsstring := js "alara_design_bible.txt".

Definition parseDesignBible (fs : FileSystem) (filePath : jsstring)
  : Completion (list Card * SetInfo) :=
  match fs filePath with
  | None => Throw ENOENT
  | Some content => parseContent content
  end.

(** [main] up to the parse: [None] when the missing input was reported
    ([console.error] and [return]), else what was parsed and is handed
    to [generateHTML]. *)
Definition main (fs : FileSystem)
  : Completion (option (list Card * SetInfo)) :=
  match fs INPUT_FILE with
  | None => Normal None
  | Some _ =>
      data <- parseDesignBible fs INPUT_FILE ;;
      Normal (Some data)
  end.

(** [Card.getFileName()]; an empty id is falsy. *)
Definition getFileName (card : Card) : jsstring :=
  let safeName := toLowerCase E (replaceNonAlnum (card_name card)) in
  if isEmpty (card_id card) then safeName ++ js ".png"
  else card_id card ++ js "_" ++ safeName ++ js ".png".

End Engine.

End Spoiler.

(* ================================================================== *)
(** * The art generator ([src/generate_alara.mjs]) *)
(* ================================================================== *)

Module ArtGen.

(** ** [class Card] *)
Record Card := {
  card_id : jsstring;
  card_name : jsstring;
  card_cost : jsstring;
  card_type : jsstring;
  card_text : list jsstring;
  card_flavor : jsstring
}.

(** [new Card()] *)
Definition newCard : Card :=
  {| card_id := []; card_name := []; card_cost := []; card_type := [];
     card_text := []; card_flavor := [] |}.

(** A [Set] of strings in insertion order, and [Array.from] of it. *)
Definition setAdd (s : list jsstring) (x : jsstring) : list jsstring :=
  if existsb (jsstring_eqb x) s then s else s ++ [x].

(** [a.includes(x)] on an array of strings. *)
Definition arrayIncludes (a : list jsstring) (x : jsstring) : bool :=
  existsb (jsstring_eqb x) a.

(** The color symbols tested by [getColorIdentity], in its order, each
    with the tag it adds. *)
Definition colorSymbols : list (jsstring * jsstring) :=
  [ (js "{W}", js "White"); (js "{U}", js "Blue"); (js "{B}", js "Black");
    (js "{R}", js "Red"); (js "{G}", js "Green") ].

(** The labels [getShardIdentity] returns. *)
Definition ESPER := js "The Shard of Esper (Alara)".
Definition GRIXIS := js "The Shard of Grixis (Alara)".
Definition JUND := js "The Shard of Jund (Alara)".
Definition NAYA := js "The Shard of Naya (Alara)".
Definition BANT := js "The Shard of Bant (Alara)".
Definition CONFLUX := js "The Conflux of Alara (Five-Color Energy)".
Definition ESPER_OR_BANT := js "The Shard of Esper (Alara) or Bant".
Definition ESPER_OR_GRIXIS := js "The Shard of Esper (Alara) or Grixis".
Definition JUND_OR_GRIXIS := js "The Shard of Jund (Alara) or Grixis".
Definition JUND_OR_NAYA := js "The Shard of Jund (Alara) or Naya".
Definition BANT_OR_NAYA := js "The Shard of Bant (Alara) or Naya".
Definition MAELSTROM := js "The Maelstrom of Alara (Chaotic Mana Storm)".
Definition PLANE := js "The Plane of Alara".

(** The opening-quote literal of the flavor test of [parseDesignBible],
    as the source file spells it: the three code points U+00E2, U+20AC,
    U+0153. *)
Definition QUOTE_LITERAL : jsstring := [226; 8364; 339].

(** The variables of [parseDesignBible] that its [forEach] callback
    reads and writes. *)
Record PState := {
  cards : list Card;
  currentCard : option Card
}.

(** The flavor test on a body line of the forward parser. *)
Definition isFlavorLine (cleanLine : jsstring) : bool :=
  startsWith cleanLine QUOTE_LITERAL
  || (endsWith cleanLine (js ".")
      && negb (includes cleanLine (js ":"))
      && negb (includes cleanLine (js "{"))).

(** The body-line part of the callback: [currentCard] is open and the
    line starts no card. *)
Definition addBodyLine (c : Card) (cleanLine : jsstring) : Card :=
  if isEmpty (card_type c) then
    {| card_id := card_id c; card_name := card_name c;
       card_cost := card_cost c; card_type := cleanLine;
       card_text := card_text c; card_flavor := card_flavor c |}
  else if isFlavorLine cleanLine then
    {| card_id := card_id c; card_name := card_name c;
       card_cost := card_cost c; card_type := card_type c;
       card_text := card_text c;
       card_flavor := card_flavor c ++ js " " ++ cleanLine |}
  else
    {| card_id := card_id c; card_name := card_name c;
       card_cost := card_cost c; card_type := card_type c;
       card_text := card_text c ++ [cleanLine];
       card_flavor := card_flavor c |}.

(** The callback of [lines.forEach]; [idTagRegex] and [sourceTagRegex]
    are the same literals as in the spoiler generator. *)
Definition processLine (st : PState) (line : jsstring) : PState :=
  let cleanLine := trim (Spoiler.stripSourceTag line) in
  if isEmpty cleanLine then st
  else
    let idMatch := Spoiler.idTagRegex cleanLine in
    if isSome idMatch || isSome (Spoiler.looseTagRegex cleanLine) then
      {| cards := match currentCard st with
                  | Some c => cards st ++ [c]
                  | None => cards st
                  end;
         currentCard :=
           Some match idMatch with
                | Some m =>
                    {| card_id := Spoiler.m1 m; card_name := Spoiler.m2 m;
                       card_cost := Spoiler.orEmpty (Spoiler.m3 m);
                       card_type := []; card_text := []; card_flavor := [] |}
                | None =>
                    {| card_id := []; card_name := cleanLine;
                       card_cost := []; card_type := []; card_text := [];
                       card_flavor := [] |}
                end |}
    else
      match currentCard st with
      | None => st
      | Some c =>
          {| cards := cards st; currentCard := Some (addBodyLine c cleanLine) |}
      end.

(** [Card.getColors()]; an empty cost is falsy.  [getCastingColors] returns
    the same array. *)
Definition getColors (c : Card) : list jsstring :=
  let colors := [] in
  let colors := if negb (isEmpty (card_cost c)) && includes (card_cost c) (js "{W}")
                then colors ++ [js "White"] else colors in
  let colors := if negb (isEmpty (card_cost c)) && includes (card_cost c) (js "{U}")
                then colors ++ [js "Blue"] else colors in
  let colors := if negb (isEmpty (card_cost c)) && includes (card_cost c) (js "{B}")
                then colors ++ [js "Black"] else colors in
  let colors := if negb (isEmpty (card_cost c)) && includes (card_cost c) (js "{R}")
                then colors ++ [js "Red"] else colors in
  let colors := if negb (isEmpty (card_cost c)) && includes (card_cost c) (js "{G}")
                then colors ++ [js "Green"] else colors in
  colors.

Definition getCastingColors (c : Card) : list jsstring := getColors c.

Definition initial : PState := {| cards := []; currentCard := None |}.

(** [parseDesignBible] from the point where [content] has been read. *)
Definition parseContent (content : jsstring) : list Card :=
  let st := fold_left processLine (splitLines content) initial in
  match currentCard st with
  | Some c => cards st ++ [c]
  | None => cards st
  end.

Section Engine.
Variable E : CaseTables.

(** The string [getColorIdentity] searches. *)
Definition fullString (c : Card) : jsstring :=
  toUpperCase E (card_cost c ++ js " " ++ join (js " ") (card_text c)).

Definition getColorIdentity (c : Card) : list jsstring :=
  let fullString := fullString c in
  let colors := [] in
  let colors := if includes fullString (js "{W}") then setAdd colors (js "White") else colors in
  let colors := if includes fullString (js "{U}") then setAdd colors (js "Blue") else colors in
  let colors := if includes fullString (js "{B}") then setAdd colors (js "Black") else colors in
  let colors := if includes fullString (js "{R}") then setAdd colors (js "Red") else colors in
  let colors := if includes fullString (js "{G}") then setAdd colors (js "Green") else colors in
  colors.

Definition getShardIdentity (card : Card) : jsstring :=
  let nameLower := toLowerCase E (card_name card) in
  let textLower := toLowerCase E (join (js " ") (card_text card)) in
  let typeLower := toLowerCase E (card_type card) in
  let c := getColorIdentity card in
  let colorCount := List.length c in
  (* 1. EXPLICIT NAME MATCHING *)
  if includes nameLower (js "esper") then ESPER
  else if includes nameLower (js "grixis") then GRIXIS
  else if includes nameLower (js "jund") then JUND
  else if includes nameLower (js "naya") then NAYA
  else if includes nameLower (js "bant") then BANT
  (* 2. MECHANICAL IDENTITY MATCHING *)
  else if includes textLower (js "fabricate") then ESPER
  else if includes textLower (js "covenant") then BANT
  else if includes textLower (js "exhume") then GRIXIS
  else if includes textLower (js "carnage") then JUND
  else if includes textLower (js "titanic") then NAYA
  else if includes textLower (js "spectrum") then CONFLUX
  else
    (* 3. COLOR IDENTITY MATCHING *)
    let hasW := arrayIncludes c (js "White") in
    let hasU := arrayIncludes c (js "Blue") in
    let hasB := arrayIncludes c (js "Black") in
    let hasR := arrayIncludes c (js "Red") in
    let hasG := arrayIncludes c (js "Green") in
    let threeColors :=
      if Nat.eqb colorCount 3 then
        if hasW && hasU && hasB then Some ESPER
        else if hasU && hasB && hasR then Some GRIXIS
        else if hasB && hasR && hasG then Some JUND
        else if hasR && hasG && hasW then Some NAYA
        else if hasG && hasW && hasU then Some BANT
        else None
      else None in
    (* Guild Mappings *)
    let twoColors :=
      if Nat.eqb colorCount 2 then
        if hasW && hasU then Some ESPER_OR_BANT
        else if hasU && hasB then Some ESPER_OR_GRIXIS
        else if hasB && hasR then Some JUND_OR_GRIXIS
        else if hasR && hasG then Some JUND_OR_NAYA
        else if hasG && hasW then Some BANT_OR_NAYA
        else None
      else None in
    match threeColors with Some label => label | None =>
    match twoColors with Some label => label | None =>
    (* 4. TYPE & FLAVOR FALLBACKS *)
    if includes typeLower (js "artifact") then ESPER
    else if includes typeLower (js "zombie") || includes typeLower (js "demon") then GRIXIS
    else if includes typeLower (js "dragon") || includes typeLower (js "viashino")
            || includes typeLower (js "goblin") then JUND
    else if includes typeLower (js "beast") || includes typeLower (js "gargantuan") then NAYA
    else if includes typeLower (js "angel") || includes typeLower (js "soldier") then BANT
    (* 5. GENERIC FALLBACK *)
    else if Nat.leb 4 colorCount then MAELSTROM
    else PLANE
    end end.

(** [Card.getFileName()]; an empty id is falsy. *)
Definition getFileName (card : Card) : jsstring :=
  let safeName := toLowerCase E (replaceNonAlnum (card_name card)) in
  if isEmpty (card_id card) then safeName ++ js ".png"
  else card_id card ++ js "_" ++ safeName ++ js ".png".

End Engine.

End ArtGen.

(* ================================================================== *)
(** * The first spoiler-page generator ([src/unnamed/part_000], first
      script): cards only, no sections *)
(* ================================================================== *)

Module CardsOnly.

(** The variables of [parseDesignBible] that its [forEach] callback
    reads and writes.  [Card], [finalizeCard], [idTagRegex] and
    [sourceTagRegex] read as in the later script. *)
Record PState := {
  cards : list Spoiler.Card;
  currentIdLine : option Spoiler.MatchArray;
  currentBuffer : list jsstring
}.

Section Engine.
Variable E : CaseTables.

(** The callback of [lines.forEach]. *)
Definition processLine (st : PState) (line : jsstring) : Completion PState :=
  let cleanLine := trim (Spoiler.stripSourceTag line) in
  if isEmpty cleanLine then Normal st
  else
    let match_ := Spoiler.idTagRegex cleanLine in
    if isSome match_ || isSome (Spoiler.looseTagRegex cleanLine) then
      emitted <-
        match currentIdLine st with
        | Some _ =>
            card <- Spoiler.finalizeCard E (currentIdLine st) (currentBuffer st) ;;
            Normal (cards st ++ [card])
        | None => Normal (cards st)
        end ;;
      Normal {| cards := emitted;
                currentIdLine :=
                  match match_ with
                  | Some m => Some m
                  | None => Some {| Spoiler.m0 := None;
                                    Spoiler.m1 := js "UNKNOWN";
                                    Spoiler.m2 := cleanLine;
                                    Spoiler.m3 := Some [] |}
                  end;
                currentBuffer := [] |}
    else
      match currentIdLine st with
      | Some _ =>
          Normal {| cards := cards st; currentIdLine := currentIdLine st;
                    currentBuffer := currentBuffer st ++ [cleanLine] |}
      | None => Normal st
      end.

Definition initial : PState :=
  {| cards := []; currentIdLine := None; currentBuffer := [] |}.

(** [parseDesignBible] from the point where [content] has been read. *)
Definition parseContent (content : jsstring) : Completion (list Spoiler.Card) :=
  st <- forEach processLine (splitLines content) initial ;;
  match currentIdLine st with
  | Some _ =>
      card <- Spoiler.finalizeCard E (currentIdLine st) (currentBuffer st) ;;
      Normal (cards st ++ [card])
  | None => Normal (cards st)
  end.

End Engine.

End CardsOnly.

(* ================================================================== *)
(** * The page of the spoiler generator ([src/unnamed/part_001]): mana
      symbols and the color class of a card *)
(* ================================================================== *)

Module Page.

(** The class of the symbol pattern: capital letters, digits and the
    slash. *)
Definition isSymbolUnit (c : N) : bool :=
  isUpperAZ c || isDigit c || isChar "/" c.

(** The symbol pattern of [formatSymbols] (an opening brace, one or more
    units of the class, a closing brace) tried at the start of [s]: the
    symbol it captures and the text after the match. *)
Definition symbolRegex : jsstring -> option (jsstring * jsstring) :=
  chr (isChar "{") (plusGreedy isSymbolUnit (fun symbol =>
    chr (isChar "}") (fun rest => Some (symbol, rest)))).

(** [symbol.replace] with the slash as a string pattern: the first slash
    is removed, any later one stays. *)
Fixpoint removeFirstSlash (symbol : jsstring) : jsstring :=
  match symbol with
  | [] => []
  | c :: rest => if isChar "/" c then rest else c :: removeFirstSlash rest
  end.

(** The opening tag and class prefix of an icon, and what closes it. *)
Definition ICON_OPEN : jsstring := js "<i class=" ++ [DQUOTE] ++ js "ms ms-".
Definition ICON_CLOSE : jsstring := js " ms-cost" ++ [DQUOTE] ++ js "></i>".

(** [card.cost || s] with [s] the empty string, for a string cost. *)
Definition orEmptyString (s : jsstring) : jsstring :=
  if isEmpty s then [] else s.

(** The classes of the two patterns of [getFormattedText]: letters, and
    letters or white space. *)
Definition isAlpha (c : N) : bool := isLowerAZ c || isUpperAZ c.
Definition isAlphaOrSpace (c : N) : bool := isAlpha c || isSpace c.

(** One character of a class, handed to the continuation. *)
Definition chrAs {R : Type} (p : N -> bool) (k : N -> jsstring -> option R)
  : jsstring -> option R :=
  fun s => match s with
           | c :: s' => if p c then k c s' else None
           | [] => None
           end.

(** The end of the first pattern of [getFormattedText]: group 2 is a
    blank and a dash, or else a colon.  [g1] is what group 1 took. *)
Definition leadEnd (g1 : jsstring)
  : jsstring -> option (jsstring * jsstring * jsstring) :=
  orElse
    (chr (isChar " ")
       (chr (N.eqb EM_DASH) (fun rest => Some (g1, js " " ++ [EM_DASH], rest))))
    (chr (isChar ":") (fun rest => Some (g1, js ":", rest))).

(** The first pattern of [getFormattedText], anchored at the start:
    group 1 is one or more letters or white-space units and then, if
    there is one, a white-space unit and digits; group 2 follows.  The
    answer is group 1, group 2 and the text after the match. *)
Definition leadRegex : jsstring -> option (jsstring * jsstring * jsstring) :=
  plusGreedy isAlphaOrSpace (fun words =>
    orElse
      (chrAs isSpace (fun sp =>
         plusGreedy isDigit (fun digits => leadEnd (words ++ sp :: digits))))
      (leadEnd words)).

(** The first replacement: group 1 in strong tags, then group 2. *)
Definition strongReplace (formatted : jsstring) : jsstring :=
  match leadRegex formatted with
  | Some (g1, g2, rest) =>
      js "<strong>" ++ g1 ++ js "</strong>" ++ g2 ++ rest
  | None => formatted
  end.

(** The second pattern, anchored at the start: one or more letters, a
    blank and a dash.  Under the flag [g] it still matches at the start
    only. *)
Definition wordDashRegex : jsstring -> option (jsstring * jsstring) :=
  plusGreedy isAlpha (fun word =>
    chr (isChar " ") (chr (N.eqb EM_DASH) (fun rest => Some (word, rest)))).

(** The second replacement: the word in italics, a blank and a dash. *)
Definition italicReplace (formatted : jsstring) : jsstring :=
  match wordDashRegex formatted with
  | Some (word, rest) =>
      js "<i>" ++ word ++ js "</i> " ++ [EM_DASH] ++ rest
  | None => formatted
  end.

(** The patterns of the mechanics list of [generateHTML]: a star, white
    space, a name up to the first colon that can end it; and a star and
    white space. *)
Definition bulletNameRegex : jsstring -> option (jsstring * jsstring) :=
  chr (isChar "*") (starGreedy isSpace (fun _ =>
    plusLazy isDot (fun name =>
      chr (isChar ":") (fun rest => Some (name, rest)))) []).

Definition bulletRegex : jsstring -> option jsstring :=
  chr (isChar "*") (starGreedy isSpace (fun _ rest => Some rest) []).

(** One item of the mechanics list. *)
Definition mechanicsItem (line : jsstring) : jsstring :=
  let formatted :=
    match bulletNameRegex line with
    | Some (name, rest) => js "<strong>" ++ name ++ js ":</strong>" ++ rest
    | None => line
    end in
  js "<li>"
    ++ match bulletRegex formatted with
       | Some rest => rest
       | None => formatted
       end
    ++ js "</li>".

(** [mechanicsHTML] of [generateHTML]. *)
Definition mechanicsHTML (setInfo : Spoiler.SetInfo) : jsstring :=
  join [] (map mechanicsItem (Spoiler.mechanics_ setInfo)).

(** The color letters [generateHTML] finds in a cost, in the order of
    its tests. *)
Definition costColors (c : jsstring) : list jsstring :=
  let colors := [] in
  let colors := if includes c (js "W") then colors ++ [js "W"] else colors in
  let colors := if includes c (js "U") then colors ++ [js "U"] else colors in
  let colors := if includes c (js "B") then colors ++ [js "B"] else colors in
  let colors := if includes c (js "R") then colors ++ [js "R"] else colors in
  let colors := if includes c (js "G") then colors ++ [js "G"] else colors in
  colors.

Section Engine.
Variable E : CaseTables.

(** The callback of the replacement: the icon of a captured symbol. *)
Definition icon (symbol : jsstring) : jsstring :=
  let cleanSymbol := toLowerCase E (removeFirstSlash symbol) in
  let cleanSymbol :=
    if jsstring_eqb cleanSymbol (js "t") then js "tap" else cleanSymbol in
  let cleanSymbol :=
    if jsstring_eqb cleanSymbol (js "q") then js "untap" else cleanSymbol in
  ICON_OPEN ++ cleanSymbol ++ ICON_CLOSE.

(** [text.replace] with the symbol pattern under the flag [g]: at each
    position the pattern is tried; a match is replaced by its icon and
    the search goes on after the match, a unit where the pattern fails is
    copied.  [fuel] bounds the number of steps. *)
Fixpoint replaceSymbols (fuel : nat) (s : jsstring) : jsstring :=
  match fuel with
  | O => s
  | S fuel' =>
      match s with
      | [] => []
      | c :: s' =>
          match symbolRegex s with
          | Some (symbol, rest) => icon symbol ++ replaceSymbols fuel' rest
          | None => c :: replaceSymbols fuel' s'
          end
      end
  end.

(** [Card.formatSymbols(text)]; an empty text is falsy.  One step per
    code unit of the text is enough. *)
Definition formatSymbols (text : jsstring) : jsstring :=
  if isEmpty text then [] else replaceSymbols (List.length text) text.

(** [Card.getFormattedCost()] *)
Definition getFormattedCost (card : Spoiler.Card) : jsstring :=
  formatSymbols (Spoiler.card_cost card).

(** The color class [generateHTML] gives the container of a card. *)
Definition colorClass (card : Spoiler.Card) : jsstring :=
  let colorClass := js "colorless" in
  let c := orEmptyString (Spoiler.card_cost card) in
  let colors := costColors c in
  let colorClass :=
    if Nat.ltb 1 (List.length colors) then js "gold"
    else if ArtGen.arrayIncludes colors (js "W") then js "white"
    else if ArtGen.arrayIncludes colors (js "U") then js "blue"
    else if ArtGen.arrayIncludes colors (js "B") then js "black"
    else if ArtGen.arrayIncludes colors (js "R") then js "red"
    else if ArtGen.arrayIncludes colors (js "G") then js "green"
    else colorClass in
  let colorClass :=
    if includes (toLowerCase E (Spoiler.card_type card)) (js "land")
    then js "land" else colorClass in
  let colorClass :=
    if includes (toLowerCase E (Spoiler.card_type card)) (js "artifact")
       && Nat.eqb (List.length colors) 0
    then js "artifact" else colorClass in
  colorClass.

(** One paragraph of [getFormattedText]. *)
Definition formatLine (line : jsstring) : jsstring :=
  let formatted := formatSymbols line in
  let formatted := strongReplace formatted in
  let formatted := italicReplace formatted in
  js "<p>" ++ formatted ++ js "</p>".

(** [Card.getFormattedText()] *)
Definition getFormattedText (card : Spoiler.Card) : jsstring :=
  join [] (map formatLine (Spoiler.card_text card)).

End Engine.

End Page.

(* ================================================================== *)
(** * Vocabulary of the statements *)
(* ================================================================== *)

(** Case tables that leave every non-ASCII code unit as it is: an engine
    to run the embedding on concrete inputs. *)
Definition plainTables : CaseTables :=
  {| lowerNonAscii := fun _ c _ => [c]; upperNonAscii := fun _ c _ => [c] |}.

Definition LF : jsstring := [10].

(** The lines [mask] marks, in order. *)
Fixpoint select {A : Type} (mask : list bool) (l : list A) : list A :=
  match mask, l with
  | b :: mask', x :: l' => if b then x :: select mask' l' else select mask' l'
  | _, _ => []
  end.

(** Two lists merged back by position: position [i] takes the next line
    of [marked] when [mask] marks [i], of [others] when it does not. *)
Fixpoint merge {A : Type} (mask : list bool) (marked others : list A) : list A :=
  match mask with
  | [] => []
  | true :: mask' =>
      match marked with
      | x :: marked' => x :: merge mask' marked' others
      | [] => []
      end
  | false :: mask' =>
      match others with
      | x :: others' => x :: merge mask' marked others'
      | [] => []
      end
  end.

(** A body line as [parseDesignBible] buffers it: not blank. *)
Definition nonBlank (l : jsstring) : bool := negb (isEmpty (trim l)).

(** [card] splits [bodyLines] by position: its type line is the first
    non-blank line; a mask over the positions of the non-blank lines after
    it marks the flavor lines, the unmarked positions are the rules lines,
    each list in the body's order; merged back by position the two lists
    give those lines again. *)
Definition splitsByPosition (card : Spoiler.Card) (bodyLines : list jsstring)
  : Prop :=
  exists mask : list bool,
    Spoiler.card_type card = hd [] (filter nonBlank bodyLines)
    /\ List.length mask = List.length (tl (filter nonBlank bodyLines))
    /\ Spoiler.card_flavor card = select mask (tl (filter nonBlank bodyLines))
    /\ Spoiler.card_text card
       = select (map negb mask) (tl (filter nonBlank bodyLines))
    /\ merge mask (Spoiler.card_flavor card) (Spoiler.card_text card)
       = tl (filter nonBlank bodyLines).


(** A text of ASCII code units. *)
Definition isAscii (s : jsstring) : bool := forallb (fun c => c <? 128) s.

(** The text [s] mentions the symbol [sym], written in capital letters,
    in capital or small letters: with each small letter of [s] replaced
    by its capital, [sym] occurs in [s]. *)
Definition mentions (s sym : jsstring) : bool :=
  includes (map asciiUpper s) sym.

(** The backward scan of [finalizeCard] as a fold from the last line. *)
Definition scanAll (E : CaseTables) (remaining : list jsstring)
           (st : Spoiler.Scan) : Spoiler.Scan :=
  fold_right (fun line acc => Spoiler.scanLine E acc line) st remaining.

(** No unquoted line that is not a rules line stands above an unquoted
    rules line. *)
Fixpoint flavorTrails (E : CaseTables) (rest : list jsstring) : bool :=
  match rest with
  | [] => true
  | x :: below =>
      (Spoiler.startsWithQuote x || Spoiler.isRuleLine E x
       || negb (existsb (fun y => negb (Spoiler.startsWithQuote y)
                                  && Spoiler.isRuleLine E y) below))
      && flavorTrails E below
  end.

(** The per-line tests of the two parsers give the same verdict on [l]:
    the forward test of the art generator says flavor exactly when the
    line starts with a quote or is no rules line. *)
Definition sameVerdict (E : CaseTables) (l : jsstring) : bool :=
  Bool.eqb (ArtGen.isFlavorLine l)
           (Spoiler.startsWithQuote l || negb (Spoiler.isRuleLine E l)).

(** The document of the scenario: the header and the four lines of one
    card. *)
Definition scenario : jsstring :=
  js "3. CARD FILE" ++ LF
  ++ js "[M01] Test Card {1}{W}" ++ LF
  ++ (js "Creature " ++ [EM_DASH] ++ js " Test") ++ LF
  ++ js "Flying" ++ LF
  ++ ([DQUOTE] ++ js "A quote." ++ [DQUOTE]).

(** The label set of [getShardIdentity]. *)
Definition labels : list jsstring :=
  [ ArtGen.ESPER; ArtGen.GRIXIS; ArtGen.JUND; ArtGen.NAYA; ArtGen.BANT;
    ArtGen.CONFLUX; ArtGen.ESPER_OR_BANT; ArtGen.ESPER_OR_GRIXIS;
    ArtGen.JUND_OR_GRIXIS; ArtGen.JUND_OR_NAYA; ArtGen.BANT_OR_NAYA;
    ArtGen.MAELSTROM; ArtGen.PLANE ].

(** The five thematic keywords of the name rule with their labels, in the
    order the cascade tests them. *)
Definition nameKeywords : list (jsstring * jsstring) :=
  [ (js "esper", ArtGen.ESPER); (js "grixis", ArtGen.GRIXIS);
    (js "jund", ArtGen.JUND); (js "naya", ArtGen.NAYA);
    (js "bant", ArtGen.BANT) ].

(** The first keyword of [nameKeywords] a lower-cased name contains. *)
Definition firstKeyword (nameLower : jsstring) : option (jsstring * jsstring) :=
  find (fun kl => includes nameLower (fst kl)) nameKeywords.

(** The normalized line contains neither the flavor-section nor the
    mechanics-section header substring. *)
Definition noFlavorOrMechanicsHeader (line : jsstring) : bool :=
  let cleanLine := trim (Spoiler.stripSourceTag line) in
  negb (includes cleanLine (js "1. FLAVOR & WORLD"))
  && negb (includes cleanLine (js "2. MECHANICAL IDENTITIES")).

(** A line that starts a card: its normalized text is not empty and
    matches the structured pattern or begins with a bracketed tag. *)
Definition isCardStart (line : jsstring) : bool :=
  let cleanLine := trim (Spoiler.stripSourceTag line) in
  negb (isEmpty cleanLine)
  && (isSome (Spoiler.idTagRegex cleanLine)
      || isSome (Spoiler.looseTagRegex cleanLine)).

(** The normalized line contains none of the three header substrings. *)
Definition noHeader (line : jsstring) : bool :=
  let cleanLine := trim (Spoiler.stripSourceTag line) in
  negb (includes cleanLine (js "1. FLAVOR & WORLD"))
  && negb (includes cleanLine (js "2. MECHANICAL IDENTITIES"))
  && negb (includes cleanLine (js "3. CARD FILE")).

(** A state of the cards-only parser as a state of the later parser in
    its cards section, with the buckets [info]. *)
Definition inCardsSection (v : CardsOnly.PState) (info : Spoiler.SetInfo)
  : Spoiler.PState :=
  {| Spoiler.cards := CardsOnly.cards v;
     Spoiler.setInfo := info;
     Spoiler.currentIdLine := CardsOnly.currentIdLine v;
     Spoiler.currentBuffer := CardsOnly.currentBuffer v;
     Spoiler.parsingSection := Spoiler.CARDS |}.

(** The normalized line does not contain the cards header substring. *)
Definition noCardsHeader (line : jsstring) : bool :=
  negb (includes (trim (Spoiler.stripSourceTag line)) (js "3. CARD FILE")).

(** The body lines a card holds: its type line when it has one, its rules
    lines and its flavor lines. *)
Definition cardLineCount (card : Spoiler.Card) : nat :=
  (if isEmpty (Spoiler.card_type card) then 0 else 1)
  + List.length (Spoiler.card_text card)
  + List.length (Spoiler.card_flavor card).

(** A line that goes to the body of the open card: its normalized text is
    not empty and it starts no card. *)
Definition isBodyLine (line : jsstring) : bool :=
  negb (isEmpty (trim (Spoiler.stripSourceTag line))) && negb (isCardStart line).

(** The lines of a document from its first card-start line on. *)
Fixpoint fromFirstCard (lines : list jsstring) : list jsstring :=
  match lines with
  | [] => []
  | line :: rest => if isCardStart line then lines else fromFirstCard rest
  end.

(** The header fields as the structured pattern or the malformed-header
    literal leave them: an id of capital letters and digits, a name that
    is not empty, and a cost that is empty or a brace, text without line
    terminator, a brace. *)
Definition headerFields (cardId name cost : jsstring) : Prop :=
  cardId <> []
  /\ forallb isUpperOrDigit cardId = true
  /\ name <> []
  /\ (cost = []
      \/ exists x, forallb isDot x = true /\ cost = js "{" ++ x ++ js "}").

(** The sanitized name of [getFileName] without the engine: unit by
    unit. *)
Definition safeUnit (c : N) : N :=
  asciiLower (if isAlnumIgnoreCase c then c else 95).

(** The labels of the two-color rule of [getShardIdentity]. *)
Definition twoColorLabels : list jsstring :=
  [ ArtGen.ESPER_OR_BANT; ArtGen.ESPER_OR_GRIXIS; ArtGen.JUND_OR_GRIXIS;
    ArtGen.JUND_OR_NAYA; ArtGen.BANT_OR_NAYA ].

(** The labels of the five shards. *)
Definition shardLabels : list jsstring :=
  [ ArtGen.ESPER; ArtGen.GRIXIS; ArtGen.JUND; ArtGen.NAYA; ArtGen.BANT ].

(** A card of the spoiler generator and a card of the art generator that
    stand for the same card of the document: same name, cost and type
    line, and the same id unless the header was malformed, where the
    spoiler generator says UNKNOWN and the art generator leaves the id
    empty. *)
Definition sameCard (p : Spoiler.Card) (a : ArtGen.Card) : Prop :=
  ArtGen.card_name a = Spoiler.card_name p
  /\ ArtGen.card_cost a = Spoiler.card_cost p
  /\ ArtGen.card_type a = Spoiler.card_type p
  /\ (ArtGen.card_id a = Spoiler.card_id p
      \/ (ArtGen.card_id a = [] /\ Spoiler.card_id p = js "UNKNOWN")).

(** A line as the parsers keep it: not empty, with no white space at
    either end. *)
Definition isCleanLine (l : jsstring) : bool :=
  negb (isEmpty l) && negb (isSpace (hd 0 l)) && negb (isSpace (last l 0)).

(** The color classes of the page. *)
Definition colorClasses : list jsstring :=
  map js [ "colorless"; "gold"; "white"; "blue"; "black"; "red"; "green";
           "land"; "artifact" ]%string.

(** The icon of a symbol without the engine: the symbol without its first
    slash, in small letters, t and q spelled out. *)
Definition iconOf (symbol : jsstring) : jsstring :=
  let clean := map asciiLower (Page.removeFirstSlash symbol) in
  Page.ICON_OPEN
    ++ (if jsstring_eqb clean (js "t") then js "tap"
        else if jsstring_eqb clean (js "q") then js "untap"
        else clean)
    ++ Page.ICON_CLOSE.

(** The open card of the art generator agrees with the header array and
    the buffer of the spoiler generator: same name and cost, the type
    line is the first buffered line, and the same id unless the header
    was malformed. *)
Definition sameOpenCard (m : Spoiler.MatchArray) (buffer : list jsstring)
           (a : ArtGen.Card) : Prop :=
  ArtGen.card_name a = Spoiler.m2 m
  /\ ArtGen.card_cost a = Spoiler.orEmpty (Spoiler.m3 m)
  /\ ArtGen.card_type a = hd [] buffer
  /\ (ArtGen.card_id a = Spoiler.m1 m
      \/ (ArtGen.card_id a = [] /\ Spoiler.m1 m = js "UNKNOWN")).

(** The states of the two parsers after the same lines. *)
Definition sameCards (v : CardsOnly.PState) (g : ArtGen.PState) : Prop :=
  Forall2 sameCard (CardsOnly.cards v) (ArtGen.cards g)
  /\ forallb nonBlank (CardsOnly.currentBuffer v) = true
  /\ match CardsOnly.currentIdLine v, ArtGen.currentCard g with
     | Some m, Some a => sameOpenCard m (CardsOnly.currentBuffer v) a
     | None, None => True
     | _, _ => False
     end.

(** What holds of every card of the forward parser: a name, an id of
    capital letters and digits (or none), no rules text and no flavor
    before the type line is set, rules lines that are clean lines and
    fail the flavor test, and a flavor string that is empty or starts
    with the blank put before each flavor line. *)
Definition artCardShape (a : ArtGen.Card) : Prop :=
  ArtGen.card_name a <> []
  /\ forallb isUpperOrDigit (ArtGen.card_id a) = true
  /\ (ArtGen.card_type a = [] ->
      ArtGen.card_text a = [] /\ ArtGen.card_flavor a = [])
  /\ forallb isCleanLine (ArtGen.card_text a) = true
  /\ forallb (fun l => negb (ArtGen.isFlavorLine l)) (ArtGen.card_text a) = true
  /\ (ArtGen.card_flavor a = []
      \/ startsWith (ArtGen.card_flavor a) (js " ") = true).

(** Proof steps used more than once: case analysis on every test of a
    cascade, and membership in a list written out. *)
Ltac split_ifs :=
  repeat (match goal with
          | |- context [if ?b then _ else _] => destruct b
          end; cbv iota beta).

Ltac in_list :=
  cbn [In]; repeat (first [left; reflexivity | right]).

(** Case analysis on every comparison of code units in the goal, those
    that place [c] among the letters and digits first. *)
Ltac unit_cases c :=
  destruct (N.leb_spec 97 c); destruct (N.leb_spec c 122);
  destruct (N.leb_spec 65 c); destruct (N.leb_spec c 90);
  destruct (N.leb_spec 48 c); destruct (N.leb_spec c 57);
  cbv beta iota delta [andb orb]; try lia.

Ltac range_cases :=
  repeat (match goal with
          | |- context [?a <=? ?b] => destruct (N.leb_spec a b)
          | |- context [?a <? ?b] => destruct (N.ltb_spec a b)
          | |- context [?a =? ?b] => destruct (N.eqb_spec a b)
          end; cbv beta iota delta [andb orb]; try lia);
  try reflexivity.

(** The first test of a cascade under the predicate [P]. *)
Ltac head_if P :=
  match goal with
  | |- P (if ?b then _ else _) => destruct b eqn:?; cbv beta iota
  end.

(** [H] says that two different labels are equal, or that a label is in a
    list that does not hold it. *)
Ltac other_label H :=
  repeat (destruct H as [H|H]; [vm_compute in H; discriminate H|]);
  first [contradiction | vm_compute in H; discriminate H].

(** Names for the five letter tests of the page on [cost]. *)
Ltac name_tests cost :=
  set (pW := includes cost (js "W")) in *;
  set (pU := includes cost (js "U")) in *;
  set (pB := includes cost (js "B")) in *;
  set (pR := includes cost (js "R")) in *;
  set (pG := includes cost (js "G")) in *.

(** Two texts that differ in how their concatenations are nested. *)
Ltac same_text :=
  unfold js; cbn [map list_ascii_of_string app];
  rewrite <- ?app_assoc; cbn [app]; reflexivity.

(* ================================================================== *)
(** * The classifier *)
(* ================================================================== *)

Section Classifier.
Variable E : CaseTables.

(** C4: [isRuleLine] is true on the vocabulary term Flying and on a line
    with a brace symbol, false on a line with no symbol, no vocabulary
    term and no pattern match, and false on the empty string. *)
Theorem isRuleLine_examples :
  Spoiler.isRuleLine E (js "Flying") = true
  /\ Spoiler.isRuleLine E (js "{T}: Draw a card.") = true
  /\ Spoiler.isRuleLine E (js "A gentle breeze stirs the dust.") = false
  /\ Spoiler.isRuleLine E [] = false.
Proof.
  repeat split; vm_compute; reflexivity.
Qed.

End Classifier.

(* ================================================================== *)
(** * Finalization: the backward scan *)
(* ================================================================== *)

Lemma merge_select {A : Type} (mask : list bool) (l : list A) :
  List.length mask = List.length l ->
  merge mask (select mask l) (select (map negb mask) l) = l.
Proof.
  revert l; induction mask as [|b mask IH]; intros [|x l] Hlen;
    simpl in *; try discriminate; try reflexivity.
  injection Hlen as Hlen.
  destruct b; simpl; rewrite IH by assumption; reflexivity.
Qed.

Section Finalization.
Variable E : CaseTables.

Import Spoiler.

(** The index loop reads the lines it is given from the last to the
    first, and never out of range. *)
Lemma scanFrom_prefix (pre post : list jsstring) (st : Scan) :
  scanFrom E (pre ++ post) (List.length pre) st = Normal (scanAll E pre st).
Proof.
  revert post st; induction pre as [|x pre IH] using rev_ind; intros post st.
  - reflexivity.
  - rewrite length_app, Nat.add_1_r. cbn [scanFrom List.length].
    rewrite <- app_assoc.
    rewrite nth_error_app2, Nat.sub_diag by apply Nat.le_refl.
    cbn [app nth_error]. rewrite IH.
    unfold scanAll. rewrite fold_right_app. reflexivity.
Qed.

Lemma scanFrom_all (remaining : list jsstring) (st : Scan) :
  scanFrom E remaining (List.length remaining) st
  = Normal (scanAll E remaining st).
Proof.
  rewrite <- (app_nil_r remaining) at 1. apply scanFrom_prefix.
Qed.

(** What [finalizeCard] returns, with the loop read as a fold. *)
Lemma finalizeCard_eq (m : MatchArray) (bodyLines : list jsstring) :
  finalizeCard E (Some m) bodyLines
  = Normal {| card_id := m1 m; card_name := m2 m;
              card_cost := orEmpty (m3 m);
              card_type := hd [] (filter nonBlank bodyLines);
              card_text :=
                rulesStack (scanAll E (tl (filter nonBlank bodyLines)) scanStart);
              card_flavor :=
                flavorStack (scanAll E (tl (filter nonBlank bodyLines)) scanStart) |}.
Proof.
  unfold finalizeCard. fold nonBlank.
  change (filter (fun l => negb (isEmpty (trim l))) bodyLines)
    with (filter nonBlank bodyLines).
  destruct (filter nonBlank bodyLines) as [|first remaining].
  - reflexivity.
  - rewrite scanFrom_all. reflexivity.
Qed.

(** Every line of the scan goes to exactly one stack, on top of what the
    stacks held. *)
Lemma scanAll_partition (remaining : list jsstring) (st0 : Scan) :
  exists mask : list bool,
    List.length mask = List.length remaining
    /\ flavorStack (scanAll E remaining st0)
       = select mask remaining ++ flavorStack st0
    /\ rulesStack (scanAll E remaining st0)
       = select (map negb mask) remaining ++ rulesStack st0.
Proof.
  induction remaining as [|line rest IH].
  - exists []. repeat split.
  - destruct IH as (mask & Hlen & Hf & Hr).
    cbn [scanAll fold_right]. fold (scanAll E rest st0).
    unfold scanLine.
    destruct (startsWithQuote line).
    + exists (true :: mask). cbn. rewrite Hlen, Hf, Hr. repeat split.
    + destruct (isRuleLine E line).
      * exists (false :: mask). cbn. rewrite Hlen, Hf, Hr. repeat split.
      * destruct (processingFlavor (scanAll E rest st0)).
        -- exists (true :: mask). cbn. rewrite Hlen, Hf, Hr. repeat split.
        -- exists (false :: mask). cbn. rewrite Hlen, Hf, Hr. repeat split.
Qed.



(** Finalization of an open card returns a card that splits the body by
    position. *)
Lemma finalizeCard_splits (m : MatchArray) (bodyLines : list jsstring) :
  exists card : Card,
    finalizeCard E (Some m) bodyLines = Normal card
    /\ splitsByPosition card bodyLines.
Proof.
  destruct (scanAll_partition (tl (filter nonBlank bodyLines)) scanStart)
    as (mask & Hlen & Hf & Hr).
  cbn [scanStart flavorStack rulesStack] in Hf, Hr.
  rewrite app_nil_r in Hf, Hr.
  eexists. split; [apply finalizeCard_eq|].
  exists mask. cbn [card_type card_flavor card_text].
  rewrite Hf, Hr. repeat split; try assumption.
  apply merge_select; assumption.
Qed.



End Finalization.


(* ================================================================== *)
(** * The document parser *)
(* ================================================================== *)

Section Parsing.
Variable E : CaseTables.

Import Spoiler.

Lemma finalizeCard_normal (m : MatchArray) (bodyLines : list jsstring) :
  exists card, finalizeCard E (Some m) bodyLines = Normal card.
Proof.
  eexists. apply finalizeCard_eq.
Qed.

Lemma startCard_normal (st : PState) (match_ : option MatchArray)
      (cleanLine : jsstring) :
  exists emitted,
    startCard E st match_ cleanLine
    = Normal {| cards := emitted; setInfo := setInfo st;
                currentIdLine :=
                  match match_ with
                  | Some m => Some m
                  | None => Some {| m0 := None; m1 := js "UNKNOWN";
                                    m2 := cleanLine; m3 := Some [] |}
                  end;
                currentBuffer := [];
                parsingSection := parsingSection st |}
    /\ (emitted = cards st
        \/ exists m card,
             finalizeCard E (Some m) (currentBuffer st) = Normal card
             /\ emitted = cards st ++ [card]).
Proof.
  unfold startCard. destruct (currentIdLine st) as [m|].
  - rewrite finalizeCard_eq. cbn [bind]. eexists. split; [reflexivity|].
    right. eexists m, _. split; [apply finalizeCard_eq | reflexivity].
  - cbn [bind]. eexists. split; [reflexivity | left; reflexivity].
Qed.

Lemma processLine_normal (st : PState) (line : jsstring) :
  exists st', processLine E st line = Normal st'.
Proof.
  unfold processLine.
  destruct (isEmpty _); [eauto|].
  destruct (includes _ (js "1. FLAVOR & WORLD")); [eauto|].
  destruct (includes _ (js "2. MECHANICAL IDENTITIES")); [eauto|].
  destruct (includes _ (js "3. CARD FILE")); [eauto|].
  destruct (parsingSection st); eauto.
  destruct (_ || _).
  - destruct (startCard_normal st (idTagRegex (trim (stripSourceTag line)))
                (trim (stripSourceTag line))) as (emitted & H & _).
    rewrite H. eauto.
  - destruct (currentIdLine st); eauto.
Qed.

Lemma forEach_processLine_normal (lines : list jsstring) (st : PState) :
  exists st', forEach (processLine E) lines st = Normal st'.
Proof.
  revert st; induction lines as [|line lines IH]; intros st.
  - cbn. eauto.
  - cbn [forEach]. destruct (processLine_normal st line) as [st1 H1].
    rewrite H1. cbn [bind]. apply IH.
Qed.

Lemma parseContent_normal (content : jsstring) :
  exists result, parseContent E content = Normal result.
Proof.
  unfold parseContent.
  destruct (forEach_processLine_normal (splitLines content) initial) as [st H].
  rewrite H. cbn [bind].
  destruct (currentIdLine st) as [m|]; [|eauto].
  rewrite finalizeCard_eq. cbn [bind]. eauto.
Qed.

(** The cards emitted so far all come out of [finalizeCard]. *)
Lemma processLine_emits_finalized (st st' : PState) (line : jsstring) :
  processLine E st line = Normal st' ->
  Forall (fun card => exists m bodyLines,
              finalizeCard E (Some m) bodyLines = Normal card) (cards st) ->
  Forall (fun card => exists m bodyLines,
              finalizeCard E (Some m) bodyLines = Normal card) (cards st').
Proof.
  unfold processLine. intros Hstep Hinv.
  destruct (isEmpty _); [injection Hstep as <-; exact Hinv|].
  destruct (includes _ (js "1. FLAVOR & WORLD")); [injection Hstep as <-; exact Hinv|].
  destruct (includes _ (js "2. MECHANICAL IDENTITIES")); [injection Hstep as <-; exact Hinv|].
  destruct (includes _ (js "3. CARD FILE")); [injection Hstep as <-; exact Hinv|].
  destruct (parsingSection st); try (injection Hstep as <-; exact Hinv).
  destruct (_ || _).
  - destruct (startCard_normal st (idTagRegex (trim (stripSourceTag line)))
                (trim (stripSourceTag line))) as (emitted & H & Hem).
    rewrite H in Hstep. injection Hstep as <-. cbn [cards].
    destruct Hem as [->|(m & card & Hfin & ->)]; [exact Hinv|].
    apply Forall_app. split; [exact Hinv|].
    constructor; [|constructor]. exists m, (currentBuffer st). exact Hfin.
  - destruct (currentIdLine st); injection Hstep as <-; exact Hinv.
Qed.

Lemma forEach_emits_finalized (lines : list jsstring) (st st' : PState) :
  forEach (processLine E) lines st = Normal st' ->
  Forall (fun card => exists m bodyLines,
              finalizeCard E (Some m) bodyLines = Normal card) (cards st) ->
  Forall (fun card => exists m bodyLines,
              finalizeCard E (Some m) bodyLines = Normal card) (cards st').
Proof.
  revert st; induction lines as [|line lines IH]; intros st Hrun Hinv.
  - cbn in Hrun. injection Hrun as <-. exact Hinv.
  - cbn [forEach] in Hrun.
    destruct (processLine E st line) as [st1|e] eqn:Hstep; [|discriminate].
    cbn [bind] in Hrun.
    apply (IH st1 Hrun). apply (processLine_emits_finalized st st1 line Hstep Hinv).
Qed.

(** C1 (amended): finalization returns a card whose type line is the
    first non-blank body line and whose rules and flavor lines split the
    non-blank body lines after it by position: a mask over the positions
    marks the flavor lines, the unmarked positions are the rules lines,
    each list keeps the body's order, and merging the two lists back by
    position gives the body lines after the type line.  Every card of a
    parsed document is such a card. *)
Theorem finalizeCard_partition :
  (forall (m : MatchArray) (bodyLines : list jsstring),
      exists card : Card,
        finalizeCard E (Some m) bodyLines = Normal card
        /\ splitsByPosition card bodyLines)
  /\ (forall content : jsstring,
         exists (parsed : list Card) (info : SetInfo),
           parseContent E content = Normal (parsed, info)
           /\ Forall (fun card =>
                        exists m bodyLines,
                          finalizeCard E (Some m) bodyLines = Normal card
                          /\ splitsByPosition card bodyLines) parsed).
Proof.
  split; [apply finalizeCard_splits|].
  intros content.
  assert (Hsplit : forall parsed,
             Forall (fun card => exists m bodyLines,
                         finalizeCard E (Some m) bodyLines = Normal card) parsed ->
             Forall (fun card => exists m bodyLines,
                         finalizeCard E (Some m) bodyLines = Normal card
                         /\ splitsByPosition card bodyLines) parsed).
  { intros parsed H. apply Forall_forall. intros card Hin.
    rewrite Forall_forall in H. destruct (H card Hin) as (m & body & Hfin).
    destruct (finalizeCard_splits E m body) as (card' & Hfin' & Hs).
    rewrite Hfin in Hfin'. injection Hfin' as <-.
    exists m, body. split; assumption. }
  unfold parseContent.
  destruct (forEach_processLine_normal (splitLines content) initial) as [st Hrun].
  rewrite Hrun. cbn [bind].
  assert (Hinv := forEach_emits_finalized _ _ _ Hrun (Forall_nil _)).
  destruct (currentIdLine st) as [m|].
  - rewrite finalizeCard_eq. cbn [bind]. eexists _, _. split; [reflexivity|].
    apply Hsplit. apply Forall_app. split; [exact Hinv|].
    constructor; [|constructor]. exists m, (currentBuffer st). apply finalizeCard_eq.
  - eexists _, _. split; [reflexivity|]. apply Hsplit. exact Hinv.
Qed.

(** C3: the scenario document (the header line and the four lines of one
    card) parses to exactly one card with id M01, name Test Card, cost
    {1}{W}, the type line, the one rules line Flying and the one flavor
    line, the quoted sentence. *)
Theorem parse_scenario :
  parseContent E scenario
  = Normal ([ {| card_id := js "M01";
                 card_name := js "Test Card";
                 card_cost := js "{1}{W}";
                 card_type := js "Creature " ++ [EM_DASH] ++ js " Test";
                 card_text := [js "Flying"];
                 card_flavor := [[DQUOTE] ++ js "A quote." ++ [DQUOTE]] |} ],
            {| flavor := []; mechanics_ := [] |}).
Proof.
  vm_compute. reflexivity.
Qed.

(** C8: parsing returns a result for every document text and throws
    nothing; [main] reports a missing input document before it parses and
    otherwise hands on what was parsed; the one throw of
    [parseDesignBible] is that of reading a missing file; the classifier
    and the two identity functions return a value on every input. *)
Theorem parse_never_throws :
  (forall content : jsstring,
      exists result, parseContent E content = Normal result)
  /\ (forall content : jsstring,
         exists cards, ArtGen.parseContent content = cards)
  /\ (forall (fs : FileSystem) (filePath : jsstring),
         (fs filePath = None /\ parseDesignBible E fs filePath = Throw ENOENT)
         \/ (exists content result,
                fs filePath = Some content
                /\ parseDesignBible E fs filePath = Normal result))
  /\ (forall fs : FileSystem,
         (fs INPUT_FILE = None /\ main E fs = Normal None)
         \/ (exists content result,
                fs INPUT_FILE = Some content
                /\ parseContent E content = Normal result
                /\ main E fs = Normal (Some result)))
  /\ (forall line : jsstring,
         isRuleLine E line = true \/ isRuleLine E line = false)
  /\ (forall card : ArtGen.Card,
         (exists colors, ArtGen.getColorIdentity E card = colors)
         /\ (exists label, ArtGen.getShardIdentity E card = label)).
Proof.
  repeat apply conj.
  - apply parseContent_normal.
  - intros content. eexists. reflexivity.
  - intros fs filePath. unfold parseDesignBible.
    destruct (fs filePath) as [content|]; [right|left; split; reflexivity].
    destruct (parseContent_normal content) as [result H].
    exists content, result. split; [reflexivity|assumption].
  - intros fs. unfold main, parseDesignBible.
    destruct (fs INPUT_FILE) as [content|]; [right|left; split; reflexivity].
    destruct (parseContent_normal content) as [result H].
    exists content, result. rewrite H. repeat split.
  - intros line. destruct (isRuleLine E line); [left|right]; reflexivity.
  - intros card. split; eexists; reflexivity.
Qed.

(** A line of the cards section without the flavor or the mechanics header
    leaves the section and the two buckets as they are. *)
Lemma processLine_stays_in_cards (st : PState) (line : jsstring) :
  parsingSection st = CARDS ->
  noFlavorOrMechanicsHeader line = true ->
  exists st',
    processLine E st line = Normal st'
    /\ parsingSection st' = CARDS
    /\ setInfo st' = setInfo st.
Proof.
  intros Hsec Hhdr. unfold noFlavorOrMechanicsHeader in Hhdr.
  apply andb_prop in Hhdr. destruct Hhdr as [H1 H2].
  apply negb_true_iff in H1, H2.
  unfold processLine. cbv zeta. rewrite H1, H2.
  destruct (isEmpty _); [eauto|].
  destruct (includes _ (js "3. CARD FILE")).
  { eexists; repeat split. }
  rewrite Hsec.
  destruct (_ || _).
  - destruct (startCard_normal st (idTagRegex (trim (stripSourceTag line)))
                (trim (stripSourceTag line))) as (emitted & H & _).
    rewrite H, Hsec. eexists; repeat split.
  - destruct (currentIdLine st); eexists; repeat split; assumption.
Qed.

Lemma cards_section_persists_from (st : PState) (lines : list jsstring) (k : nat) :
  parsingSection st = CARDS ->
  forallb noFlavorOrMechanicsHeader lines = true ->
  exists st',
    forEach (processLine E) (firstn k lines) st = Normal st'
    /\ parsingSection st' = CARDS
    /\ setInfo st' = setInfo st.
Proof.
  revert st k; induction lines as [|line lines IH]; intros st k Hsec Hall.
  - rewrite firstn_nil. cbn. eauto.
  - destruct k as [|k]; [cbn; eauto|].
    cbn [forallb] in Hall. apply andb_prop in Hall. destruct Hall as [Hl Hall].
    cbn [firstn forEach].
    destruct (processLine_stays_in_cards st line Hsec Hl) as (st1 & H1 & Hs1 & Hi1).
    rewrite H1. cbn [bind].
    destruct (IH st1 k Hs1 Hall) as (st' & H' & Hs' & Hi').
    exists st'. rewrite Hi', Hi1. repeat split; assumption.
Qed.

(** C9 (amended): a line that contains a header substring sets the section
    to that header's (flavor before mechanics before cards when it
    contains several), whatever the current section is.  From a state in
    the cards section, as long as no line contains the flavor-section or
    the mechanics-section header substring, the parser is still in the
    cards section after each of the lines and has appended nothing to the
    flavor and mechanics buckets. *)
Theorem cards_section_persists :
  (forall (st : PState) (line : jsstring),
      isEmpty (trim (stripSourceTag line)) = false ->
      includes (trim (stripSourceTag line)) (js "1. FLAVOR & WORLD") = true ->
      processLine E st line = Normal (setSection st FLAVOR))
  /\ (forall (st : PState) (line : jsstring),
         isEmpty (trim (stripSourceTag line)) = false ->
         includes (trim (stripSourceTag line)) (js "1. FLAVOR & WORLD") = false ->
         includes (trim (stripSourceTag line)) (js "2. MECHANICAL IDENTITIES") = true ->
         processLine E st line = Normal (setSection st MECHANICS))
  /\ (forall (st : PState) (line : jsstring),
         isEmpty (trim (stripSourceTag line)) = false ->
         includes (trim (stripSourceTag line)) (js "1. FLAVOR & WORLD") = false ->
         includes (trim (stripSourceTag line)) (js "2. MECHANICAL IDENTITIES") = false ->
         includes (trim (stripSourceTag line)) (js "3. CARD FILE") = true ->
         processLine E st line = Normal (setSection st CARDS))
  /\ (forall (st : PState) (lines : list jsstring) (k : nat),
         parsingSection st = CARDS ->
         forallb noFlavorOrMechanicsHeader lines = true ->
         exists st',
           forEach (processLine E) (firstn k lines) st = Normal st'
           /\ parsingSection st' = CARDS
           /\ setInfo st' = setInfo st).
Proof.
  repeat apply conj.
  - intros st line Hne H1. unfold processLine. cbv zeta.
    rewrite Hne, H1. reflexivity.
  - intros st line Hne H1 H2. unfold processLine. cbv zeta.
    rewrite Hne, H1, H2. reflexivity.
  - intros st line Hne H1 H2 H3. unfold processLine. cbv zeta.
    rewrite Hne, H1, H2, H3. reflexivity.
  - apply cards_section_persists_from.
Qed.

(** C7 (amended): a line whose normalized text is not empty, contains no
    section-header substring, begins with a bracketed tag of capital
    letters and digits and fails the structured pattern opens a new card
    and throws nothing.  In the spoiler generator the open card has the
    sentinel id UNKNOWN, the normalized line as its name and an empty cost,
    and so has the record made of it whatever body follows; in the art
    generator the open card has the empty id, the normalized line as its
    name and an empty cost. *)
Theorem malformed_header_opens_card (st : PState) (gst : ArtGen.PState)
        (line : jsstring) :
  parsingSection st = CARDS ->
  isEmpty (trim (stripSourceTag line)) = false ->
  includes (trim (stripSourceTag line)) (js "1. FLAVOR & WORLD") = false ->
  includes (trim (stripSourceTag line)) (js "2. MECHANICAL IDENTITIES") = false ->
  includes (trim (stripSourceTag line)) (js "3. CARD FILE") = false ->
  isSome (looseTagRegex (trim (stripSourceTag line))) = true ->
  idTagRegex (trim (stripSourceTag line)) = None ->
  (exists st',
      processLine E st line = Normal st'
      /\ parsingSection st' = CARDS
      /\ currentBuffer st' = []
      /\ currentIdLine st'
         = Some {| m0 := None; m1 := js "UNKNOWN";
                   m2 := trim (stripSourceTag line); m3 := Some [] |}
      /\ forall bodyLines,
          exists card,
            finalizeCard E (currentIdLine st') bodyLines = Normal card
            /\ card_id card = js "UNKNOWN"
            /\ card_name card = trim (stripSourceTag line)
            /\ card_cost card = [])
  /\ (exists c,
         ArtGen.currentCard (ArtGen.processLine gst line) = Some c
         /\ ArtGen.card_id c = []
         /\ ArtGen.card_name c = trim (stripSourceTag line)
         /\ ArtGen.card_cost c = []).
Proof.
  intros Hsec Hne H1 H2 H3 Hloose Hstrict. split.
  - unfold processLine. cbv zeta. rewrite Hne, H1, H2, H3, Hsec, Hstrict, Hloose.
    cbn [isSome orb].
    destruct (startCard_normal st None (trim (stripSourceTag line)))
      as (emitted & H & _).
    rewrite H. eexists. split; [reflexivity|].
    cbn [parsingSection currentBuffer currentIdLine].
    repeat split; try assumption.
    intros bodyLines. eexists. split; [apply finalizeCard_eq|].
    repeat split.
  - unfold ArtGen.processLine. cbv zeta. rewrite Hne, Hstrict, Hloose.
    cbn [isSome orb ArtGen.currentCard].
    eexists. repeat split.
Qed.

End Parsing.


(* ================================================================== *)
(** * The identity deriver *)
(* ================================================================== *)

Lemma startsWith_nil (s : jsstring) : startsWith s [] = true.
Proof.
  destruct s; reflexivity.
Qed.

Lemma startsWith_app (s t p : jsstring) :
  startsWith s p = true -> startsWith (s ++ t) p = true.
Proof.
  revert s; induction p as [|a p IH]; intros s H.
  - apply startsWith_nil.
  - destruct s as [|b s]; [discriminate|].
    cbn in H |- *. apply andb_prop in H. destruct H as [Hab Hs].
    rewrite Hab. cbn. apply IH. assumption.
Qed.

Lemma includes_app_l (s t p : jsstring) :
  includes s p = true -> includes (s ++ t) p = true.
Proof.
  induction s as [|c s IH]; intros H.
  - cbn in H. rewrite orb_false_r in H.
    destruct p; [|discriminate].
    destruct t; reflexivity.
  - cbn [includes] in H. apply orb_prop in H.
    change ((c :: s) ++ t) with (c :: (s ++ t)). cbn [includes].
    apply orb_true_intro. destruct H as [H|H].
    + left. apply (startsWith_app (c :: s) t p H).
    + right. apply IH. assumption.
Qed.

(** An ASCII prefix is converted unit by unit, whatever follows it. *)
Lemma caseConvert_ascii_prefix (ascii : N -> N)
      (tbl : jsstring -> N -> jsstring -> jsstring) (a b before : jsstring) :
  forallb (fun c => c <? 128) a = true ->
  caseConvert ascii tbl before (a ++ b)
  = map ascii a ++ caseConvert ascii tbl (before ++ a) b.
Proof.
  revert before; induction a as [|c a IH]; intros before H.
  - rewrite app_nil_r. reflexivity.
  - cbn [forallb] in H. apply andb_prop in H. destruct H as [Hc Ha].
    cbn [app caseConvert map]. rewrite Hc, IH by assumption.
    rewrite <- app_assoc. reflexivity.
Qed.

Section Identity.
Variable E : CaseTables.

Import ArtGen.

(** [getColorIdentity] lists, in the order of the five tests, the tags
    whose symbol the searched string contains. *)
Lemma getColorIdentity_filter (card : Card) :
  getColorIdentity E card
  = map snd (filter (fun st => includes (fullString E card) (fst st))
                    colorSymbols).
Proof.
  unfold getColorIdentity, colorSymbols. cbv zeta. cbn [filter map fst snd].
  destruct (includes (fullString E card) (js "{W}"));
    destruct (includes (fullString E card) (js "{U}"));
    destruct (includes (fullString E card) (js "{B}"));
    destruct (includes (fullString E card) (js "{R}"));
    destruct (includes (fullString E card) (js "{G}"));
    reflexivity.
Qed.

(** Whatever subset of the five tests succeeds, the tags added are
    distinct. *)
Lemma colorTags_distinct (test : jsstring * jsstring -> bool) :
  NoDup (map snd (filter test colorSymbols)).
Proof.
  unfold colorSymbols. cbn [filter].
  repeat match goal with
         | |- context [if test ?x then _ else _] => destruct (test x)
         end;
    repeat constructor; cbn [In map snd]; intros H;
    repeat (destruct H as [H|H]; [vm_compute in H; discriminate|]);
    exact H.
Qed.

(** A cost of generic two, white and blue puts the white and the blue
    symbol in the searched string, whatever the rules lines are. *)
Lemma fullString_cost_2WU (card : Card) :
  card_cost card = js "{2}{W}{U}" ->
  includes (fullString E card) (js "{W}") = true
  /\ includes (fullString E card) (js "{U}") = true.
Proof.
  intros Hcost. unfold fullString, toUpperCase. rewrite Hcost.
  rewrite caseConvert_ascii_prefix by (vm_compute; reflexivity).
  split; apply includes_app_l; vm_compute; reflexivity.
Qed.

End Identity.

Lemma nameKeywords_functional (kw label label' : jsstring) :
  In (kw, label) nameKeywords -> In (kw, label') nameKeywords -> label = label'.
Proof.
  unfold nameKeywords. cbn [In]. intros H1 H2.
  destruct H1 as [H1|[H1|[H1|[H1|[H1|[]]]]]];
    destruct H2 as [H2|[H2|[H2|[H2|[H2|[]]]]]];
    pose proof (f_equal fst H1) as Hk1; pose proof (f_equal snd H1) as Hl1;
    pose proof (f_equal fst H2) as Hk2; pose proof (f_equal snd H2) as Hl2;
    cbn [fst snd] in Hk1, Hl1, Hk2, Hl2; subst kw label label';
    first [reflexivity | vm_compute in Hk2; discriminate].
Qed.

Section ShardIdentity.
Variable E : CaseTables.

Import ArtGen.

(** The cascade returns one of the thirteen labels. *)
Lemma getShardIdentity_label (card : Card) :
  In (getShardIdentity E card) labels.
Proof.
  unfold getShardIdentity, labels. cbv zeta. split_ifs; in_list.
Qed.

(** The name rule comes first: the first keyword the name contains
    decides. *)
Lemma getShardIdentity_firstKeyword (card : Card) (kw label : jsstring) :
  firstKeyword (toLowerCase E (card_name card)) = Some (kw, label) ->
  getShardIdentity E card = label.
Proof.
  unfold firstKeyword, nameKeywords, getShardIdentity. cbv zeta.
  cbn [find fst].
  destruct (includes (toLowerCase E (card_name card)) (js "esper"));
    [intros H; injection H as _ <-; reflexivity|].
  destruct (includes (toLowerCase E (card_name card)) (js "grixis"));
    [intros H; injection H as _ <-; reflexivity|].
  destruct (includes (toLowerCase E (card_name card)) (js "jund"));
    [intros H; injection H as _ <-; reflexivity|].
  destruct (includes (toLowerCase E (card_name card)) (js "naya"));
    [intros H; injection H as _ <-; reflexivity|].
  destruct (includes (toLowerCase E (card_name card)) (js "bant"));
    [intros H; injection H as _ <-; reflexivity|].
  discriminate.
Qed.

(** A name that contains a keyword has a first keyword. *)
Lemma firstKeyword_found (nameLower kw label : jsstring) :
  In (kw, label) nameKeywords ->
  includes nameLower kw = true ->
  exists kw' label',
    firstKeyword nameLower = Some (kw', label')
    /\ In (kw', label') nameKeywords
    /\ includes nameLower kw' = true.
Proof.
  intros Hin Hinc. unfold firstKeyword.
  destruct (find (fun kl => includes nameLower (fst kl)) nameKeywords)
    as [[kw' label']|] eqn:Hfind.
  - apply find_some in Hfind. exists kw', label'. tauto.
  - apply (find_none _ _ Hfind) in Hin. cbn in Hin. congruence.
Qed.

(** C5 (amended): [getShardIdentity] returns one label of the fixed label
    set on every card, and the name rule has top priority: when the lower-cased
    name contains one of the five keywords, the result is the label of the
    first keyword (in the order esper, grixis, jund, naya, bant) the name
    contains, so the label of the keyword when it is the only one, it is
    the same for every card of that name whatever its rules lines, type
    line and cost, and a card named Esper Stormwatcher gets the Esper
    label. *)
Theorem getShardIdentity_total_name_first (card : Card) :
  In (getShardIdentity E card) labels
  /\ (forall kw label,
         In (kw, label) nameKeywords ->
         includes (toLowerCase E (card_name card)) kw = true ->
         exists kw' label',
           firstKeyword (toLowerCase E (card_name card)) = Some (kw', label')
           /\ In (kw', label') nameKeywords
           /\ includes (toLowerCase E (card_name card)) kw' = true
           /\ getShardIdentity E card = label')
  /\ (forall kw label,
         In (kw, label) nameKeywords ->
         includes (toLowerCase E (card_name card)) kw = true ->
         (forall kw' label',
             In (kw', label') nameKeywords ->
             includes (toLowerCase E (card_name card)) kw' = true ->
             kw' = kw) ->
         getShardIdentity E card = label)
  /\ (forall kw label (other : Card),
         In (kw, label) nameKeywords ->
         includes (toLowerCase E (card_name card)) kw = true ->
         card_name other = card_name card ->
         getShardIdentity E other = getShardIdentity E card)
  /\ (card_name card = js "Esper Stormwatcher" ->
      getShardIdentity E card = ESPER).
Proof.
  repeat apply conj.
  - apply getShardIdentity_label.
  - intros kw label Hin Hinc.
    destruct (firstKeyword_found _ kw label Hin Hinc) as (kw' & label' & Hf & Hin' & Hinc').
    exists kw', label'. repeat split; try assumption.
    apply (getShardIdentity_firstKeyword card kw' label' Hf).
  - intros kw label Hin Hinc Honly.
    destruct (firstKeyword_found _ kw label Hin Hinc) as (kw' & label' & Hf & Hin' & Hinc').
    rewrite (getShardIdentity_firstKeyword card kw' label' Hf).
    rewrite (Honly kw' label' Hin' Hinc') in Hin'.
    apply (nameKeywords_functional kw); assumption.
  - intros kw label other Hin Hinc Hname.
    destruct (firstKeyword_found _ kw label Hin Hinc) as (kw' & label' & Hf & _).
    rewrite (getShardIdentity_firstKeyword card kw' label' Hf).
    apply (getShardIdentity_firstKeyword other kw' label').
    rewrite Hname. exact Hf.
  - intros Hname. apply (getShardIdentity_firstKeyword card (js "esper")).
    rewrite Hname. vm_compute. reflexivity.
Qed.

End ShardIdentity.


(* ================================================================== *)
(** * The two parsers compared *)
(* ================================================================== *)

Lemma filter_all {A : Type} (f : A -> bool) (l : list A) :
  forallb f l = true -> filter f l = l.
Proof.
  induction l as [|x l IH]; cbn; [reflexivity|].
  intros H. apply andb_prop in H. destruct H as [Hx Hl].
  rewrite Hx, IH by assumption. reflexivity.
Qed.

Lemma nonBlank_not_empty (l : jsstring) : nonBlank l = true -> isEmpty l = false.
Proof.
  destruct l; [discriminate | reflexivity].
Qed.

(** The forward parser on the lines of a card whose type line is set:
    each line is routed by [isFlavorLine] alone. *)
Lemma addBodyLine_fold (rest : list jsstring) (c : ArtGen.Card) :
  isEmpty (ArtGen.card_type c) = false ->
  fold_left ArtGen.addBodyLine rest c
  = {| ArtGen.card_id := ArtGen.card_id c;
       ArtGen.card_name := ArtGen.card_name c;
       ArtGen.card_cost := ArtGen.card_cost c;
       ArtGen.card_type := ArtGen.card_type c;
       ArtGen.card_text :=
         ArtGen.card_text c
         ++ filter (fun l => negb (ArtGen.isFlavorLine l)) rest;
       ArtGen.card_flavor :=
         ArtGen.card_flavor c
         ++ List.concat (map (fun l => js " " ++ l)
                        (filter ArtGen.isFlavorLine rest)) |}.
Proof.
  revert c; induction rest as [|x rest IH]; intros c Htype.
  - cbn. rewrite !app_nil_r. destruct c; reflexivity.
  - cbn [fold_left]. unfold ArtGen.addBodyLine at 2. rewrite Htype.
    cbn [filter map List.concat].
    destruct (ArtGen.isFlavorLine x); cbn [negb]; rewrite IH by exact Htype;
      cbn [ArtGen.card_id ArtGen.card_name ArtGen.card_cost ArtGen.card_type
           ArtGen.card_text ArtGen.card_flavor map List.concat];
      rewrite <- ?app_assoc; reflexivity.
Qed.

Section TwoParsers.
Variable E : CaseTables.

Import Spoiler.

(** The backward scan on a body where flavor trails and the per-line
    tests agree: each line is routed by [isFlavorLine] alone. *)
Lemma scanAll_when_flavor_trails (rest : list jsstring) :
  forallb (sameVerdict E) rest = true ->
  flavorTrails E rest = true ->
  processingFlavor (scanAll E rest scanStart)
  = negb (existsb (fun y => negb (startsWithQuote y) && isRuleLine E y) rest)
  /\ rulesStack (scanAll E rest scanStart)
     = filter (fun l => negb (ArtGen.isFlavorLine l)) rest
  /\ flavorStack (scanAll E rest scanStart)
     = filter ArtGen.isFlavorLine rest.
Proof.
  induction rest as [|x below IH]; intros Hsame Htrail.
  - repeat split.
  - cbn [forallb flavorTrails] in Hsame, Htrail.
    apply andb_prop in Hsame. destruct Hsame as [Hx Hsame].
    apply andb_prop in Htrail. destruct Htrail as [Htx Htrail].
    destruct (IH Hsame Htrail) as (Hp & Hr & Hf).
    unfold sameVerdict in Hx. apply eqb_prop in Hx.
    cbn [scanAll fold_right existsb filter]. fold (scanAll E below scanStart).
    unfold scanLine. rewrite Hx.
    destruct (startsWithQuote x); cbn [orb negb andb].
    + cbn. rewrite Hp, Hr, Hf. repeat split.
    + destruct (isRuleLine E x); cbn [orb negb andb] in Htx |- *.
      * cbn. rewrite Hr, Hf. repeat split.
      * rewrite Hp, Htx. cbn. rewrite Hr, Hf, ?Htx. repeat split.
Qed.

(** C10 (amended): the two parsers give the same split on a card body
    where the per-line tests agree and flavor trails.  If every line after
    the type line is a flavor line for the forward test exactly when it
    starts with a typographic or straight double quote or is no rules line
    for [isRuleLine], and no unquoted line that is no rules line stands
    above an unquoted rules line, then both parsers take the first line as
    the type line, they have the same rules lines, and the flavor string
    of the forward parser is the flavor lines of the backward parser, each
    after a blank, in order. *)
Theorem parsers_agree_when_flavor_trails
        (m : MatchArray) (cardId name cost typeLine : jsstring)
        (rest : list jsstring) :
  forallb nonBlank (typeLine :: rest) = true ->
  forallb (sameVerdict E) rest = true ->
  flavorTrails E rest = true ->
  exists card,
    finalizeCard E (Some m) (typeLine :: rest) = Normal card
    /\ card_type card = typeLine
    /\ ArtGen.card_type
         (fold_left ArtGen.addBodyLine (typeLine :: rest)
            {| ArtGen.card_id := cardId; ArtGen.card_name := name;
               ArtGen.card_cost := cost; ArtGen.card_type := [];
               ArtGen.card_text := []; ArtGen.card_flavor := [] |})
       = typeLine
    /\ ArtGen.card_text
         (fold_left ArtGen.addBodyLine (typeLine :: rest)
            {| ArtGen.card_id := cardId; ArtGen.card_name := name;
               ArtGen.card_cost := cost; ArtGen.card_type := [];
               ArtGen.card_text := []; ArtGen.card_flavor := [] |})
       = card_text card
    /\ ArtGen.card_flavor
         (fold_left ArtGen.addBodyLine (typeLine :: rest)
            {| ArtGen.card_id := cardId; ArtGen.card_name := name;
               ArtGen.card_cost := cost; ArtGen.card_type := [];
               ArtGen.card_text := []; ArtGen.card_flavor := [] |})
       = List.concat (map (fun l => js " " ++ l) (card_flavor card)).
Proof.
  intros Hnb Hsame Htrail.
  destruct (scanAll_when_flavor_trails rest Hsame Htrail) as (_ & Hr & Hf).
  eexists. split; [apply finalizeCard_eq|].
  rewrite (filter_all _ _ Hnb).
  cbn [card_type card_text card_flavor hd tl].
  cbn [forallb] in Hnb. apply andb_prop in Hnb. destruct Hnb as [Ht _].
  apply nonBlank_not_empty in Ht.
  cbn [fold_left]. unfold ArtGen.addBodyLine at 2 4 6.
  cbn [ArtGen.card_type isEmpty].
  rewrite addBodyLine_fold by exact Ht.
  cbn [ArtGen.card_type ArtGen.card_text ArtGen.card_flavor app].
  rewrite Hr, Hf. repeat split.
Qed.

End TwoParsers.


(* ================================================================== *)
(** * Concrete documents, cards and lines *)
(* ================================================================== *)

(** A body with the same sentence above and below a rules line: the
    sentence is a rules line of the card and a flavor line of the card, so
    the two lists share a line. *)
Lemma finalizeCard_line_in_both :
  exists (bodyLines : list jsstring) (line : jsstring),
    forall (E : CaseTables) (m : Spoiler.MatchArray),
    exists card,
      Spoiler.finalizeCard E (Some m) bodyLines = Normal card
      /\ In line (Spoiler.card_text card)
      /\ In line (Spoiler.card_flavor card).
Proof.
  exists [js "Creature"; js "Calm."; js "Flying"; js "Calm."], (js "Calm.").
  intros E m. eexists. split; [apply finalizeCard_eq|].
  split; vm_compute; auto.
Qed.


(** A bare tag in the cards section of the spoiler generator: the card it
    opens has the id UNKNOWN, not the empty id. *)
Lemma malformed_header_id_not_empty :
  exists line : jsstring,
    isSome (Spoiler.looseTagRegex line) = true
    /\ Spoiler.idTagRegex line = None
    /\ forall E : CaseTables,
        exists card info,
          Spoiler.parseContent E (js "3. CARD FILE" ++ LF ++ line)
          = Normal ([card], info)
          /\ Spoiler.card_id card = js "UNKNOWN"
          /\ Spoiler.card_id card <> [].
Proof.
  exists (js "[M01]"). split; [vm_compute; reflexivity|].
  split; [vm_compute; reflexivity|].
  intros E.
  exists {| Spoiler.card_id := js "UNKNOWN"; Spoiler.card_name := js "[M01]";
            Spoiler.card_cost := []; Spoiler.card_type := [];
            Spoiler.card_text := []; Spoiler.card_flavor := [] |}.
  exists {| Spoiler.flavor := []; Spoiler.mechanics_ := [] |}.
  split; [vm_compute; reflexivity|].
  split; [reflexivity|]. vm_compute. discriminate.
Qed.

Lemma malformed_header_opens_card_witness :
  (Spoiler.parsingSection (Spoiler.setSection Spoiler.initial Spoiler.CARDS)
   = Spoiler.CARDS
   /\ isEmpty (trim (Spoiler.stripSourceTag (js "[M01]Thing"))) = false
   /\ isSome (Spoiler.looseTagRegex (trim (Spoiler.stripSourceTag (js "[M01]Thing"))))
      = true
   /\ Spoiler.idTagRegex (trim (Spoiler.stripSourceTag (js "[M01]Thing"))) = None)
  /\ (exists st',
         Spoiler.processLine plainTables
           (Spoiler.setSection Spoiler.initial Spoiler.CARDS) (js "[M01]Thing")
         = Normal st'
         /\ Spoiler.currentIdLine st'
            = Some {| Spoiler.m0 := None; Spoiler.m1 := js "UNKNOWN";
                      Spoiler.m2 := js "[M01]Thing"; Spoiler.m3 := Some [] |})
  /\ (exists c,
         ArtGen.currentCard (ArtGen.processLine ArtGen.initial (js "[M01]Thing"))
         = Some c
         /\ ArtGen.card_id c = []
         /\ ArtGen.card_name c = js "[M01]Thing").
Proof.
  destruct (malformed_header_opens_card plainTables
              (Spoiler.setSection Spoiler.initial Spoiler.CARDS)
              ArtGen.initial (js "[M01]Thing"))
    as [(st' & Hstep & _ & _ & Hid & _) (c & Hc & Hcid & Hcname & _)];
    try (vm_compute; reflexivity).
  split; [repeat split; vm_compute; reflexivity|].
  split.
  - exists st'. split; [exact Hstep | exact Hid].
  - exists c. repeat split; assumption.
Defined.

(** After the cards header, a line with the flavor header puts the parser
    back in the flavor section, and the next line goes to the flavor
    bucket. *)
Lemma cards_section_left_again :
  exists l1 l2 l3 : jsstring,
    forall E : CaseTables,
      (exists s1 s2 s3,
          Spoiler.processLine E Spoiler.initial l1 = Normal s1
          /\ Spoiler.parsingSection s1 = Spoiler.CARDS
          /\ Spoiler.processLine E s1 l2 = Normal s2
          /\ Spoiler.parsingSection s2 = Spoiler.FLAVOR
          /\ Spoiler.processLine E s2 l3 = Normal s3
          /\ Spoiler.flavor (Spoiler.setInfo s3) = [l3])
      /\ Spoiler.parseContent E (l1 ++ LF ++ l2 ++ LF ++ l3)
         = Normal ([], {| Spoiler.flavor := [l3]; Spoiler.mechanics_ := [] |}).
Proof.
  exists (js "3. CARD FILE"), (js "1. FLAVOR & WORLD"), (js "Five shards.").
  intros E. split.
  - exists (Spoiler.setSection Spoiler.initial Spoiler.CARDS).
    exists (Spoiler.setSection Spoiler.initial Spoiler.FLAVOR).
    eexists. repeat split; vm_compute; reflexivity.
  - vm_compute. reflexivity.
Qed.

Lemma cards_section_persists_witness :
  (Spoiler.parsingSection (Spoiler.setSection Spoiler.initial Spoiler.CARDS)
   = Spoiler.CARDS
   /\ forallb noFlavorOrMechanicsHeader
        [js "[M01] Test Card {1}{W}"; js "Creature"; js "Flying"] = true)
  /\ exists st',
      forEach (Spoiler.processLine plainTables)
        (firstn 3 [js "[M01] Test Card {1}{W}"; js "Creature"; js "Flying"])
        (Spoiler.setSection Spoiler.initial Spoiler.CARDS)
      = Normal st'
      /\ Spoiler.parsingSection st' = Spoiler.CARDS
      /\ Spoiler.setInfo st'
         = Spoiler.setInfo (Spoiler.setSection Spoiler.initial Spoiler.CARDS).
Proof.
  split.
  - split; vm_compute; reflexivity.
  - apply (proj2 (proj2 (proj2 (cards_section_persists plainTables))));
      vm_compute; reflexivity.
Defined.

(** One document on which the two parsers split the body differently: the
    line Flying followed by a period is a rules line for the backward scan
    (it contains a vocabulary term) and flavor for the forward test (it
    ends with a period and has no colon and no brace). *)
Lemma parsers_disagree :
  exists content : jsstring,
    forall E : CaseTables,
    exists c1 info c2,
      Spoiler.parseContent E content = Normal ([c1], info)
      /\ ArtGen.parseContent content = [c2]
      /\ Spoiler.card_text c1 = [js "Flying."]
      /\ Spoiler.card_flavor c1 = []
      /\ ArtGen.card_text c2 = []
      /\ ArtGen.card_flavor c2 = js " Flying."
      /\ Spoiler.card_text c1 <> ArtGen.card_text c2.
Proof.
  exists (js "3. CARD FILE" ++ LF ++ js "[M01] Test Card {1}{W}" ++ LF
          ++ js "Creature" ++ LF ++ js "Flying.").
  intros E.
  exists {| Spoiler.card_id := js "M01"; Spoiler.card_name := js "Test Card";
            Spoiler.card_cost := js "{1}{W}"; Spoiler.card_type := js "Creature";
            Spoiler.card_text := [js "Flying."]; Spoiler.card_flavor := [] |}.
  exists {| Spoiler.flavor := []; Spoiler.mechanics_ := [] |}.
  exists {| ArtGen.card_id := js "M01"; ArtGen.card_name := js "Test Card";
            ArtGen.card_cost := js "{1}{W}"; ArtGen.card_type := js "Creature";
            ArtGen.card_text := []; ArtGen.card_flavor := js " Flying." |}.
  repeat split; try (vm_compute; reflexivity).
  vm_compute. discriminate.
Qed.

Lemma parsers_agree_when_flavor_trails_witness :
  (forallb nonBlank
     [js "Creature"; js "{T}: Draw a card."; js "A gentle breeze stirs the dust."]
   = true
   /\ forallb (sameVerdict plainTables)
        [js "{T}: Draw a card."; js "A gentle breeze stirs the dust."] = true
   /\ flavorTrails plainTables
        [js "{T}: Draw a card."; js "A gentle breeze stirs the dust."] = true)
  /\ exists card,
      Spoiler.finalizeCard plainTables
        (Some {| Spoiler.m0 := None; Spoiler.m1 := js "M01";
                 Spoiler.m2 := js "Test Card"; Spoiler.m3 := None |})
        [js "Creature"; js "{T}: Draw a card."; js "A gentle breeze stirs the dust."]
      = Normal card
      /\ Spoiler.card_text card = [js "{T}: Draw a card."]
      /\ ArtGen.card_text
           (fold_left ArtGen.addBodyLine
              [js "Creature"; js "{T}: Draw a card.";
               js "A gentle breeze stirs the dust."]
              ArtGen.newCard)
         = Spoiler.card_text card.
Proof.
  split; [repeat split; vm_compute; reflexivity|].
  destruct (parsers_agree_when_flavor_trails plainTables
              {| Spoiler.m0 := None; Spoiler.m1 := js "M01";
                 Spoiler.m2 := js "Test Card"; Spoiler.m3 := None |}
              [] [] [] (js "Creature")
              [js "{T}: Draw a card."; js "A gentle breeze stirs the dust."])
    as (card & Hfin & _ & _ & Htext & _);
    try (vm_compute; reflexivity).
  exists card. split; [exact Hfin|]. split; [|exact Htext].
  rewrite finalizeCard_eq in Hfin. injection Hfin as <-.
  vm_compute. reflexivity.
Defined.

(** A name with two keywords: it contains grixis, and the card gets the
    Esper label, that of the keyword tested first. *)
Lemma getShardIdentity_second_keyword :
  exists (card : ArtGen.Card) (kw label : jsstring),
    In (kw, label) nameKeywords
    /\ forall E : CaseTables,
        includes (toLowerCase E (ArtGen.card_name card)) kw = true
        /\ ArtGen.getShardIdentity E card = ArtGen.ESPER
        /\ ArtGen.getShardIdentity E card <> label.
Proof.
  exists {| ArtGen.card_id := js "R08"; ArtGen.card_name := js "Esper Grixis Envoy";
            ArtGen.card_cost := js "{U}{B}"; ArtGen.card_type := js "Creature";
            ArtGen.card_text := []; ArtGen.card_flavor := [] |}.
  exists (js "grixis"), ArtGen.GRIXIS.
  split; [unfold nameKeywords; in_list|].
  intros E. split; [vm_compute; reflexivity|].
  assert (H : ArtGen.getShardIdentity E
                {| ArtGen.card_id := js "R08";
                   ArtGen.card_name := js "Esper Grixis Envoy";
                   ArtGen.card_cost := js "{U}{B}"; ArtGen.card_type := js "Creature";
                   ArtGen.card_text := []; ArtGen.card_flavor := [] |}
              = ArtGen.ESPER) by (vm_compute; reflexivity).
  split; [exact H|]. rewrite H. vm_compute. discriminate.
Qed.

(** A card named Esper Stormwatcher whose rules text, type line and cost
    all point to Jund: the name decides. *)
Lemma getShardIdentity_witness :
  (In (js "esper", ArtGen.ESPER) nameKeywords
   /\ includes (toLowerCase plainTables (js "Esper Stormwatcher")) (js "esper")
      = true)
  /\ ArtGen.getShardIdentity plainTables
       {| ArtGen.card_id := js "R07"; ArtGen.card_name := js "Esper Stormwatcher";
          ArtGen.card_cost := js "{B}{R}{G}";
          ArtGen.card_type := js "Creature " ++ [EM_DASH] ++ js " Dragon";
          ArtGen.card_text := [js "Carnage 2"]; ArtGen.card_flavor := [] |}
     = ArtGen.ESPER.
Proof.
  split.
  - split; [left; reflexivity | vm_compute; reflexivity].
  - apply (proj2 (proj2 (proj2 (proj2
             (getShardIdentity_total_name_first plainTables
                {| ArtGen.card_id := js "R07";
                   ArtGen.card_name := js "Esper Stormwatcher";
                   ArtGen.card_cost := js "{B}{R}{G}";
                   ArtGen.card_type := js "Creature " ++ [EM_DASH] ++ js " Dragon";
                   ArtGen.card_text := [js "Carnage 2"];
                   ArtGen.card_flavor := [] |}))))).
    reflexivity.
Defined.

(* ================================================================== *)
(** * Further properties: strings and case conversion *)
(* ================================================================== *)

Lemma startsWith_self_app (p t : jsstring) : startsWith (p ++ t) p = true.
Proof.
  induction p as [|a p IH]; [apply startsWith_nil|].
  cbn. rewrite N.eqb_refl. exact IH.
Qed.

Lemma startsWith_prefix (s p : jsstring) :
  startsWith s p = true -> exists t, s = p ++ t.
Proof.
  revert s; induction p as [|a p IH]; intros s H.
  - exists s. reflexivity.
  - destruct s as [|b s]; [discriminate|].
    cbn in H. apply andb_prop in H. destruct H as [Hab Hs].
    apply N.eqb_eq in Hab. subst b.
    destruct (IH s Hs) as [t ->]. exists t. reflexivity.
Qed.

Lemma includes_app_r (s t p : jsstring) :
  includes t p = true -> includes (s ++ t) p = true.
Proof.
  intros H. induction s as [|c s IH]; [exact H|].
  cbn [app includes]. rewrite IH. apply orb_true_r.
Qed.

Lemma includes_startsWith (s p : jsstring) :
  startsWith s p = true -> includes s p = true.
Proof.
  destruct s; cbn [includes]; intros ->; reflexivity.
Qed.

Lemma includes_middle (pre p post : jsstring) :
  includes (pre ++ p ++ post) p = true.
Proof.
  apply includes_app_r, includes_startsWith, startsWith_self_app.
Qed.

(** A string that includes [p] is some text, [p], some text. *)
Lemma includes_split (s p : jsstring) :
  includes s p = true -> exists pre post, s = pre ++ p ++ post.
Proof.
  induction s as [|c s IH]; cbn [includes]; intros H.
  - rewrite orb_false_r in H. apply startsWith_prefix in H.
    destruct H as [t Ht]. exists [], t. exact Ht.
  - apply orb_prop in H. destruct H as [H|H].
    + apply startsWith_prefix in H. destruct H as [t Ht]. exists [], t. exact Ht.
    + destruct (IH H) as (pre & post & ->). exists (c :: pre), post. reflexivity.
Qed.

(** An ASCII stretch of a string is converted unit by unit wherever it
    stands. *)
Lemma caseConvert_includes (ascii : N -> N)
      (tbl : jsstring -> N -> jsstring -> jsstring)
      (pre occ post before : jsstring) :
  forallb (fun c => c <? 128) occ = true ->
  includes (caseConvert ascii tbl before (pre ++ occ ++ post)) (map ascii occ)
  = true.
Proof.
  intros Hascii. revert before; induction pre as [|c pre IH]; intros before.
  - cbn [app]. rewrite caseConvert_ascii_prefix by exact Hascii.
    apply includes_startsWith, startsWith_self_app.
  - cbn [app caseConvert]. apply includes_app_r, IH.
Qed.

(* ================================================================== *)
(** * The color identity, read off the cost and the rules lines *)
(* ================================================================== *)

(** An occurrence in a text with its letters capitalized comes from an
    occurrence in the text, letter case apart. *)
Lemma mentions_split (s sym : jsstring) :
  mentions s sym = true ->
  exists pre occ post, s = pre ++ occ ++ post /\ map asciiUpper occ = sym.
Proof.
  unfold mentions. intros H. apply includes_split in H.
  destruct H as (a & b & H).
  apply map_eq_app in H. destruct H as (pre & t & -> & _ & H).
  apply map_eq_app in H. destruct H as (occ & post & -> & Hocc & _).
  exists pre, occ, post. split; [reflexivity | exact Hocc].
Qed.

(** A text whose capitalized units are ASCII is ASCII. *)
Lemma asciiUpper_ascii (occ : jsstring) :
  isAscii (map asciiUpper occ) = true -> isAscii occ = true.
Proof.
  unfold isAscii. induction occ as [|c occ IH]; [reflexivity|].
  cbn [map forallb]. intros H. apply andb_prop in H. destruct H as [Hc Ho].
  rewrite (IH Ho), andb_true_r. revert Hc.
  unfold asciiUpper, isLowerAZ, between.
  destruct (N.leb_spec 97 c); destruct (N.leb_spec c 122);
    cbv beta iota delta [andb]; intros Hc; try exact Hc.
  apply N.ltb_lt. lia.
Qed.

(** A line of a list stands in the joined text. *)
Lemma join_holds (sep : jsstring) (lines : list jsstring) (line : jsstring) :
  In line lines -> exists a b, join sep lines = a ++ line ++ b.
Proof.
  induction lines as [|x lines IH]; [contradiction|].
  intros [->|Hin].
  - destruct lines as [|y lines].
    + exists [], []. cbn [join app]. rewrite app_nil_r. reflexivity.
    + exists [], (sep ++ join sep (y :: lines)). reflexivity.
  - destruct (IH Hin) as (a & b & Heq).
    destruct lines as [|y lines]; [contradiction|].
    exists (x ++ sep ++ a), b.
    change (join sep (x :: y :: lines)) with (x ++ sep ++ join sep (y :: lines)).
    rewrite Heq, <- !app_assoc. reflexivity.
Qed.

(** A pattern without blank that starts a text with a blank in it starts
    the part before the blank. *)
Lemma startsWith_before_blank (a b p : jsstring) :
  forallb (fun c => negb (c =? 32)) p = true ->
  startsWith (a ++ 32 :: b) p = true -> startsWith a p = true.
Proof.
  revert a; induction p as [|x p IH]; intros a Hp H; [apply startsWith_nil|].
  cbn [forallb] in Hp. apply andb_prop in Hp. destruct Hp as [Hx Hp].
  apply negb_true_iff in Hx.
  destruct a as [|c a].
  - cbn [app startsWith] in H. apply andb_prop in H. destruct H as [H _].
    apply N.eqb_eq in H. subst x. discriminate.
  - cbn [app startsWith] in H |- *. apply andb_prop in H. destruct H as [Hc H].
    rewrite Hc, (IH a Hp H). reflexivity.
Qed.

(** A pattern without blank that occurs in two texts joined by a blank
    occurs in one of them. *)
Lemma includes_beside_blank (a b p : jsstring) :
  p <> [] ->
  forallb (fun c => negb (c =? 32)) p = true ->
  includes (a ++ 32 :: b) p = true ->
  includes a p = true \/ includes b p = true.
Proof.
  intros Hne Hp. induction a as [|c a IH]; intros H.
  - cbn [app includes] in H. apply orb_prop in H. destruct H as [H|H].
    + destruct p as [|x p]; [contradiction|].
      cbn [startsWith] in H. apply andb_prop in H. destruct H as [H _].
      cbn [forallb] in Hp. apply andb_prop in Hp. destruct Hp as [Hx _].
      apply N.eqb_eq in H. subst x. discriminate.
    + right. exact H.
  - cbn [app includes] in H. apply orb_prop in H. destruct H as [H|H].
    + left. cbn [includes].
      change (c :: a ++ 32 :: b) with ((c :: a) ++ 32 :: b) in H.
      rewrite (startsWith_before_blank (c :: a) b p Hp H). reflexivity.
    + destruct (IH H) as [Ha|Hb]; [left | right; exact Hb].
      cbn [includes]. rewrite Ha. apply orb_true_r.
Qed.

(** A symbol mentioned in the joined rules lines is mentioned in one of
    them. *)
Lemma mentions_join (lines : list jsstring) (sym : jsstring) :
  sym <> [] ->
  forallb (fun c => negb (c =? 32)) sym = true ->
  mentions (join (js " ") lines) sym = true ->
  exists line, In line lines /\ mentions line sym = true.
Proof.
  intros Hne Hsym. induction lines as [|x lines IH]; intros H.
  - unfold mentions in H. cbn [join map includes] in H.
    destruct sym; [contradiction | discriminate].
  - destruct lines as [|y lines].
    + exists x. split; [left; reflexivity | exact H].
    + change (join (js " ") (x :: y :: lines))
        with (x ++ 32 :: join (js " ") (y :: lines)) in H.
      unfold mentions in H. rewrite map_app in H. cbn [map] in H.
      change (asciiUpper 32) with 32 in H.
      apply (includes_beside_blank _ _ _ Hne Hsym) in H.
      destruct H as [H|H].
      * exists x. split; [left; reflexivity | exact H].
      * destruct (IH H) as (line & Hin & Hl).
        exists line. split; [right; exact Hin | exact Hl].
Qed.

(** Each of the five symbols is three ASCII units, none of them a
    blank. *)
Lemma colorSymbols_shape (sym tag : jsstring) :
  In (sym, tag) ArtGen.colorSymbols ->
  sym <> [] /\ isAscii sym = true
  /\ forallb (fun c => negb (c =? 32)) sym = true.
Proof.
  unfold ArtGen.colorSymbols. cbn [In]. intros H.
  repeat (destruct H as [H|H];
          [apply (f_equal fst) in H; cbn [fst] in H; subst sym;
           repeat split; discriminate|]).
  contradiction.
Qed.

Lemma isAscii_app (a b : jsstring) :
  isAscii a = true -> isAscii b = true -> isAscii (a ++ b) = true.
Proof.
  unfold isAscii. intros Ha Hb. rewrite forallb_app, Ha, Hb. reflexivity.
Qed.

(** ASCII lines joined by blanks are an ASCII text. *)
Lemma join_ascii (lines : list jsstring) :
  forallb isAscii lines = true -> isAscii (join (js " ") lines) = true.
Proof.
  induction lines as [|x lines IH]; [reflexivity|].
  cbn [forallb]. intros H. apply andb_prop in H. destruct H as [Hx Hl].
  destruct lines as [|y lines]; [exact Hx|].
  change (join (js " ") (x :: y :: lines))
    with (x ++ js " " ++ join (js " ") (y :: lines)).
  apply isAscii_app; [exact Hx|].
  apply isAscii_app; [reflexivity | apply IH; exact Hl].
Qed.

Section IdentityOnTexts.
Variable E : CaseTables.

Import ArtGen.

(** A symbol mentioned in the cost or in a rules line, in capital or
    small letters, stands in the searched string. *)
Lemma fullString_mentions (card : Card) (sym : jsstring) :
  isAscii sym = true ->
  mentions (card_cost card) sym = true
  \/ (exists line, In line (card_text card) /\ mentions line sym = true) ->
  includes (fullString E card) sym = true.
Proof.
  intros Hsym H. unfold fullString, toUpperCase.
  assert (Hocc : exists pre occ post,
             card_cost card ++ js " " ++ join (js " ") (card_text card)
             = pre ++ occ ++ post /\ map asciiUpper occ = sym).
  { destruct H as [H|(line & Hin & H)];
      apply mentions_split in H; destruct H as (pre & occ & post & Heq & Hocc).
    - exists pre, occ, (post ++ js " " ++ join (js " ") (card_text card)).
      split; [|exact Hocc]. rewrite Heq, <- !app_assoc. reflexivity.
    - destruct (join_holds (js " ") _ _ Hin) as (a & b & Hjoin).
      exists (card_cost card ++ js " " ++ a ++ pre), occ, (post ++ b).
      split; [|exact Hocc]. rewrite Hjoin, Heq, <- !app_assoc. reflexivity. }
  destruct Hocc as (pre & occ & post & -> & <-).
  apply caseConvert_includes. apply asciiUpper_ascii. exact Hsym.
Qed.

(** On ASCII texts the searched string holds no other symbol. *)
Lemma fullString_ascii (card : Card) (sym : jsstring) :
  sym <> [] ->
  forallb (fun c => negb (c =? 32)) sym = true ->
  isAscii (card_cost card) = true ->
  forallb isAscii (card_text card) = true ->
  includes (fullString E card) sym = true ->
  mentions (card_cost card) sym = true
  \/ (exists line, In line (card_text card) /\ mentions line sym = true).
Proof.
  intros Hne Hsym Hcost Htext H. unfold fullString, toUpperCase in H.
  assert (Hall : isAscii (card_cost card ++ js " "
                            ++ join (js " ") (card_text card)) = true).
  { apply isAscii_app; [exact Hcost|].
    apply isAscii_app; [reflexivity | apply join_ascii; exact Htext]. }
  rewrite <- (app_nil_r (card_cost card ++ _)) in H.
  rewrite caseConvert_ascii_prefix in H by exact Hall.
  cbn [caseConvert] in H. rewrite app_nil_r in H.
  rewrite map_app in H.
  change (map asciiUpper (js " " ++ join (js " ") (card_text card)))
    with (32 :: map asciiUpper (join (js " ") (card_text card))) in H.
  apply (includes_beside_blank _ _ _ Hne Hsym) in H.
  destruct H as [H|H]; [left; exact H | right].
  apply (mentions_join _ _ Hne Hsym). exact H.
Qed.

(** C6: the color identity has no duplicates and holds only tags of the
    five colors; it is the list of the tags whose bracketed symbol occurs
    in the upper-cased text made of the cost, a blank and the rules lines
    joined by blanks.  A symbol written in capital or small letters in
    the cost or in any rules line puts its tag in the identity; on ASCII
    texts a tag is in the identity exactly when its symbol is written so
    in the cost or in a rules line.  A card with cost {2}{W}{U} has White
    and Blue in it, and exactly these two when its rules lines mention
    no black, red or green symbol, as when it has no rules lines; a card
    with an empty cost whose rules lines mention no color symbol has
    none. *)
Theorem getColorIdentity_spec (card : Card) :
  NoDup (getColorIdentity E card)
  /\ (forall tag, In tag (getColorIdentity E card) ->
                  In tag (map snd colorSymbols))
  /\ getColorIdentity E card
     = map snd
         (filter (fun st =>
                    includes
                      (toUpperCase E
                         (card_cost card ++ js " "
                            ++ join (js " ") (card_text card)))
                      (fst st))
                 colorSymbols)
  /\ (forall sym tag,
         In (sym, tag) colorSymbols ->
         mentions (card_cost card) sym = true
         \/ (exists line, In line (card_text card) /\ mentions line sym = true) ->
         In tag (getColorIdentity E card))
  /\ (isAscii (card_cost card) = true ->
      forallb isAscii (card_text card) = true ->
      forall tag,
        In tag (getColorIdentity E card)
        <-> exists sym,
              In (sym, tag) colorSymbols
              /\ (mentions (card_cost card) sym = true
                  \/ exists line,
                       In line (card_text card) /\ mentions line sym = true))
  /\ (card_cost card = js "{2}{W}{U}" ->
      In (js "White") (getColorIdentity E card)
      /\ In (js "Blue") (getColorIdentity E card))
  /\ (card_cost card = js "{2}{W}{U}" ->
      forallb isAscii (card_text card) = true ->
      (forall line, In line (card_text card) ->
                    mentions line (js "{B}") = false
                    /\ mentions line (js "{R}") = false
                    /\ mentions line (js "{G}") = false) ->
      getColorIdentity E card = [js "White"; js "Blue"])
  /\ (card_cost card = js "{2}{W}{U}" ->
      card_text card = [] ->
      getColorIdentity E card = [js "White"; js "Blue"])
  /\ (card_cost card = [] ->
      forallb isAscii (card_text card) = true ->
      (forall line sym tag,
          In line (card_text card) -> In (sym, tag) colorSymbols ->
          mentions line sym = false) ->
      getColorIdentity E card = []).
Proof.
  assert (Hin : forall tag,
             In tag (getColorIdentity E card)
             <-> exists sym, In (sym, tag) colorSymbols
                             /\ includes (fullString E card) sym = true).
  { intros tag. rewrite getColorIdentity_filter, in_map_iff. split.
    - intros ([sym tag'] & Htag & Hp). cbn in Htag. subst tag'.
      apply filter_In in Hp. exists sym. exact Hp.
    - intros (sym & Hp & Hinc). exists (sym, tag). split; [reflexivity|].
      apply filter_In. split; assumption. }
  assert (Hfwd : forall sym tag,
             In (sym, tag) colorSymbols ->
             mentions (card_cost card) sym = true
             \/ (exists line, In line (card_text card)
                              /\ mentions line sym = true) ->
             In tag (getColorIdentity E card)).
  { intros sym tag Hsym Hm. apply Hin. exists sym. split; [exact Hsym|].
    destruct (colorSymbols_shape sym tag Hsym) as (_ & Hascii & _).
    apply fullString_mentions; assumption. }
  assert (Hnone : forall sym tag,
             In (sym, tag) colorSymbols ->
             isAscii (card_cost card) = true ->
             forallb isAscii (card_text card) = true ->
             mentions (card_cost card) sym = false ->
             (forall line, In line (card_text card) -> mentions line sym = false) ->
             includes (fullString E card) sym = false).
  { intros sym tag Hsym Hc Ht Hmc Hml.
    destruct (includes (fullString E card) sym) eqn:Hinc; [|reflexivity].
    destruct (colorSymbols_shape sym tag Hsym) as (Hne & _ & Hblank).
    destruct (fullString_ascii card sym Hne Hblank Hc Ht Hinc)
      as [H|(line & Hl & H)].
    - rewrite Hmc in H. discriminate.
    - rewrite (Hml line Hl) in H. discriminate. }
  repeat apply conj.
  - rewrite getColorIdentity_filter. apply colorTags_distinct.
  - intros tag Htag. apply Hin in Htag. destruct Htag as (sym & Hsym & _).
    apply in_map_iff. exists (sym, tag). split; [reflexivity | exact Hsym].
  - apply getColorIdentity_filter.
  - exact Hfwd.
  - intros Hc Ht tag. split.
    + intros Htag. apply Hin in Htag. destruct Htag as (sym & Hsym & Hinc).
      exists sym. split; [exact Hsym|].
      destruct (colorSymbols_shape sym tag Hsym) as (Hne & _ & Hblank).
      apply (fullString_ascii card sym Hne Hblank Hc Ht Hinc).
    + intros (sym & Hsym & Hm). apply (Hfwd sym tag Hsym Hm).
  - intros Hcost. split.
    + apply (Hfwd (js "{W}")); [unfold colorSymbols; in_list|].
      left. rewrite Hcost. reflexivity.
    + apply (Hfwd (js "{U}")); [unfold colorSymbols; in_list|].
      left. rewrite Hcost. reflexivity.
  - intros Hcost Ht Hlines.
    destruct (fullString_cost_2WU E card Hcost) as [HW HU].
    assert (Hc : isAscii (card_cost card) = true) by (rewrite Hcost; reflexivity).
    rewrite getColorIdentity_filter. unfold colorSymbols.
    cbn [filter fst]. rewrite HW, HU.
    rewrite (Hnone (js "{B}") (js "Black")); [|unfold colorSymbols; in_list
      |exact Hc|exact Ht|rewrite Hcost; reflexivity
      |intros line Hl; apply (Hlines line Hl)].
    rewrite (Hnone (js "{R}") (js "Red")); [|unfold colorSymbols; in_list
      |exact Hc|exact Ht|rewrite Hcost; reflexivity
      |intros line Hl; apply (Hlines line Hl)].
    rewrite (Hnone (js "{G}") (js "Green")); [|unfold colorSymbols; in_list
      |exact Hc|exact Ht|rewrite Hcost; reflexivity
      |intros line Hl; apply (Hlines line Hl)].
    reflexivity.
  - intros Hcost Htext. unfold getColorIdentity, fullString.
    rewrite Hcost, Htext. vm_compute. reflexivity.
  - intros Hcost Ht Hlines.
    assert (Hc : isAscii (card_cost card) = true) by (rewrite Hcost; reflexivity).
    rewrite getColorIdentity_filter. unfold colorSymbols.
    cbn [filter fst].
    rewrite (Hnone (js "{W}") (js "White")); [|unfold colorSymbols; in_list
      |exact Hc|exact Ht|rewrite Hcost; reflexivity
      |intros line Hl; apply (Hlines line _ (js "White") Hl); unfold colorSymbols; in_list].
    rewrite (Hnone (js "{U}") (js "Blue")); [|unfold colorSymbols; in_list
      |exact Hc|exact Ht|rewrite Hcost; reflexivity
      |intros line Hl; apply (Hlines line _ (js "Blue") Hl); unfold colorSymbols; in_list].
    rewrite (Hnone (js "{B}") (js "Black")); [|unfold colorSymbols; in_list
      |exact Hc|exact Ht|rewrite Hcost; reflexivity
      |intros line Hl; apply (Hlines line _ (js "Black") Hl); unfold colorSymbols; in_list].
    rewrite (Hnone (js "{R}") (js "Red")); [|unfold colorSymbols; in_list
      |exact Hc|exact Ht|rewrite Hcost; reflexivity
      |intros line Hl; apply (Hlines line _ (js "Red") Hl); unfold colorSymbols; in_list].
    rewrite (Hnone (js "{G}") (js "Green")); [|unfold colorSymbols; in_list
      |exact Hc|exact Ht|rewrite Hcost; reflexivity
      |intros line Hl; apply (Hlines line _ (js "Green") Hl); unfold colorSymbols; in_list].
    reflexivity.
Qed.

End IdentityOnTexts.

(** A card with cost {2}{W}{U} and the rules line Flying; the same card
    with a second rules line that pays a red symbol written in small
    letters; and a card with an empty cost and two rules lines without a
    color symbol. *)
Lemma getColorIdentity_witness :
  (mentions (js "{r}: It deals 1 damage.") (js "{R}") = true
   /\ mentions (js "Flying") (js "{R}") = false)
  /\ ArtGen.getColorIdentity plainTables
       {| ArtGen.card_id := js "U12"; ArtGen.card_name := js "Sky Warden";
          ArtGen.card_cost := js "{2}{W}{U}"; ArtGen.card_type := js "Creature";
          ArtGen.card_text := [js "Flying"]; ArtGen.card_flavor := [] |}
     = [js "White"; js "Blue"]
  /\ (In (js "Red")
         (ArtGen.getColorIdentity plainTables
            {| ArtGen.card_id := js "U12"; ArtGen.card_name := js "Sky Warden";
               ArtGen.card_cost := js "{2}{W}{U}";
               ArtGen.card_type := js "Creature";
               ArtGen.card_text := [js "Flying"; js "{r}: It deals 1 damage."];
               ArtGen.card_flavor := [] |})
      /\ ArtGen.getColorIdentity plainTables
           {| ArtGen.card_id := js "U12"; ArtGen.card_name := js "Sky Warden";
              ArtGen.card_cost := js "{2}{W}{U}";
              ArtGen.card_type := js "Creature";
              ArtGen.card_text := [js "Flying"; js "{r}: It deals 1 damage."];
              ArtGen.card_flavor := [] |}
         = [js "White"; js "Blue"; js "Red"])
  /\ ArtGen.getColorIdentity plainTables
       {| ArtGen.card_id := js "C03"; ArtGen.card_name := js "Glass Owl";
          ArtGen.card_cost := []; ArtGen.card_type := js "Artifact Creature";
          ArtGen.card_text := [js "Flying"; js "{T}: Draw a card."];
          ArtGen.card_flavor := [] |}
     = [].
Proof.
  split; [split; vm_compute; reflexivity|].
  split.
  { apply (proj1 (proj2 (proj2 (proj2 (proj2 (proj2 (proj2
             (getColorIdentity_spec plainTables
                {| ArtGen.card_id := js "U12"; ArtGen.card_name := js "Sky Warden";
                   ArtGen.card_cost := js "{2}{W}{U}";
                   ArtGen.card_type := js "Creature";
                   ArtGen.card_text := [js "Flying"];
                   ArtGen.card_flavor := [] |}))))))));
      [reflexivity | reflexivity |].
    intros line [<-|[]]. repeat split; vm_compute; reflexivity. }
  split.
  { split; [|vm_compute; reflexivity].
    apply ((proj1 (proj2 (proj2 (proj2
             (getColorIdentity_spec plainTables
                {| ArtGen.card_id := js "U12"; ArtGen.card_name := js "Sky Warden";
                   ArtGen.card_cost := js "{2}{W}{U}";
                   ArtGen.card_type := js "Creature";
                   ArtGen.card_text :=
                     [js "Flying"; js "{r}: It deals 1 damage."];
                   ArtGen.card_flavor := [] |})))))
             (js "{R}") (js "Red")).
    - unfold ArtGen.colorSymbols. in_list.
    - right. exists (js "{r}: It deals 1 damage."). split.
      + right. left. reflexivity.
      + vm_compute. reflexivity. }
  apply (proj2 (proj2 (proj2 (proj2 (proj2 (proj2 (proj2 (proj2
           (getColorIdentity_spec plainTables
              {| ArtGen.card_id := js "C03"; ArtGen.card_name := js "Glass Owl";
                 ArtGen.card_cost := [];
                 ArtGen.card_type := js "Artifact Creature";
                 ArtGen.card_text := [js "Flying"; js "{T}: Draw a card."];
                 ArtGen.card_flavor := [] |})))))))));
    [reflexivity | reflexivity |].
  intros line sym tag Hline Hsym.
  unfold ArtGen.colorSymbols in Hsym. cbn [In] in Hsym, Hline.
  repeat (destruct Hsym as [Hsym|Hsym];
          [apply (f_equal fst) in Hsym; cbn [fst] in Hsym; subst sym;
           destruct Hline as [<-|[<-|[]]]; vm_compute; reflexivity|]).
  contradiction.
Defined.

Section CaseInsensitive.
Variable E : CaseTables.

(** X1: a line that contains a vocabulary term in any letter case, also
    inside a longer word and whatever stands around it, is a rules
    line. *)
Theorem isRuleLine_term_any_case (pre occ post term : jsstring) :
  In term Spoiler.mechanics ->
  forallb (fun c => c <? 128) occ = true ->
  map asciiLower occ = term ->
  Spoiler.isRuleLine E (pre ++ occ ++ post) = true.
Proof.
  intros Hin Hascii Hlow. unfold Spoiler.isRuleLine.
  destruct (_ || _); [reflexivity|].
  destruct (isSome (Spoiler.abilityWordRegex _)); [reflexivity|].
  destruct (isSome (Spoiler.keywordNumberRegex _)); [reflexivity|].
  cbv zeta. apply existsb_exists. exists term. split; [exact Hin|].
  subst term. apply caseConvert_includes. exact Hascii.
Qed.

(** X2: every casting color is a color of the identity: a symbol found in
    the cost as written is found in the upper-cased cost and rules
    text. *)
Theorem getColors_in_identity (card : ArtGen.Card) (tag : jsstring) :
  In tag (ArtGen.getColors card) ->
  In tag (ArtGen.getColorIdentity E card).
Proof.
  intros Hin.
  assert (Hsym : exists sym,
             In (sym, tag) ArtGen.colorSymbols
             /\ includes (ArtGen.card_cost card) sym = true
             /\ forallb (fun c => c <? 128) sym = true
             /\ map asciiUpper sym = sym).
  { unfold ArtGen.getColors in Hin. cbv zeta in Hin.
    unfold ArtGen.colorSymbols.
    destruct (isEmpty (ArtGen.card_cost card)); [contradiction|].
    cbn [negb andb] in Hin.
    destruct (includes (ArtGen.card_cost card) (js "{W}")) eqn:HW;
      destruct (includes (ArtGen.card_cost card) (js "{U}")) eqn:HU;
      destruct (includes (ArtGen.card_cost card) (js "{B}")) eqn:HB;
      destruct (includes (ArtGen.card_cost card) (js "{R}")) eqn:HR;
      destruct (includes (ArtGen.card_cost card) (js "{G}")) eqn:HG;
      cbn [app In] in Hin;
      repeat (destruct Hin as [Hin|Hin];
              [subst tag; eexists; split; [in_list|];
               split; [eassumption|]; split; vm_compute; reflexivity|]);
      contradiction. }
  destruct Hsym as (sym & Hs & Hinc & Hascii & Hup).
  rewrite getColorIdentity_filter. apply in_map_iff. exists (sym, tag).
  split; [reflexivity|]. apply filter_In. split; [exact Hs|]. cbn [fst].
  apply includes_split in Hinc. destruct Hinc as (pre & post & Hcost).
  unfold ArtGen.fullString, toUpperCase. rewrite Hcost, <- !app_assoc.
  rewrite <- Hup at 2. apply caseConvert_includes. exact Hascii.
Qed.

End CaseInsensitive.


(* ================================================================== *)
(** * Further properties: the header pattern *)
(* ================================================================== *)

Section MatcherInversion.
Context {R : Type}.

Lemma chr_inv (p : N -> bool) (k : @Cont R) (s : jsstring) (r : R) :
  chr p k s = Some r ->
  exists c s', s = c :: s' /\ p c = true /\ k s' = Some r.
Proof.
  destruct s as [|c s']; cbn; [discriminate|].
  destruct (p c) eqn:Hp; [|discriminate].
  intros H. exists c, s'. repeat split; assumption.
Qed.

Lemma starGreedy_inv (p : N -> bool) (k : jsstring -> @Cont R)
      (s acc : jsstring) (r : R) :
  starGreedy p k acc s = Some r ->
  exists m rest,
    s = m ++ rest /\ forallb p m = true /\ k (acc ++ m) rest = Some r.
Proof.
  revert acc; induction s as [|c s IH]; intros acc H.
  - exists [], []. split; [reflexivity|]. split; [reflexivity|].
    rewrite app_nil_r. exact H.
  - cbn [starGreedy] in H. destruct (p c) eqn:Hp.
    + destruct (starGreedy p k (acc ++ [c]) s) as [r'|] eqn:Hrec.
      * injection H as ->. destruct (IH _ Hrec) as (m & rest & -> & Hm & Hk).
        exists (c :: m), rest. cbn [forallb]. rewrite Hp, Hm.
        rewrite <- app_assoc in Hk. repeat split. exact Hk.
      * exists [], (c :: s). split; [reflexivity|]. split; [reflexivity|].
        rewrite app_nil_r. exact H.
    + exists [], (c :: s). split; [reflexivity|]. split; [reflexivity|].
      rewrite app_nil_r. exact H.
Qed.

Lemma plusGreedy_inv (p : N -> bool) (k : jsstring -> @Cont R)
      (s : jsstring) (r : R) :
  plusGreedy p k s = Some r ->
  exists m rest,
    s = m ++ rest /\ m <> [] /\ forallb p m = true /\ k m rest = Some r.
Proof.
  destruct s as [|c s]; cbn [plusGreedy]; [discriminate|].
  destruct (p c) eqn:Hp; [|discriminate].
  intros H. apply starGreedy_inv in H. destruct H as (m & rest & -> & Hm & Hk).
  exists (c :: m), rest. cbn [forallb]. rewrite Hp, Hm.
  repeat split; [discriminate | exact Hk].
Qed.

Lemma starLazy_inv (p : N -> bool) (k : jsstring -> @Cont R)
      (s acc : jsstring) (r : R) :
  starLazy p k acc s = Some r ->
  exists m rest,
    s = m ++ rest /\ forallb p m = true /\ k (acc ++ m) rest = Some r.
Proof.
  revert acc; induction s as [|c s IH]; intros acc H.
  - cbn [starLazy] in H. destruct (k acc []) as [r'|] eqn:Hk; [|discriminate].
    injection H as ->. exists [], []. split; [reflexivity|].
    split; [reflexivity|]. rewrite app_nil_r. exact Hk.
  - cbn [starLazy] in H. destruct (k acc (c :: s)) as [r'|] eqn:Hk.
    + injection H as ->. exists [], (c :: s). split; [reflexivity|].
      split; [reflexivity|]. rewrite app_nil_r. exact Hk.
    + destruct (p c) eqn:Hp; [|discriminate].
      destruct (IH _ H) as (m & rest & -> & Hm & Hk').
      exists (c :: m), rest. cbn [forallb]. rewrite Hp, Hm.
      rewrite <- app_assoc in Hk'. repeat split. exact Hk'.
Qed.

Lemma plusLazy_inv (p : N -> bool) (k : jsstring -> @Cont R)
      (s : jsstring) (r : R) :
  plusLazy p k s = Some r ->
  exists m rest,
    s = m ++ rest /\ m <> [] /\ forallb p m = true /\ k m rest = Some r.
Proof.
  destruct s as [|c s]; cbn [plusLazy]; [discriminate|].
  destruct (p c) eqn:Hp; [|discriminate].
  intros H. apply starLazy_inv in H. destruct H as (m & rest & -> & Hm & Hk).
  exists (c :: m), rest. cbn [forallb]. rewrite Hp, Hm.
  repeat split; [discriminate | exact Hk].
Qed.

Lemma atEnd_inv (r0 r : R) (s : jsstring) :
  atEnd r0 s = Some r -> s = [] /\ r = r0.
Proof.
  destruct s; cbn; [|discriminate]. intros H. injection H as <-. split; reflexivity.
Qed.

Lemma orElse_inv (a b : @Cont R) (s : jsstring) (r : R) :
  orElse a b s = Some r -> a s = Some r \/ b s = Some r.
Proof.
  unfold orElse. destruct (a s) as [r'|]; intros H; [left | right]; exact H.
Qed.

End MatcherInversion.

Lemma isChar_eq (a : string) (c x : N) :
  js a = [x] -> isChar a c = true -> c = x.
Proof.
  unfold isChar. intros ->. intros H. apply N.eqb_eq in H. symmetry. exact H.
Qed.

(** What a match of the structured pattern says about the line and the
    captures. *)
Lemma idTagRegex_shape (line : jsstring) (m : Spoiler.MatchArray) :
  Spoiler.idTagRegex line = Some m ->
  Spoiler.m0 m = Some line
  /\ Spoiler.m1 m <> [] /\ forallb isUpperOrDigit (Spoiler.m1 m) = true
  /\ Spoiler.m2 m <> [] /\ forallb isDot (Spoiler.m2 m) = true
  /\ exists ws1 tail,
      line = js "[" ++ Spoiler.m1 m ++ js "]" ++ ws1 ++ Spoiler.m2 m ++ tail
      /\ ws1 <> [] /\ forallb isSpace ws1 = true
      /\ ((Spoiler.m3 m = None /\ tail = [])
          \/ exists ws2 x ws3,
              Spoiler.m3 m = Some (js "{" ++ x ++ js "}")
              /\ tail = ws2 ++ js "{" ++ x ++ js "}" ++ ws3
              /\ ws2 <> [] /\ forallb isSpace ws2 = true
              /\ forallb isDot x = true /\ forallb isSpace ws3 = true).
Proof.
  unfold Spoiler.idTagRegex. intros H.
  apply chr_inv in H. destruct H as (c1 & s1 & Hl & Hc1 & H).
  apply (isChar_eq "[" _ 91 eq_refl) in Hc1. subst c1.
  apply plusGreedy_inv in H. destruct H as (g1 & s2 & -> & Hg1 & Hg1p & H).
  apply chr_inv in H. destruct H as (c2 & s3 & -> & Hc2 & H).
  apply (isChar_eq "]" _ 93 eq_refl) in Hc2. subst c2.
  apply plusGreedy_inv in H. destruct H as (ws1 & s4 & -> & Hws1 & Hws1p & H).
  apply plusLazy_inv in H. destruct H as (g2 & tail & -> & Hg2 & Hg2p & H).
  apply orElse_inv in H. destruct H as [H|H].
  - apply plusGreedy_inv in H. destruct H as (ws2 & s5 & -> & Hws2 & Hws2p & H).
    apply chr_inv in H. destruct H as (c3 & s6 & -> & Hc3 & H).
    apply (isChar_eq "{" _ 123 eq_refl) in Hc3. subst c3.
    apply starGreedy_inv in H. destruct H as (x & s7 & -> & Hx & H).
    apply chr_inv in H. destruct H as (c4 & s8 & -> & Hc4 & H).
    apply (isChar_eq "}" _ 125 eq_refl) in Hc4. subst c4.
    apply starGreedy_inv in H. destruct H as (ws3 & s9 & -> & Hws3 & H).
    apply atEnd_inv in H. destruct H as [-> ->].
    cbn [Spoiler.m0 Spoiler.m1 Spoiler.m2 Spoiler.m3].
    subst line. rewrite app_nil_r. repeat split; try assumption.
    exists ws1, (ws2 ++ js "{" ++ x ++ js "}" ++ ws3).
    split; [reflexivity|]. repeat split; try assumption.
    right. exists ws2, x, ws3.
    repeat split; assumption.
  - apply atEnd_inv in H. destruct H as [-> ->].
    cbn [Spoiler.m0 Spoiler.m1 Spoiler.m2 Spoiler.m3].
    subst line. repeat split; try assumption.
    exists ws1, []. split; [reflexivity|]. repeat split; try assumption.
    left. split; reflexivity.
Qed.

(** X3: a header match reads the line back.  When the structured pattern
    matches, the line is an opening bracket, the id, a closing bracket,
    white space, the name and then either nothing or white space, the
    cost and white space; the id is a non-empty run of capital letters
    and digits, the name is not empty and has no line terminator, and the
    cost is a brace, text without line terminator, a brace. *)
Theorem idTagRegex_reads_back (line : jsstring) (m : Spoiler.MatchArray) :
  Spoiler.idTagRegex line = Some m ->
  Spoiler.m0 m = Some line
  /\ Spoiler.m1 m <> [] /\ forallb isUpperOrDigit (Spoiler.m1 m) = true
  /\ Spoiler.m2 m <> [] /\ forallb isDot (Spoiler.m2 m) = true
  /\ exists ws1 tail,
      line = js "[" ++ Spoiler.m1 m ++ js "]" ++ ws1 ++ Spoiler.m2 m ++ tail
      /\ ws1 <> [] /\ forallb isSpace ws1 = true
      /\ ((Spoiler.m3 m = None /\ tail = [])
          \/ exists ws2 x ws3,
              Spoiler.m3 m = Some (js "{" ++ x ++ js "}")
              /\ tail = ws2 ++ js "{" ++ x ++ js "}" ++ ws3
              /\ ws2 <> [] /\ forallb isSpace ws2 = true
              /\ forallb isDot x = true /\ forallb isSpace ws3 = true).
Proof.
  apply idTagRegex_shape.
Qed.

Section MatcherRuns.
Context {R : Type}.

(** A greedy star takes a whole run when the rest of the pattern accepts
    what follows the run. *)
Lemma starGreedy_run (p : N -> bool) (k : jsstring -> @Cont R)
      (m rest acc : jsstring) (r : R) :
  forallb p m = true ->
  match rest with [] => true | c :: _ => negb (p c) end = true ->
  k (acc ++ m) rest = Some r ->
  starGreedy p k acc (m ++ rest) = Some r.
Proof.
  revert acc; induction m as [|c m IH]; intros acc Hm Hrest Hk.
  - rewrite app_nil_r in Hk. cbn [app].
    destruct rest as [|d rest]; [exact Hk|].
    cbn [starGreedy]. apply negb_true_iff in Hrest. rewrite Hrest. exact Hk.
  - cbn [forallb] in Hm. apply andb_prop in Hm. destruct Hm as [Hc Hm].
    cbn [app starGreedy]. rewrite Hc.
    rewrite (IH (acc ++ [c]) Hm Hrest); [reflexivity|].
    rewrite <- app_assoc. exact Hk.
Qed.

(** A greedy star gives back its last character when the rest of the
    pattern needs it. *)
Lemma starGreedy_gives_back (p : N -> bool) (k : jsstring -> @Cont R)
      (s acc : jsstring) (c : N) (r : R) :
  forallb p s = true -> p c = true ->
  k (acc ++ s ++ [c]) [] = None ->
  k (acc ++ s) [c] = Some r ->
  starGreedy p k acc (s ++ [c]) = Some r.
Proof.
  revert acc; induction s as [|a s IH]; intros acc Hs Hc Hnone Hk.
  - rewrite app_nil_r in Hk. cbn [app] in Hnone |- *.
    cbn [starGreedy]. rewrite Hc, Hnone. exact Hk.
  - cbn [forallb] in Hs. apply andb_prop in Hs. destruct Hs as [Ha Hs].
    cbn [app starGreedy]. rewrite Ha.
    rewrite (IH (acc ++ [a]) Hs Hc); [reflexivity| |];
      rewrite <- app_assoc; assumption.
Qed.

(** A lazy star stops at the first place where the rest of the pattern
    accepts. *)
Lemma starLazy_first (p : N -> bool) (k : jsstring -> @Cont R)
      (a b acc : jsstring) (r : R) :
  forallb p a = true ->
  (forall a1 a2, a = a1 ++ a2 -> a2 <> [] -> k (acc ++ a1) (a2 ++ b) = None) ->
  k (acc ++ a) b = Some r ->
  starLazy p k acc (a ++ b) = Some r.
Proof.
  revert acc; induction a as [|c a IH]; intros acc Ha Hnone Hk.
  - rewrite app_nil_r in Hk. cbn [app].
    destruct b; cbn [starLazy]; rewrite Hk; reflexivity.
  - cbn [forallb] in Ha. apply andb_prop in Ha. destruct Ha as [Hc Ha].
    cbn [app starLazy].
    assert (H0 := Hnone [] (c :: a) eq_refl ltac:(discriminate)).
    rewrite app_nil_r in H0. cbn [app] in H0. rewrite H0, Hc.
    apply IH; [exact Ha| |].
    + intros a1 a2 Heq Hne. rewrite <- app_assoc.
      apply (Hnone (c :: a1) a2); [rewrite Heq; reflexivity | exact Hne].
    + rewrite <- app_assoc. exact Hk.
Qed.

(** White space that is not followed by the awaited character: the
    greedy run and every shorter run fail. *)
Lemma starGreedy_spaces_fail (K : @Cont R) (w t acc : jsstring) (c : N) :
  forallb isSpace w = true ->
  isChar "{" c = false ->
  isSpace c = false ->
  starGreedy isSpace (fun _ => chr (isChar "{") K) acc (w ++ c :: t) = None.
Proof.
  revert acc; induction w as [|a w IH]; intros acc Hw Hc Hs.
  - cbn [app starGreedy chr]. rewrite Hs, Hc. reflexivity.
  - cbn [forallb] in Hw. apply andb_prop in Hw. destruct Hw as [Ha Hw].
    cbn [app starGreedy]. rewrite Ha, (IH _ Hw Hc Hs). cbn [chr].
    change (isChar "{" a) with (123 =? a).
    destruct (N.eqb_spec 123 a) as [<-|_]; [|reflexivity].
    vm_compute in Ha. discriminate.
Qed.

End MatcherRuns.

(** A text whose last character is no white space has a first character
    that is none. *)
Lemma first_non_space (s : jsstring) :
  s <> [] -> isSpace (last s 0) = false ->
  exists w c t, s = w ++ c :: t /\ forallb isSpace w = true /\ isSpace c = false.
Proof.
  induction s as [|a s IH]; intros Hne Hlast; [contradiction|].
  destruct (isSpace a) eqn:Ha.
  - destruct s as [|b s]; [cbn in Hlast; congruence|].
    destruct IH as (w & c & t & Heq & Hw & Hc); [discriminate | exact Hlast |].
    exists (a :: w), c, t. rewrite Heq. cbn [forallb]. rewrite Ha, Hw.
    repeat split. exact Hc.
  - exists [], a, s. repeat split. exact Ha.
Qed.

Lemma last_app_nonempty (a b : jsstring) :
  b <> [] -> last (a ++ b) 0 = last b 0.
Proof.
  intros Hb. induction a as [|x a IH]; [reflexivity|].
  cbn [app]. rewrite <- IH.
  destruct (a ++ b) eqn:Hab; [|reflexivity].
  destruct a; [contradiction | discriminate].
Qed.

Section MatcherSteps.
Context {R : Type}.

Lemma chr_hit (p : N -> bool) (k : @Cont R) (c : N) (s : jsstring) :
  p c = true -> chr p k (c :: s) = k s.
Proof.
  intros H. cbn [chr]. rewrite H. reflexivity.
Qed.

Lemma plusGreedy_run (p : N -> bool) (k : jsstring -> @Cont R)
      (m rest : jsstring) (r : R) :
  m <> [] ->
  forallb p m = true ->
  match rest with [] => true | c :: _ => negb (p c) end = true ->
  k m rest = Some r ->
  plusGreedy p k (m ++ rest) = Some r.
Proof.
  destruct m as [|c m]; [contradiction|]. intros _ Hm Hrest Hk.
  cbn [forallb] in Hm. apply andb_prop in Hm. destruct Hm as [Hc Hm].
  cbn [app plusGreedy]. rewrite Hc.
  apply starGreedy_run; assumption.
Qed.

Lemma plusLazy_first (p : N -> bool) (k : jsstring -> @Cont R)
      (a b : jsstring) (r : R) :
  a <> [] ->
  forallb p a = true ->
  (forall a1 a2, a = a1 ++ a2 -> a1 <> [] -> a2 <> [] ->
                 k a1 (a2 ++ b) = None) ->
  k a b = Some r ->
  plusLazy p k (a ++ b) = Some r.
Proof.
  destruct a as [|c a]; [contradiction|]. intros _ Ha Hnone Hk.
  cbn [forallb] in Ha. apply andb_prop in Ha. destruct Ha as [Hc Ha].
  cbn [app plusLazy]. rewrite Hc.
  apply starLazy_first; [exact Ha| |exact Hk].
  intros a1 a2 Heq Hne. apply (Hnone (c :: a1) a2);
    [rewrite Heq; reflexivity | discriminate | exact Hne].
Qed.

Lemma plusGreedy_spaces_fail (K : @Cont R) (w t : jsstring) (c : N) :
  forallb isSpace w = true ->
  isChar "{" c = false ->
  isSpace c = false ->
  plusGreedy isSpace (fun _ => chr (isChar "{") K) (w ++ c :: t) = None.
Proof.
  intros Hw Hc Hs. destruct w as [|a w].
  - cbn [app plusGreedy]. rewrite Hs. reflexivity.
  - cbn [forallb] in Hw. apply andb_prop in Hw. destruct Hw as [Ha Hw].
    cbn [app plusGreedy]. rewrite Ha.
    apply starGreedy_spaces_fail; assumption.
Qed.

End MatcherSteps.

(** The header pattern on a line written as bracket, id, bracket, one
    blank, name and [tail], when the part of the pattern after the name
    accepts [tail] with the cost capture [cost]. *)
Lemma idTagRegex_written (cardId name tail : jsstring)
      (cost : option jsstring) :
  cardId <> [] ->
  forallb isUpperOrDigit cardId = true ->
  name <> [] ->
  forallb isDot name = true ->
  forallb (fun c => negb (isChar "{" c)) name = true ->
  isSpace (hd 0 name) = false ->
  isSpace (last name 0) = false ->
  (forall whole : option jsstring,
      orElse
        (plusGreedy isSpace (fun _ =>
           chr (isChar "{") (starGreedy isDot (fun x =>
             chr (isChar "}") (starGreedy isSpace (fun _ =>
               atEnd {| Spoiler.m0 := whole; Spoiler.m1 := cardId;
                        Spoiler.m2 := name;
                        Spoiler.m3 := Some (js "{" ++ x ++ js "}") |}) []))
             [])))
        (atEnd {| Spoiler.m0 := whole; Spoiler.m1 := cardId;
                  Spoiler.m2 := name; Spoiler.m3 := None |})
        tail
      = Some {| Spoiler.m0 := whole; Spoiler.m1 := cardId;
                Spoiler.m2 := name; Spoiler.m3 := cost |}) ->
  Spoiler.idTagRegex (js "[" ++ cardId ++ js "] " ++ name ++ tail)
  = Some {| Spoiler.m0 := Some (js "[" ++ cardId ++ js "] " ++ name ++ tail);
            Spoiler.m1 := cardId; Spoiler.m2 := name; Spoiler.m3 := cost |}.
Proof.
  intros Hid Hidp Hname Hdot Hbrace Hfirst Hlast Htail.
  unfold Spoiler.idTagRegex.
  set (whole := Some (js "[" ++ cardId ++ js "] " ++ name ++ tail)).
  change (js "[" ++ cardId ++ js "] " ++ name ++ tail)
    with (91 :: cardId ++ 93 :: [32] ++ name ++ tail).
  rewrite chr_hit by reflexivity.
  apply plusGreedy_run; [exact Hid | exact Hidp | reflexivity |].
  rewrite chr_hit by reflexivity.
  apply plusGreedy_run; [discriminate | reflexivity | |].
  { destruct name as [|n0 name']; [contradiction|].
    cbn [app hd] in Hfirst |- *. rewrite Hfirst. reflexivity. }
  apply plusLazy_first; [exact Hname | exact Hdot | | apply Htail].
  intros a1 a2 Heq Hne1 Hne2. unfold orElse.
  assert (Hlast2 : isSpace (last a2 0) = false).
  { rewrite <- (last_app_nonempty a1 a2 Hne2), <- Heq. exact Hlast. }
  destruct (first_non_space a2 Hne2 Hlast2) as (w & c & t & Ha2 & Hw & Hc).
  assert (Hcb : isChar "{" c = false).
  { rewrite Heq, Ha2, !forallb_app in Hbrace. cbn [forallb] in Hbrace.
    apply andb_prop in Hbrace. destruct Hbrace as [_ Hbrace].
    apply andb_prop in Hbrace. destruct Hbrace as [_ Hbrace].
    apply andb_prop in Hbrace. destruct Hbrace as [Hbrace _].
    apply negb_true_iff in Hbrace. exact Hbrace. }
  rewrite Ha2, <- app_assoc. cbn [app].
  rewrite plusGreedy_spaces_fail by assumption.
  destruct w; reflexivity.
Qed.

(** X4: a header written out is parsed back.  For an id of capital letters
    and digits, a name without line terminator and opening brace that
    neither starts nor ends with white space, and a cost text without
    line terminator, the header line bracket, id, bracket, blank, name
    matches with exactly that id and name and no cost, and the same line
    followed by a blank and the cost in braces matches with exactly that
    id, name and cost. *)
Theorem header_round_trip (cardId name x : jsstring) :
  cardId <> [] ->
  forallb isUpperOrDigit cardId = true ->
  name <> [] ->
  forallb isDot name = true ->
  forallb (fun c => negb (isChar "{" c)) name = true ->
  isSpace (hd 0 name) = false ->
  isSpace (last name 0) = false ->
  forallb isDot x = true ->
  Spoiler.idTagRegex (js "[" ++ cardId ++ js "] " ++ name)
  = Some {| Spoiler.m0 := Some (js "[" ++ cardId ++ js "] " ++ name);
            Spoiler.m1 := cardId; Spoiler.m2 := name; Spoiler.m3 := None |}
  /\ Spoiler.idTagRegex
       (js "[" ++ cardId ++ js "] " ++ name ++ js " {" ++ x ++ js "}")
     = Some {| Spoiler.m0 :=
                 Some (js "[" ++ cardId ++ js "] " ++ name
                         ++ js " {" ++ x ++ js "}");
               Spoiler.m1 := cardId; Spoiler.m2 := name;
               Spoiler.m3 := Some (js "{" ++ x ++ js "}") |}.
Proof.
  intros Hid Hidp Hname Hdot Hbrace Hfirst Hlast Hx. split.
  - pose proof (idTagRegex_written cardId name [] None
                  Hid Hidp Hname Hdot Hbrace Hfirst Hlast) as H.
    rewrite app_nil_r in H. apply H. intros whole. reflexivity.
  - apply idTagRegex_written; try assumption. intros whole.
    unfold orElse.
    change (js " {" ++ x ++ js "}") with ([32] ++ 123 :: x ++ [125]).
    rewrite (plusGreedy_run isSpace _ [32] (123 :: x ++ [125])
               {| Spoiler.m0 := whole; Spoiler.m1 := cardId;
                  Spoiler.m2 := name;
                  Spoiler.m3 := Some (js "{" ++ x ++ js "}") |});
      [reflexivity | discriminate | reflexivity | reflexivity |].
    rewrite chr_hit by reflexivity.
    apply starGreedy_gives_back; [exact Hx | reflexivity | reflexivity |].
    cbn [app]. rewrite chr_hit by reflexivity. reflexivity.
Qed.


(* ================================================================== *)
(** * Further properties: the fields of the parsed cards and file names *)
(* ================================================================== *)

Lemma idTagRegex_fields (line : jsstring) (m : Spoiler.MatchArray) :
  Spoiler.idTagRegex line = Some m ->
  headerFields (Spoiler.m1 m) (Spoiler.m2 m) (Spoiler.orEmpty (Spoiler.m3 m)).
Proof.
  intros H. apply idTagRegex_shape in H.
  destruct H as (_ & Hid & Hidp & Hname & _ & ws1 & tail & _ & _ & _ & Hcost).
  repeat split; try assumption.
  destruct Hcost as [[-> _]|(ws2 & x & ws3 & -> & _ & _ & _ & Hx & _)].
  - left. reflexivity.
  - right. exists x. split; [exact Hx | reflexivity].
Qed.

Lemma safeUnit_class (c : N) :
  isLowerAZ (safeUnit c) || isDigit (safeUnit c) || (safeUnit c =? 95) = true.
Proof.
  unfold safeUnit, asciiLower, isAlnumIgnoreCase, isLowerAZ, isUpperAZ,
    isDigit, between.
  unit_cases c; range_cases.
Qed.

Lemma replaceNonAlnum_ascii (s : jsstring) :
  forallb (fun c => c <? 128) (replaceNonAlnum s) = true.
Proof.
  induction s as [|c s IH]; [reflexivity|].
  cbn [replaceNonAlnum map forallb]. fold (replaceNonAlnum s). rewrite IH.
  rewrite andb_true_r.
  unfold isAlnumIgnoreCase, isLowerAZ, isUpperAZ, isDigit, between.
  unit_cases c; range_cases.
Qed.

Section FileNames.
Variable E : CaseTables.

(** The sanitized name does not depend on the engine's tables. *)
Lemma safeName_map (name : jsstring) :
  toLowerCase E (replaceNonAlnum name) = map safeUnit name.
Proof.
  unfold toLowerCase.
  rewrite <- (app_nil_r (replaceNonAlnum name)).
  rewrite caseConvert_ascii_prefix by apply replaceNonAlnum_ascii.
  cbn [caseConvert]. rewrite app_nil_r.
  unfold replaceNonAlnum. rewrite map_map. reflexivity.
Qed.

(** X5: the file name of a card is, whatever the engine's case tables,
    the id and an underscore (nothing when the id is empty), the name
    with every unit replaced by its small letter, its digit or an
    underscore, and the extension; the sanitized name has the length of
    the name and holds only small letters, digits and underscores.  The
    two scripts compute the same file name from the same id and name. *)
Theorem getFileName_shape (card : Spoiler.Card) (other : ArtGen.Card) :
  Spoiler.getFileName E card
  = (if isEmpty (Spoiler.card_id card) then []
     else Spoiler.card_id card ++ js "_")
    ++ map safeUnit (Spoiler.card_name card) ++ js ".png"
  /\ List.length (map safeUnit (Spoiler.card_name card))
     = List.length (Spoiler.card_name card)
  /\ forallb (fun c => isLowerAZ c || isDigit c || (c =? 95))
             (map safeUnit (Spoiler.card_name card)) = true
  /\ (ArtGen.card_id other = Spoiler.card_id card ->
      ArtGen.card_name other = Spoiler.card_name card ->
      ArtGen.getFileName E other = Spoiler.getFileName E card).
Proof.
  repeat apply conj.
  - unfold Spoiler.getFileName. cbv zeta. rewrite safeName_map.
    destruct (isEmpty (Spoiler.card_id card)); [reflexivity|].
    rewrite <- !app_assoc. reflexivity.
  - apply length_map.
  - apply forallb_forall. intros d Hin. apply in_map_iff in Hin.
    destruct Hin as (c & <- & _). apply safeUnit_class.
  - intros Hid Hname. unfold ArtGen.getFileName, Spoiler.getFileName.
    rewrite Hid, Hname. reflexivity.
Qed.

Import Spoiler.

(** The fields of the emitted cards and of the open card stay header
    fields. *)
Lemma processLine_fields (st st' : PState) (line : jsstring) :
  processLine E st line = Normal st' ->
  Forall (fun card => headerFields (card_id card) (card_name card)
                                   (card_cost card)) (cards st) ->
  (forall m, currentIdLine st = Some m ->
             headerFields (m1 m) (m2 m) (orEmpty (m3 m))) ->
  Forall (fun card => headerFields (card_id card) (card_name card)
                                   (card_cost card)) (cards st')
  /\ (forall m, currentIdLine st' = Some m ->
                headerFields (m1 m) (m2 m) (orEmpty (m3 m))).
Proof.
  unfold processLine. intros Hstep Hcards Hopen.
  destruct (isEmpty (trim (stripSourceTag line))) eqn:Hne;
    [injection Hstep as <-; split; assumption|].
  destruct (includes _ (js "1. FLAVOR & WORLD"));
    [injection Hstep as <-; split; assumption|].
  destruct (includes _ (js "2. MECHANICAL IDENTITIES"));
    [injection Hstep as <-; split; assumption|].
  destruct (includes _ (js "3. CARD FILE"));
    [injection Hstep as <-; split; assumption|].
  destruct (parsingSection st);
    try (injection Hstep as <-; split; assumption).
  destruct (_ || _).
  - unfold startCard in Hstep.
    assert (Hnew : forall m,
               match idTagRegex (trim (stripSourceTag line)) with
               | Some m' => Some m'
               | None => Some {| m0 := None; m1 := js "UNKNOWN";
                                 m2 := trim (stripSourceTag line);
                                 m3 := Some [] |}
               end = Some m ->
               headerFields (m1 m) (m2 m) (orEmpty (m3 m))).
    { intros m Hm.
      destruct (idTagRegex (trim (stripSourceTag line))) as [m'|] eqn:Hre;
        injection Hm as <-.
      - apply (idTagRegex_fields _ _ Hre).
      - cbn [m1 m2 m3 orEmpty]. repeat split.
        + discriminate.
        + destruct (trim (stripSourceTag line)); [discriminate Hne | discriminate].
        + left. reflexivity. }
    destruct (currentIdLine st) as [m|] eqn:Hcur.
    + rewrite finalizeCard_eq in Hstep. cbn [bind] in Hstep.
      injection Hstep as <-. cbn [cards currentIdLine]. split; [|exact Hnew].
      apply Forall_app. split; [exact Hcards|].
      constructor; [|constructor]. cbn [card_id card_name card_cost].
      apply Hopen. reflexivity.
    + cbn [bind] in Hstep. injection Hstep as <-. cbn [cards currentIdLine].
      split; [exact Hcards | exact Hnew].
  - destruct (currentIdLine st) eqn:Hcur; injection Hstep as <-;
      cbn [cards currentIdLine]; split; try assumption.
    rewrite Hcur. exact Hopen.
Qed.

Lemma forEach_fields (lines : list jsstring) (st st' : PState) :
  forEach (processLine E) lines st = Normal st' ->
  Forall (fun card => headerFields (card_id card) (card_name card)
                                   (card_cost card)) (cards st) ->
  (forall m, currentIdLine st = Some m ->
             headerFields (m1 m) (m2 m) (orEmpty (m3 m))) ->
  Forall (fun card => headerFields (card_id card) (card_name card)
                                   (card_cost card)) (cards st')
  /\ (forall m, currentIdLine st' = Some m ->
                headerFields (m1 m) (m2 m) (orEmpty (m3 m))).
Proof.
  revert st; induction lines as [|line lines IH]; intros st Hrun Hcards Hopen.
  - cbn in Hrun. injection Hrun as <-. split; assumption.
  - cbn [forEach] in Hrun.
    destruct (processLine E st line) as [st1|e] eqn:Hstep; [|discriminate].
    cbn [bind] in Hrun.
    destruct (processLine_fields st st1 line Hstep Hcards Hopen) as [H1 H2].
    apply (IH st1 Hrun H1 H2).
Qed.

(** X6: every card of a parsed document has an id that is a non-empty run
    of capital letters and digits, a name that is not empty, and a cost
    that is empty or a brace, text, a brace; so the file name of the
    spoiler page always starts with the id and an underscore. *)
Theorem parsed_cards_have_header_fields (content : jsstring) :
  exists (parsed : list Card) (info : SetInfo),
    parseContent E content = Normal (parsed, info)
    /\ Forall (fun card =>
                 headerFields (card_id card) (card_name card) (card_cost card)
                 /\ getFileName E card
                    = card_id card ++ js "_"
                      ++ map safeUnit (card_name card) ++ js ".png") parsed.
Proof.
  assert (Hfile : forall parsed,
             Forall (fun card => headerFields (card_id card) (card_name card)
                                              (card_cost card)) parsed ->
             Forall (fun card =>
                       headerFields (card_id card) (card_name card) (card_cost card)
                       /\ getFileName E card
                          = card_id card ++ js "_"
                            ++ map safeUnit (card_name card) ++ js ".png") parsed).
  { intros parsed H. apply Forall_forall. intros card Hin.
    rewrite Forall_forall in H. specialize (H card Hin).
    split; [exact H|]. destruct H as (Hid & _).
    unfold getFileName. cbv zeta. rewrite safeName_map.
    destruct (card_id card); [contradiction | reflexivity]. }
  unfold parseContent.
  destruct (forEach_processLine_normal E (splitLines content) initial) as [st Hrun].
  rewrite Hrun. cbn [bind].
  destruct (forEach_fields _ _ _ Hrun (Forall_nil _)) as [Hcards Hopen].
  { intros m Hm. discriminate Hm. }
  destruct (currentIdLine st) as [m|] eqn:Hcur.
  - rewrite finalizeCard_eq. cbn [bind]. eexists _, _. split; [reflexivity|].
    apply Hfile, Forall_app. split; [exact Hcards|].
    constructor; [|constructor]. cbn [card_id card_name card_cost].
    apply Hopen. reflexivity.
  - eexists _, _. split; [reflexivity|]. apply Hfile. exact Hcards.
Qed.

End FileNames.


(* ================================================================== *)
(** * Further properties: lines of a document *)
(* ================================================================== *)

(** A stretch without line feed is read into the current piece, unless it
    ends with a carriage return that the next line feed takes. *)
Lemma splitLinesFrom_stretch (l suffix cur : jsstring) :
  forallb (fun c => negb (c =? 10)) l = true ->
  (last l 0 =? 13) && (hd 0 suffix =? 10) = false ->
  splitLinesFrom cur (l ++ suffix) = splitLinesFrom (cur ++ l) suffix.
Proof.
  revert cur; induction l as [|c l IH]; intros cur Hl Hcr.
  - rewrite app_nil_r. reflexivity.
  - cbn [forallb] in Hl. apply andb_prop in Hl. destruct Hl as [Hc Hl].
    apply negb_true_iff in Hc.
    cbn [app splitLinesFrom]. rewrite Hc.
    destruct l as [|d l].
    + cbn [app last hd] in Hcr |- *.
      destruct suffix as [|e suffix]; [reflexivity|].
      cbn [hd] in Hcr. rewrite Hcr. reflexivity.
    + pose proof Hl as Hl'. cbn [forallb] in Hl'.
      apply andb_prop in Hl'. destruct Hl' as [Hd _].
      apply negb_true_iff in Hd.
      cbn [app]. rewrite Hd, andb_false_r.
      change (d :: l ++ suffix) with ((d :: l) ++ suffix).
      rewrite IH; [|exact Hl|exact Hcr].
      rewrite <- app_assoc. reflexivity.
Qed.

(** X7: splitting undoes joining, for both line-ending conventions.
    Lines without a line feed, joined by carriage return and line feed,
    are split into the same lines; joined by line feeds alone they are
    split into the same lines provided no line but the last ends with a
    carriage return. *)
Theorem splitLines_join (lines : list jsstring) :
  lines <> [] ->
  forallb (fun l => forallb (fun c => negb (c =? 10)) l) lines = true ->
  splitLines (join [13; 10] lines) = lines
  /\ (forallb (fun l => negb (last l 0 =? 13)) (removelast lines) = true ->
      splitLines (join [10] lines) = lines).
Proof.
  destruct lines as [|x lines]; [contradiction|]. intros _.
  unfold splitLines.
  revert x; induction lines as [|y lines IH]; intros x Hno.
  - cbn [forallb] in Hno. apply andb_prop in Hno. destruct Hno as [Hx _].
    cbn [join]. split; [|intros _];
      rewrite <- (app_nil_r x) at 1;
      (rewrite splitLinesFrom_stretch;
       [reflexivity | exact Hx | apply andb_false_r]).
  - cbn [forallb] in Hno. apply andb_prop in Hno. destruct Hno as [Hx Hno].
    destruct (IH y Hno) as [IHcrlf IHlf].
    change (join [13; 10] (x :: y :: lines))
      with (x ++ 13 :: 10 :: join [13; 10] (y :: lines)).
    change (join [10] (x :: y :: lines))
      with (x ++ 10 :: join [10] (y :: lines)).
    split.
    + rewrite splitLinesFrom_stretch; [|exact Hx|apply andb_false_r].
      cbn [splitLinesFrom app]. 
      change (13 =? 10) with false. cbn [N.eqb andb]. 
      change ((13 =? 13) && (10 =? 10)) with true. cbv iota.
      rewrite IHcrlf. reflexivity.
    + intros Hcr. change (removelast (x :: y :: lines))
        with (x :: removelast (y :: lines)) in Hcr.
      cbn [forallb] in Hcr. apply andb_prop in Hcr. destruct Hcr as [Hxcr Hcr].
      apply negb_true_iff in Hxcr.
      rewrite splitLinesFrom_stretch; [|exact Hx|rewrite Hxcr; reflexivity].
      cbn [splitLinesFrom app]. change (10 =? 10) with true. cbv iota.
      rewrite (IHlf Hcr). reflexivity.
Qed.


(* ================================================================== *)
(** * Further properties: the parsers side by side *)
(* ================================================================== *)

Section SideBySide.
Variable E : CaseTables.


(** The cards-only parser never throws. *)
Lemma cardsOnly_processLine_normal (v : CardsOnly.PState) (line : jsstring) :
  exists v', CardsOnly.processLine E v line = Normal v'.
Proof.
  unfold CardsOnly.processLine. cbv zeta.
  destruct (isEmpty _); [eauto|].
  destruct (_ || _).
  - destruct (CardsOnly.currentIdLine v) as [m|].
    + rewrite finalizeCard_eq. cbn [bind]. eauto.
    + cbn [bind]. eauto.
  - destruct (CardsOnly.currentIdLine v); eauto.
Qed.

(** One line without header substring: the later parser in its cards
    section does what the cards-only parser does. *)
Lemma processLine_as_cardsOnly (v : CardsOnly.PState) (info : Spoiler.SetInfo)
      (line : jsstring) :
  noHeader line = true ->
  Spoiler.processLine E (inCardsSection v info) line
  = bind (CardsOnly.processLine E v line)
         (fun v' => Normal (inCardsSection v' info)).
Proof.
  unfold noHeader. cbv zeta. intros Hno.
  apply andb_prop in Hno. destruct Hno as [Hno H3].
  apply andb_prop in Hno. destruct Hno as [H1 H2].
  apply negb_true_iff in H1, H2, H3.
  unfold Spoiler.processLine, CardsOnly.processLine. cbv zeta.
  destruct (isEmpty _).
  { destruct v; reflexivity. }
  rewrite H1, H2, H3. cbn [inCardsSection Spoiler.parsingSection].
  destruct (_ || _).
  - unfold Spoiler.startCard.
    cbn [inCardsSection Spoiler.currentIdLine Spoiler.currentBuffer
         Spoiler.cards Spoiler.setInfo Spoiler.parsingSection].
    destruct (CardsOnly.currentIdLine v) as [m|].
    + rewrite !finalizeCard_eq. reflexivity.
    + reflexivity.
  - cbn [inCardsSection Spoiler.currentIdLine Spoiler.currentBuffer
         Spoiler.cards Spoiler.setInfo Spoiler.parsingSection].
    destruct (CardsOnly.currentIdLine v) eqn:Hcur; cbn [bind].
    + reflexivity.
    + destruct v; reflexivity.
Qed.

Lemma forEach_as_cardsOnly (lines : list jsstring) (v : CardsOnly.PState)
      (info : Spoiler.SetInfo) :
  forallb noHeader lines = true ->
  forEach (Spoiler.processLine E) lines (inCardsSection v info)
  = bind (forEach (CardsOnly.processLine E) lines v)
         (fun v' => Normal (inCardsSection v' info)).
Proof.
  revert v; induction lines as [|line lines IH]; intros v Hall.
  - reflexivity.
  - cbn [forallb] in Hall. apply andb_prop in Hall. destruct Hall as [Hl Hall].
    cbn [forEach]. rewrite (processLine_as_cardsOnly v info line Hl).
    destruct (cardsOnly_processLine_normal v line) as [v1 H1].
    rewrite H1. cbn [bind]. apply IH. exact Hall.
Qed.

(** The later parser on a document that opens with the cards header and
    has no header substring after it. *)
Lemma parseContent_as_cardsOnly (content : jsstring) :
  forallb noHeader (splitLines content) = true ->
  Spoiler.parseContent E (js "3. CARD FILE" ++ LF ++ content)
  = bind (CardsOnly.parseContent E content)
         (fun parsed =>
            Normal (parsed, {| Spoiler.flavor := []; Spoiler.mechanics_ := [] |})).
Proof.
  intros Hall. unfold Spoiler.parseContent, CardsOnly.parseContent.
  assert (Hsplit : splitLines (js "3. CARD FILE" ++ LF ++ content)
                   = js "3. CARD FILE" :: splitLines content).
  { unfold splitLines, LF.
    rewrite splitLinesFrom_stretch; [reflexivity | reflexivity | reflexivity]. }
  rewrite Hsplit. cbn [forEach].
  change (Spoiler.processLine E Spoiler.initial (js "3. CARD FILE"))
    with (Normal (inCardsSection CardsOnly.initial
                    {| Spoiler.flavor := []; Spoiler.mechanics_ := [] |})).
  cbn [bind]. rewrite forEach_as_cardsOnly by exact Hall.
  destruct (forEach (CardsOnly.processLine E) (splitLines content)
              CardsOnly.initial) as [v|e]; [|reflexivity].
  cbn [bind inCardsSection Spoiler.currentIdLine Spoiler.currentBuffer
       Spoiler.cards Spoiler.setInfo].
  destruct (CardsOnly.currentIdLine v) as [m|]; [|reflexivity].
  rewrite finalizeCard_eq. reflexivity.
Qed.

(** X9: adding sections changed nothing for the cards.  A document whose
    lines contain no header substring parses with the cards-only parser
    to the cards that the later parser gives for the same document with
    the cards header line put before it, and the later parser fills no
    bucket. *)
Theorem sections_keep_cards (content : jsstring) :
  forallb noHeader (splitLines content) = true ->
  Spoiler.parseContent E (js "3. CARD FILE" ++ LF ++ content)
  = bind (CardsOnly.parseContent E content)
         (fun parsed =>
            Normal (parsed, {| Spoiler.flavor := []; Spoiler.mechanics_ := [] |})).
Proof.
  apply parseContent_as_cardsOnly.
Qed.

(** Each card-start line adds one card, emitted or open; no other line
    adds one. *)
Lemma artGen_count (lines : list jsstring) (st : ArtGen.PState) :
  (List.length (ArtGen.cards (fold_left ArtGen.processLine lines st))
   + match ArtGen.currentCard (fold_left ArtGen.processLine lines st) with
     | Some _ => 1 | None => 0 end
   = List.length (ArtGen.cards st)
     + match ArtGen.currentCard st with Some _ => 1 | None => 0 end
     + List.length (filter isCardStart lines))%nat.
Proof.
  revert st; induction lines as [|line lines IH]; intros st.
  - cbn. rewrite Nat.add_0_r. reflexivity.
  - cbn [fold_left filter]. rewrite IH.
    unfold ArtGen.processLine, isCardStart. cbv zeta.
    destruct (isEmpty _); cbn [negb andb]; [reflexivity|].
    destruct (_ || _).
    + cbn [ArtGen.cards ArtGen.currentCard List.length].
      destruct (ArtGen.currentCard st); rewrite ?length_app; cbn [List.length];
        lia.
    + destruct (ArtGen.currentCard st) eqn:Hcur;
        cbn [ArtGen.cards ArtGen.currentCard]; rewrite ?Hcur; lia.
Qed.

Lemma cardsOnly_count (lines : list jsstring) (v : CardsOnly.PState) :
  exists v',
    forEach (CardsOnly.processLine E) lines v = Normal v'
    /\ (List.length (CardsOnly.cards v')
        + match CardsOnly.currentIdLine v' with Some _ => 1 | None => 0 end
        = List.length (CardsOnly.cards v)
          + match CardsOnly.currentIdLine v with Some _ => 1 | None => 0 end
          + List.length (filter isCardStart lines))%nat.
Proof.
  revert v; induction lines as [|line lines IH]; intros v.
  - exists v. split; [reflexivity|]. cbn. rewrite Nat.add_0_r. reflexivity.
  - cbn [forEach filter].
    assert (Hstep : exists v1,
               CardsOnly.processLine E v line = Normal v1
               /\ (List.length (CardsOnly.cards v1)
                   + match CardsOnly.currentIdLine v1 with Some _ => 1 | None => 0 end
                   = List.length (CardsOnly.cards v)
                     + match CardsOnly.currentIdLine v with Some _ => 1 | None => 0 end
                     + (if isCardStart line then 1 else 0))%nat).
    { unfold CardsOnly.processLine, isCardStart. cbv zeta.
      destruct (isEmpty _); cbn [negb andb].
      { exists v. split; [reflexivity|]. lia. }
      destruct (_ || _).
      - destruct (CardsOnly.currentIdLine v) as [m|].
        + rewrite finalizeCard_eq. cbn [bind]. eexists. split; [reflexivity|].
          cbn [CardsOnly.cards CardsOnly.currentIdLine].
          destruct (Spoiler.idTagRegex _); rewrite length_app; cbn [List.length];
            lia.
        + cbn [bind]. eexists. split; [reflexivity|].
          cbn [CardsOnly.cards CardsOnly.currentIdLine].
          destruct (Spoiler.idTagRegex _); lia.
      - destruct (CardsOnly.currentIdLine v) eqn:Hcur; eexists;
          (split; [reflexivity|]);
          cbn [CardsOnly.cards CardsOnly.currentIdLine]; rewrite ?Hcur; lia. }
    destruct Hstep as (v1 & H1 & Hc1). rewrite H1. cbn [bind].
    destruct (IH v1) as (v' & Hrun & Hc). exists v'. split; [exact Hrun|].
    rewrite Hc, Hc1. destruct (isCardStart line); cbn [List.length]; lia.
Qed.

Lemma cardsOnly_parse_count (content : jsstring) :
  exists parsed,
    CardsOnly.parseContent E content = Normal parsed
    /\ List.length parsed
       = List.length (filter isCardStart (splitLines content)).
Proof.
  unfold CardsOnly.parseContent.
  destruct (cardsOnly_count (splitLines content) CardsOnly.initial)
    as (v & Hrun & Hc).
  rewrite Hrun. cbn [bind]. cbn in Hc.
  destruct (CardsOnly.currentIdLine v) as [m|].
  - rewrite finalizeCard_eq. cbn [bind]. eexists. split; [reflexivity|].
    rewrite length_app. cbn [List.length]. exact Hc.
  - eexists. split; [reflexivity|]. rewrite Nat.add_0_r in Hc. exact Hc.
Qed.

(** X10: as many cards as card-start lines.  The art generator and the
    cards-only parser emit, on every document, one card per line whose
    normalized text matches the structured pattern or begins with a
    bracketed tag; so does the later parser on a document that opens with
    the cards header and has no header substring after it. *)
Theorem one_card_per_start_line (content : jsstring) :
  List.length (ArtGen.parseContent content)
  = List.length (filter isCardStart (splitLines content))
  /\ (exists parsed,
         CardsOnly.parseContent E content = Normal parsed
         /\ List.length parsed
            = List.length (filter isCardStart (splitLines content)))
  /\ (forallb noHeader (splitLines content) = true ->
      exists parsed info,
        Spoiler.parseContent E (js "3. CARD FILE" ++ LF ++ content)
        = Normal (parsed, info)
        /\ List.length parsed
           = List.length (filter isCardStart (splitLines content))).
Proof.
  repeat apply conj.
  - unfold ArtGen.parseContent. cbv zeta.
    pose proof (artGen_count (splitLines content) ArtGen.initial) as Hc.
    cbn in Hc.
    destruct (ArtGen.currentCard
                (fold_left ArtGen.processLine (splitLines content) ArtGen.initial)).
    + rewrite length_app. cbn [List.length]. exact Hc.
    + rewrite Nat.add_0_r in Hc. exact Hc.
  - apply cardsOnly_parse_count.
  - intros Hall. rewrite (parseContent_as_cardsOnly content Hall).
    destruct (cardsOnly_parse_count content) as (parsed & Hp & Hc).
    rewrite Hp. cbn [bind]. eexists _, _. split; [reflexivity | exact Hc].
Qed.

(** A state before any cards header: no card emitted, none open. *)
Lemma processLine_before_cards (st st' : Spoiler.PState) (line : jsstring) :
  noCardsHeader line = true ->
  Spoiler.parsingSection st <> Spoiler.CARDS ->
  Spoiler.cards st = [] ->
  Spoiler.currentIdLine st = None ->
  Spoiler.processLine E st line = Normal st' ->
  Spoiler.parsingSection st' <> Spoiler.CARDS
  /\ Spoiler.cards st' = []
  /\ Spoiler.currentIdLine st' = None.
Proof.
  unfold noCardsHeader. intros Hno Hsec Hcards Hcur Hstep.
  apply negb_true_iff in Hno.
  unfold Spoiler.processLine in Hstep. cbv zeta in Hstep. rewrite Hno in Hstep.
  destruct (isEmpty _); [injection Hstep as <-; auto|].
  destruct (includes _ (js "1. FLAVOR & WORLD")).
  { injection Hstep as <-. cbn. repeat split; [discriminate|assumption|assumption]. }
  destruct (includes _ (js "2. MECHANICAL IDENTITIES")).
  { injection Hstep as <-. cbn. repeat split; [discriminate|assumption|assumption]. }
  destruct (Spoiler.parsingSection st) eqn:Hs;
    try (injection Hstep as <-; cbn; rewrite ?Hs; repeat split;
         [discriminate|assumption|assumption]).
  contradiction.
Qed.

Lemma forEach_before_cards (lines : list jsstring) (st : Spoiler.PState) :
  forallb noCardsHeader lines = true ->
  Spoiler.parsingSection st <> Spoiler.CARDS ->
  Spoiler.cards st = [] ->
  Spoiler.currentIdLine st = None ->
  exists st',
    forEach (Spoiler.processLine E) lines st = Normal st'
    /\ Spoiler.cards st' = []
    /\ Spoiler.currentIdLine st' = None.
Proof.
  revert st; induction lines as [|line lines IH]; intros st Hall Hsec Hcards Hcur.
  - exists st. repeat split; assumption.
  - cbn [forallb] in Hall. apply andb_prop in Hall. destruct Hall as [Hl Hall].
    cbn [forEach]. destruct (processLine_normal E st line) as [st1 H1].
    rewrite H1. cbn [bind].
    destruct (processLine_before_cards st st1 line Hl Hsec Hcards Hcur H1)
      as (Hs1 & Hc1 & Ho1).
    apply IH; assumption.
Qed.

(** X11: without the cards header there are no cards.  When no line of a
    document contains the cards header substring, the later parser emits
    no card, whatever header-shaped lines the document has. *)
Theorem no_cards_without_header (content : jsstring) :
  forallb noCardsHeader (splitLines content) = true ->
  exists info, Spoiler.parseContent E content = Normal ([], info).
Proof.
  intros Hall. unfold Spoiler.parseContent.
  destruct (forEach_before_cards (splitLines content) Spoiler.initial Hall)
    as (st & Hrun & Hcards & Hcur); try reflexivity; [discriminate|].
  rewrite Hrun. cbn [bind]. rewrite Hcur, Hcards. eexists. reflexivity.
Qed.

End SideBySide.


(* ================================================================== *)
(** * Further properties: no body line is lost *)
(* ================================================================== *)

Lemma dropWhile_head (f : N -> bool) (s : jsstring) (c : N) (r : jsstring) :
  dropWhile f s = c :: r -> f c = false.
Proof.
  induction s as [|a s IH]; cbn [dropWhile]; [discriminate|].
  destruct (f a) eqn:Ha; [exact IH|].
  intros H. injection H as <- _. exact Ha.
Qed.

Lemma hd_rev_last (s : jsstring) (d : N) : hd d (rev s) = last s d.
Proof.
  induction s as [|a s IH]; [reflexivity|].
  cbn [rev]. destruct s as [|b s]; [reflexivity|].
  change (last (a :: b :: s) d) with (last (b :: s) d). rewrite <- IH.
  cbn [rev]. destruct (rev s ++ [b]) eqn:H; [|reflexivity].
  destruct (rev s); discriminate.
Qed.

(** A text that neither starts nor ends with white space is its own
    trimmed text. *)
Lemma trim_fixed (s : jsstring) :
  isSpace (hd 0 s) = false -> isSpace (last s 0) = false -> trim s = s.
Proof.
  intros Hhd Hlast. unfold trim.
  assert (H1 : dropWhile isSpace s = s).
  { destruct s as [|c s]; [reflexivity|]. cbn [hd] in Hhd.
    cbn [dropWhile]. rewrite Hhd. reflexivity. }
  rewrite H1.
  assert (H2 : dropWhile isSpace (rev s) = rev s).
  { rewrite <- (hd_rev_last s 0) in Hlast.
    destruct (rev s) as [|c r]; [reflexivity|]. cbn [hd] in Hlast.
    cbn [dropWhile]. rewrite Hlast. reflexivity. }
  rewrite H2. apply rev_involutive.
Qed.

(** A trimmed text neither starts nor ends with white space. *)
Lemma trim_ends (s : jsstring) :
  isSpace (hd 0 (trim s)) = false /\ isSpace (last (trim s) 0) = false.
Proof.
  unfold trim.
  destruct (dropWhile isSpace (rev (dropWhile isSpace s))) as [|c r] eqn:Hb.
  - split; reflexivity.
  - pose proof (dropWhile_head _ _ _ _ Hb) as Hc. split.
    + (* the first character is that of the text trimmed on the left *)
      assert (Hsuffix : forall (u : jsstring),
                 exists w, u = w ++ dropWhile isSpace u).
      { induction u as [|a u IHu]; [exists []; reflexivity|].
        cbn [dropWhile]. destruct (isSpace a).
        - destruct IHu as [w Hw]. exists (a :: w). cbn [app]. rewrite <- Hw.
          reflexivity.
        - exists []. reflexivity. }
      destruct (Hsuffix (rev (dropWhile isSpace s))) as [w Hw].
      rewrite Hb in Hw.
      assert (Ha : dropWhile isSpace s = rev (c :: r) ++ rev w).
      { rewrite <- rev_app_distr, <- Hw, rev_involutive. reflexivity. }
      destruct (dropWhile isSpace s) as [|a0 a] eqn:Hdrop.
      * destruct (rev (c :: r)) eqn:Hrev; [|discriminate].
        apply (f_equal (@rev N)) in Hrev. rewrite rev_involutive in Hrev.
        discriminate.
      * pose proof (dropWhile_head _ _ _ _ Hdrop) as Ha0.
        destruct (rev (c :: r)) as [|x xs] eqn:Hrev.
        -- apply (f_equal (@rev N)) in Hrev. rewrite rev_involutive in Hrev.
           discriminate.
        -- cbn [app] in Ha. injection Ha as <- _. exact Ha0.
    + rewrite <- hd_rev_last, rev_involutive. exact Hc.
Qed.

Lemma trim_idempotent (s : jsstring) : trim (trim s) = trim s.
Proof.
  destruct (trim_ends s) as [H1 H2]. apply trim_fixed; assumption.
Qed.

Lemma select_lengths {A : Type} (mask : list bool) (l : list A) :
  List.length mask = List.length l ->
  (List.length (select mask l) + List.length (select (map negb mask) l)
   = List.length l)%nat.
Proof.
  revert l; induction mask as [|b mask IH]; intros [|x l] Hlen;
    cbn in *; try discriminate; try reflexivity.
  injection Hlen as Hlen. specialize (IH l Hlen).
  destruct b; cbn; lia.
Qed.

Section Conservation.
Variable E : CaseTables.

(** Finalization keeps every line of a body without blank lines. *)
Lemma finalizeCard_keeps_lines (m : Spoiler.MatchArray) (body : list jsstring) :
  forallb nonBlank body = true ->
  exists card,
    Spoiler.finalizeCard E (Some m) body = Normal card
    /\ cardLineCount card = List.length body
    /\ Spoiler.card_type card = hd [] body.
Proof.
  intros Hnb. eexists. split; [apply finalizeCard_eq|].
  rewrite (filter_all _ _ Hnb).
  unfold cardLineCount. cbn [Spoiler.card_type Spoiler.card_text Spoiler.card_flavor].
  split; [|reflexivity].
  destruct body as [|first rest]; [reflexivity|].
  cbn [forallb] in Hnb. apply andb_prop in Hnb. destruct Hnb as [Hf _].
  apply nonBlank_not_empty in Hf. cbn [hd tl]. rewrite Hf.
  destruct (scanAll_partition E rest Spoiler.scanStart) as (mask & Hlen & Hfl & Hru).
  rewrite Hfl, Hru. cbn [Spoiler.scanStart Spoiler.flavorStack Spoiler.rulesStack].
  rewrite !app_nil_r. pose proof (select_lengths mask rest Hlen).
  cbn [List.length]. lia.
Qed.

(** Lines before the first card-start line leave the initial state as it
    is. *)
Lemma cardsOnly_skips_preamble (lines : list jsstring) :
  forEach (CardsOnly.processLine E) lines CardsOnly.initial
  = forEach (CardsOnly.processLine E)
            (fromFirstCard lines) CardsOnly.initial.
Proof.
  induction lines as [|line lines IH]; [reflexivity|].
  cbn [fromFirstCard]. destruct (isCardStart line) eqn:Hs; [reflexivity|].
  cbn [forEach].
  assert (Hstep : CardsOnly.processLine E CardsOnly.initial line
                  = Normal CardsOnly.initial).
  { unfold CardsOnly.processLine. cbv zeta.
    unfold isCardStart in Hs. cbv zeta in Hs.
    destruct (isEmpty _); [reflexivity|]. cbn [negb andb] in Hs.
    rewrite Hs. reflexivity. }
  rewrite Hstep. cbn [bind]. exact IH.
Qed.

(** With a card open, each body line adds one line to the cards or the
    buffer, and no other line adds or removes one. *)
Lemma cardsOnly_conserves (lines : list jsstring) (v : CardsOnly.PState) :
  CardsOnly.currentIdLine v <> None ->
  forallb nonBlank (CardsOnly.currentBuffer v) = true ->
  exists v',
    forEach (CardsOnly.processLine E) lines v = Normal v'
    /\ CardsOnly.currentIdLine v' <> None
    /\ forallb nonBlank (CardsOnly.currentBuffer v') = true
    /\ (list_sum (map cardLineCount (CardsOnly.cards v'))
        + List.length (CardsOnly.currentBuffer v')
        = list_sum (map cardLineCount (CardsOnly.cards v))
          + List.length (CardsOnly.currentBuffer v)
          + List.length (filter isBodyLine lines))%nat.
Proof.
  revert v; induction lines as [|line lines IH]; intros v Hopen Hnb.
  - exists v. cbn. repeat split; try assumption. lia.
  - cbn [forEach filter].
    assert (Hstep : exists v1,
               CardsOnly.processLine E v line = Normal v1
               /\ CardsOnly.currentIdLine v1 <> None
               /\ forallb nonBlank (CardsOnly.currentBuffer v1) = true
               /\ (list_sum (map cardLineCount (CardsOnly.cards v1))
                   + List.length (CardsOnly.currentBuffer v1)
                   = list_sum (map cardLineCount (CardsOnly.cards v))
                     + List.length (CardsOnly.currentBuffer v)
                     + (if isBodyLine line then 1 else 0))%nat).
    { unfold CardsOnly.processLine, isBodyLine, isCardStart. cbv zeta.
      destruct (isEmpty (trim (Spoiler.stripSourceTag line))) eqn:Hne;
        cbn [negb andb].
      { exists v. repeat split; try assumption. lia. }
      destruct (_ || _); cbn [negb andb].
      - destruct (CardsOnly.currentIdLine v) as [m|]; [|contradiction].
        destruct (finalizeCard_keeps_lines m _ Hnb) as (card & Hfin & Hcount & _).
        rewrite Hfin. cbn [bind]. eexists. split; [reflexivity|].
        cbn [CardsOnly.cards CardsOnly.currentIdLine CardsOnly.currentBuffer].
        split; [destruct (Spoiler.idTagRegex _); discriminate|].
        split; [reflexivity|].
        rewrite map_app, list_sum_app. unfold list_sum at 2. cbn [map fold_right List.length].
        rewrite Hcount. lia.
      - destruct (CardsOnly.currentIdLine v) as [m|] eqn:Hcur; [|contradiction].
        eexists. split; [reflexivity|].
        cbn [CardsOnly.cards CardsOnly.currentIdLine CardsOnly.currentBuffer].
        split; [discriminate|]. split.
        + rewrite forallb_app, Hnb. cbn [forallb andb]. rewrite andb_true_r.
          unfold nonBlank. rewrite trim_idempotent, Hne. reflexivity.
        + rewrite length_app. cbn [List.length]. lia. }
    destruct Hstep as (v1 & H1 & Hopen1 & Hnb1 & Hc1). rewrite H1. cbn [bind].
    destruct (IH v1 Hopen1 Hnb1) as (v' & Hrun & Hopen' & Hnb' & Hc').
    exists v'. repeat split; try assumption.
    rewrite Hc', Hc1. destruct (isBodyLine line); cbn [List.length]; lia.
Qed.

Lemma cardsOnly_body_lines (content : jsstring) :
  exists parsed,
    CardsOnly.parseContent E content = Normal parsed
    /\ list_sum (map cardLineCount parsed)
       = List.length (filter isBodyLine (fromFirstCard (splitLines content))).
Proof.
  unfold CardsOnly.parseContent. rewrite cardsOnly_skips_preamble.
  destruct (fromFirstCard (splitLines content)) as [|start rest] eqn:Hfrom.
  - cbn. eexists. split; reflexivity.
  - assert (Hstart : isCardStart start = true).
    { clear - Hfrom. induction (splitLines content) as [|l ls IH];
        [discriminate|]. cbn [fromFirstCard] in Hfrom.
      destruct (isCardStart l) eqn:Hl; [|exact (IH Hfrom)].
      injection Hfrom as <- _. exact Hl. }
    cbn [forEach filter].
    assert (Hopen : exists m,
               CardsOnly.processLine E CardsOnly.initial start
               = Normal {| CardsOnly.cards := [];
                           CardsOnly.currentIdLine := Some m;
                           CardsOnly.currentBuffer := [] |}).
    { unfold CardsOnly.processLine. cbv zeta.
      unfold isCardStart in Hstart. cbv zeta in Hstart.
      destruct (isEmpty _); [discriminate|]. cbn [negb andb] in Hstart.
      rewrite Hstart. cbn.
      destruct (Spoiler.idTagRegex _); eexists; reflexivity. }
    destruct Hopen as (m & Hopen). rewrite Hopen. cbn [bind].
    destruct (cardsOnly_conserves rest
                {| CardsOnly.cards := []; CardsOnly.currentIdLine := Some m;
                   CardsOnly.currentBuffer := [] |})
      as (v & Hrun & Hop & Hnb & Hc); [discriminate | reflexivity |].
    rewrite Hrun. cbn [bind].
    destruct (CardsOnly.currentIdLine v) as [m'|]; [|contradiction].
    destruct (finalizeCard_keeps_lines m' _ Hnb) as (card & Hfin & Hcount & _).
    rewrite Hfin. cbn [bind]. eexists. split; [reflexivity|].
    rewrite map_app, list_sum_app. unfold list_sum at 2. cbn [map fold_right]. rewrite Hcount.
    cbn in Hc. unfold isBodyLine at 1. rewrite Hstart.
    rewrite andb_false_r. lia.
Qed.

(** X12: no body line is lost and none is counted twice.  On every
    document the cards of the cards-only parser hold together, as type
    lines, rules lines and flavor lines, exactly as many lines as the
    document has non-empty lines that start no card from its first
    card-start line on; so do the cards of the later parser on a document
    that opens with the cards header and has no header substring after
    it. *)
Theorem body_lines_conserved (content : jsstring) :
  (exists parsed,
      CardsOnly.parseContent E content = Normal parsed
      /\ list_sum (map cardLineCount parsed)
         = List.length (filter isBodyLine (fromFirstCard (splitLines content))))
  /\ (forallb noHeader (splitLines content) = true ->
      exists parsed info,
        Spoiler.parseContent E (js "3. CARD FILE" ++ LF ++ content)
        = Normal (parsed, info)
        /\ list_sum (map cardLineCount parsed)
           = List.length
               (filter isBodyLine (fromFirstCard (splitLines content)))).
Proof.
  split; [apply cardsOnly_body_lines|].
  intros Hall. rewrite (parseContent_as_cardsOnly E content Hall).
  destruct (cardsOnly_body_lines content) as (parsed & Hp & Hc).
  rewrite Hp. cbn [bind]. eexists _, _. split; [reflexivity | exact Hc].
Qed.

End Conservation.


(* ================================================================== *)
(** * Further properties: the source tag and the shapes of rules lines *)
(* ================================================================== *)

Lemma stripSourceTag_without_backslash (line : jsstring) :
  startsWith line [92] = false -> Spoiler.stripSourceTag line = line.
Proof.
  intros H. unfold Spoiler.stripSourceTag, Spoiler.sourceTagRegex.
  destruct line as [|c line]; [reflexivity|].
  cbn [startsWith] in H. rewrite startsWith_nil, andb_true_r in H.
  cbn [chr]. rewrite H. reflexivity.
Qed.

(** X13: what the source-tag pattern removes.  The pattern is a backslash
    and the letters s after it, so a line that does not start with a
    backslash is normalized by trimming alone; on a line that starts with
    a backslash it removes the backslash and every s that follows it. *)
Theorem stripSourceTag_spec (line rest : jsstring) (n : nat) :
  (startsWith line [92] = false ->
   Spoiler.stripSourceTag line = line
   /\ trim (Spoiler.stripSourceTag line) = trim line)
  /\ (startsWith rest (js "s") = false ->
      Spoiler.stripSourceTag ([92] ++ repeat 115 n ++ rest) = rest).
Proof.
  split.
  - intros H. rewrite (stripSourceTag_without_backslash line H).
    split; reflexivity.
  - intros H. unfold Spoiler.stripSourceTag, Spoiler.sourceTagRegex.
    cbn [app chr]. rewrite N.eqb_refl.
    rewrite (starGreedy_run (isChar "s") (fun _ rest0 => Some rest0)
               (repeat 115 n) rest [] rest); [reflexivity| | |reflexivity].
    + clear. induction n; [reflexivity|].
      cbn [repeat forallb]. rewrite IHn. reflexivity.
    + destruct rest as [|c rest]; [reflexivity|].
      change (js "s") with [115] in H. cbn [startsWith] in H.
      rewrite startsWith_nil, andb_true_r in H.
      change (isChar "s" c) with (115 =? c). rewrite H. reflexivity.
Qed.

Section Shapes.
Variable E : CaseTables.

(** X14: the two shapes of a rules line.  A capital letter and small
    letters followed by a blank and a dash make a rules line whatever
    comes after the dash; a capital letter and small letters followed by
    one white-space unit and digits up to the end of the line make a
    rules line. *)
Theorem isRuleLine_by_shape (c sp : N) (word digits rest : jsstring) :
  isUpperAZ c = true ->
  word <> [] -> forallb isLowerAZ word = true ->
  Spoiler.isRuleLine E (c :: word ++ js " " ++ [EM_DASH] ++ rest) = true
  /\ (isSpace sp = true ->
      digits <> [] -> forallb isDigit digits = true ->
      Spoiler.isRuleLine E (c :: word ++ sp :: digits) = true).
Proof.
  intros Hc Hw Hlow. split.
  - unfold Spoiler.isRuleLine.
    destruct (_ || _); [reflexivity|].
    assert (Hm : Spoiler.abilityWordRegex
                   (c :: word ++ js " " ++ [EM_DASH] ++ rest) = Some tt).
    { unfold Spoiler.abilityWordRegex. rewrite chr_hit by exact Hc.
      apply plusGreedy_run; [exact Hw | exact Hlow | reflexivity | reflexivity]. }
    rewrite Hm. reflexivity.
  - intros Hsp Hd Hdig. unfold Spoiler.isRuleLine.
    destruct (_ || _); [reflexivity|].
    destruct (isSome (Spoiler.abilityWordRegex _)); [reflexivity|].
    assert (Hm : Spoiler.keywordNumberRegex (c :: word ++ sp :: digits) = Some tt).
    { unfold Spoiler.keywordNumberRegex. rewrite chr_hit by exact Hc.
      apply plusGreedy_run; [exact Hw | exact Hlow | |].
      - cbn beta iota. apply negb_true_iff.
        unfold isLowerAZ, isSpace, isLineTerminator, between in *.
        destruct (N.leb_spec 97 sp); destruct (N.leb_spec sp 122);
          cbv beta iota delta [andb]; try reflexivity.
        revert Hsp. range_cases.
      - rewrite chr_hit by exact Hsp.
        rewrite <- (app_nil_r digits).
        apply plusGreedy_run; [exact Hd | exact Hdig | reflexivity | reflexivity]. }
    rewrite Hm. reflexivity.
Qed.
End Shapes.


(* ================================================================== *)
(** * Further properties: the rules of the shard cascade *)
(* ================================================================== *)

Section ShardRules.
Variable E : CaseTables.

(** Every way through the cascade, with what its tests have
    established. *)
Lemma getShardIdentity_cases (card : ArtGen.Card) (P : jsstring -> Prop) :
  (forall label, In label shardLabels -> P label) ->
  (includes (toLowerCase E (join (js " ") (ArtGen.card_text card)))
            (js "spectrum") = true -> P ArtGen.CONFLUX) ->
  (List.length (ArtGen.getColorIdentity E card) = 2%nat ->
   forall label, In label twoColorLabels -> P label) ->
  ((4 <= List.length (ArtGen.getColorIdentity E card))%nat ->
   P ArtGen.MAELSTROM) ->
  ((List.length (ArtGen.getColorIdentity E card) < 4)%nat ->
   P ArtGen.PLANE) ->
  P (ArtGen.getShardIdentity E card).
Proof.
  intros Hshard Hconflux Htwo Hmael Hplane.
  assert (HE := Hshard ArtGen.ESPER ltac:(unfold shardLabels; in_list)).
  assert (HG := Hshard ArtGen.GRIXIS ltac:(unfold shardLabels; in_list)).
  assert (HJ := Hshard ArtGen.JUND ltac:(unfold shardLabels; in_list)).
  assert (HN := Hshard ArtGen.NAYA ltac:(unfold shardLabels; in_list)).
  assert (HB := Hshard ArtGen.BANT ltac:(unfold shardLabels; in_list)).
  unfold ArtGen.getShardIdentity. cbv zeta.
  do 10 (head_if P; [assumption|]).
  head_if P; [apply Hconflux; reflexivity|].
  set (n := List.length (ArtGen.getColorIdentity E card)) in *.
  set (hasW := ArtGen.arrayIncludes _ (js "White")).
  set (hasU := ArtGen.arrayIncludes _ (js "Blue")).
  set (hasB := ArtGen.arrayIncludes _ (js "Black")).
  set (hasR := ArtGen.arrayIncludes _ (js "Red")).
  set (hasG := ArtGen.arrayIncludes _ (js "Green")).
  assert (Hfallback :
            P (if includes (toLowerCase E (ArtGen.card_type card)) (js "artifact")
               then ArtGen.ESPER
               else if includes (toLowerCase E (ArtGen.card_type card)) (js "zombie")
                       || includes (toLowerCase E (ArtGen.card_type card)) (js "demon")
               then ArtGen.GRIXIS
               else if includes (toLowerCase E (ArtGen.card_type card)) (js "dragon")
                       || includes (toLowerCase E (ArtGen.card_type card)) (js "viashino")
                       || includes (toLowerCase E (ArtGen.card_type card)) (js "goblin")
               then ArtGen.JUND
               else if includes (toLowerCase E (ArtGen.card_type card)) (js "beast")
                       || includes (toLowerCase E (ArtGen.card_type card)) (js "gargantuan")
               then ArtGen.NAYA
               else if includes (toLowerCase E (ArtGen.card_type card)) (js "angel")
                       || includes (toLowerCase E (ArtGen.card_type card)) (js "soldier")
               then ArtGen.BANT
               else if Nat.leb 4 n then ArtGen.MAELSTROM else ArtGen.PLANE)).
  { do 5 (head_if P; [assumption|]).
    destruct (Nat.leb_spec 4 n); [apply Hmael | apply Hplane]; assumption. }
  destruct (Nat.eqb_spec n 3) as [H3|H3]; destruct (Nat.eqb_spec n 2) as [H2'|H2'];
    try lia;
    destruct hasW, hasU, hasB, hasR, hasG; cbv beta iota delta [andb];
    first [ assumption
          | apply (Htwo H2'); unfold twoColorLabels; in_list ].
Qed.

(** X15: what a label says about the card.  The maelstrom label is only
    given to a card with four or more colors of identity and the plane
    label only to one with fewer than four; a label that names two shards
    is only given to a card with exactly two colors of identity; the
    conflux label is only given to a card whose rules text contains
    spectrum. *)
Theorem getShardIdentity_rule_conditions (card : ArtGen.Card) :
  (ArtGen.getShardIdentity E card = ArtGen.MAELSTROM ->
   (4 <= List.length (ArtGen.getColorIdentity E card))%nat)
  /\ (ArtGen.getShardIdentity E card = ArtGen.PLANE ->
      (List.length (ArtGen.getColorIdentity E card) < 4)%nat)
  /\ (In (ArtGen.getShardIdentity E card) twoColorLabels ->
      List.length (ArtGen.getColorIdentity E card) = 2%nat)
  /\ (ArtGen.getShardIdentity E card = ArtGen.CONFLUX ->
      includes (toLowerCase E (join (js " ") (ArtGen.card_text card)))
               (js "spectrum") = true).
Proof.
  apply (getShardIdentity_cases card
           (fun r =>
              (r = ArtGen.MAELSTROM ->
               (4 <= List.length (ArtGen.getColorIdentity E card))%nat)
              /\ (r = ArtGen.PLANE ->
                  (List.length (ArtGen.getColorIdentity E card) < 4)%nat)
              /\ (In r twoColorLabels ->
                  List.length (ArtGen.getColorIdentity E card) = 2%nat)
              /\ (r = ArtGen.CONFLUX ->
                  includes (toLowerCase E (join (js " ") (ArtGen.card_text card)))
                           (js "spectrum") = true))).
  - intros label Hin. unfold shardLabels in Hin. cbn [In] in Hin.
    repeat (destruct Hin as [<-|Hin]; [repeat split; intros H; other_label H|]).
    contradiction.
  - intros Hs. repeat split; try (intros H; other_label H). intros _. exact Hs.
  - intros Hn label Hin. unfold twoColorLabels in Hin. cbn [In] in Hin.
    repeat (destruct Hin as [<-|Hin];
            [repeat split; try (intros H; other_label H); intros _; exact Hn|]).
    contradiction.
  - intros Hn. repeat split; try (intros H; other_label H). intros _. exact Hn.
  - intros Hn. repeat split; try (intros H; other_label H). intros _. exact Hn.
Qed.
End ShardRules.


(* ================================================================== *)
(** * Further properties: the cards of the art generator *)
(* ================================================================== *)

Section SameCards.
Variable E : CaseTables.

Lemma cleanLine_nonBlank (line : jsstring) :
  isEmpty (trim line) = false -> nonBlank (trim line) = true.
Proof.
  intros H. unfold nonBlank. rewrite trim_idempotent, H. reflexivity.
Qed.

(** Finalizing the open card gives the card the art generator holds. *)
Lemma finalizeCard_sameCard (m : Spoiler.MatchArray) (buffer : list jsstring)
      (a : ArtGen.Card) :
  forallb nonBlank buffer = true ->
  sameOpenCard m buffer a ->
  exists card,
    Spoiler.finalizeCard E (Some m) buffer = Normal card /\ sameCard card a.
Proof.
  intros Hnb (Hname & Hcost & Htype & Hid).
  eexists. split; [apply finalizeCard_eq|].
  rewrite (filter_all _ _ Hnb). unfold sameCard.
  cbn [Spoiler.card_name Spoiler.card_cost Spoiler.card_type Spoiler.card_id].
  repeat split; assumption.
Qed.

Lemma processLine_sameCards (v : CardsOnly.PState) (g : ArtGen.PState)
      (line : jsstring) :
  sameCards v g ->
  exists v',
    CardsOnly.processLine E v line = Normal v'
    /\ sameCards v' (ArtGen.processLine g line).
Proof.
  intros (Hcards & Hnb & Hopen).
  unfold CardsOnly.processLine, ArtGen.processLine. cbv zeta.
  destruct (isEmpty (trim (Spoiler.stripSourceTag line))) eqn:Hne.
  { exists v. split; [reflexivity|]. repeat split; assumption. }
  destruct (_ || _).
  - (* a card starts *)
    assert (Hnew : sameOpenCard
                     match Spoiler.idTagRegex (trim (Spoiler.stripSourceTag line)) with
                     | Some m => m
                     | None => {| Spoiler.m0 := None; Spoiler.m1 := js "UNKNOWN";
                                  Spoiler.m2 := trim (Spoiler.stripSourceTag line);
                                  Spoiler.m3 := Some [] |}
                     end []
                     match Spoiler.idTagRegex (trim (Spoiler.stripSourceTag line)) with
                     | Some m =>
                         {| ArtGen.card_id := Spoiler.m1 m;
                            ArtGen.card_name := Spoiler.m2 m;
                            ArtGen.card_cost := Spoiler.orEmpty (Spoiler.m3 m);
                            ArtGen.card_type := []; ArtGen.card_text := [];
                            ArtGen.card_flavor := [] |}
                     | None =>
                         {| ArtGen.card_id := [];
                            ArtGen.card_name := trim (Spoiler.stripSourceTag line);
                            ArtGen.card_cost := []; ArtGen.card_type := [];
                            ArtGen.card_text := []; ArtGen.card_flavor := [] |}
                     end).
    { destruct (Spoiler.idTagRegex _); unfold sameOpenCard;
        cbn [ArtGen.card_id ArtGen.card_name ArtGen.card_cost ArtGen.card_type
             Spoiler.m1 Spoiler.m2 Spoiler.m3 Spoiler.orEmpty hd];
        repeat split; auto. }
    destruct (CardsOnly.currentIdLine v) as [m|] eqn:Hcur;
      destruct (ArtGen.currentCard g) as [a|] eqn:Hg; try contradiction.
    + destruct (finalizeCard_sameCard m _ a Hnb Hopen) as (card & Hfin & Hsame).
      rewrite Hfin. cbn [bind]. eexists. split; [reflexivity|].
      unfold sameCards.
      cbn [CardsOnly.cards CardsOnly.currentBuffer CardsOnly.currentIdLine
           ArtGen.cards ArtGen.currentCard forallb].
      split; [apply Forall2_app; [exact Hcards | constructor; [exact Hsame | constructor]]|].
      split; [reflexivity|].
      destruct (Spoiler.idTagRegex _); exact Hnew.
    + cbn [bind]. eexists. split; [reflexivity|].
      unfold sameCards.
      cbn [CardsOnly.cards CardsOnly.currentBuffer CardsOnly.currentIdLine
           ArtGen.cards ArtGen.currentCard forallb].
      split; [exact Hcards|]. split; [reflexivity|].
      destruct (Spoiler.idTagRegex _); exact Hnew.
  - (* a body line *)
    destruct (CardsOnly.currentIdLine v) as [m|] eqn:Hcur;
      destruct (ArtGen.currentCard g) as [a|] eqn:Hg; try contradiction.
    + eexists. split; [reflexivity|]. unfold sameCards.
      cbn [CardsOnly.cards CardsOnly.currentBuffer CardsOnly.currentIdLine
           ArtGen.cards ArtGen.currentCard].
      split; [exact Hcards|].
      split.
      { rewrite forallb_app, Hnb. cbn [forallb].
        rewrite (cleanLine_nonBlank _ Hne). reflexivity. }
      destruct Hopen as (Hname & Hcost & Htype & Hid).
      unfold sameOpenCard, ArtGen.addBodyLine.
      destruct (CardsOnly.currentBuffer v) as [|first rest] eqn:Hbuf.
      * cbn [hd] in Htype. rewrite Htype. cbn [isEmpty app hd].
        cbn [ArtGen.card_id ArtGen.card_name ArtGen.card_cost ArtGen.card_type].
        repeat split; assumption.
      * cbn [hd] in Htype. cbn [forallb] in Hnb. apply andb_prop in Hnb.
        destruct Hnb as [Hfirst _]. apply nonBlank_not_empty in Hfirst.
        rewrite Htype, Hfirst. cbn [app hd].
        destruct (ArtGen.isFlavorLine _);
          cbn [ArtGen.card_id ArtGen.card_name ArtGen.card_cost ArtGen.card_type];
          rewrite ?Htype; repeat split; assumption.
    + exists v. split; [reflexivity|]. unfold sameCards. rewrite Hcur, Hg.
      repeat split; assumption.
Qed.

Lemma forEach_sameCards (lines : list jsstring) (v : CardsOnly.PState)
      (g : ArtGen.PState) :
  sameCards v g ->
  exists v',
    forEach (CardsOnly.processLine E) lines v = Normal v'
    /\ sameCards v' (fold_left ArtGen.processLine lines g).
Proof.
  revert v g; induction lines as [|line lines IH]; intros v g Hsame.
  - exists v. split; [reflexivity | exact Hsame].
  - cbn [forEach fold_left].
    destruct (processLine_sameCards v g line Hsame) as (v1 & Hstep & H1).
    rewrite Hstep. cbn [bind]. apply IH. exact H1.
Qed.

Lemma parseContent_sameCards (content : jsstring) :
  exists parsed,
    CardsOnly.parseContent E content = Normal parsed
    /\ Forall2 sameCard parsed (ArtGen.parseContent content).
Proof.
  unfold CardsOnly.parseContent, ArtGen.parseContent. cbv zeta.
  destruct (forEach_sameCards (splitLines content) CardsOnly.initial ArtGen.initial)
    as (v & Hrun & Hcards & Hnb & Hopen).
  { repeat split. constructor. }
  rewrite Hrun. cbn [bind].
  destruct (CardsOnly.currentIdLine v) as [m|] eqn:Hcur;
    destruct (ArtGen.currentCard _) as [a|] eqn:Hg; try contradiction.
  - destruct (finalizeCard_sameCard m _ a Hnb Hopen) as (card & Hfin & Hsame).
    rewrite Hfin. cbn [bind]. eexists. split; [reflexivity|].
    apply Forall2_app; [exact Hcards | constructor; [exact Hsame | constructor]].
  - eexists. split; [reflexivity | exact Hcards].
Qed.

(** X16: the art generator and the spoiler generators list the same
    cards.  On every document the cards-only parser and the art generator
    return lists of the same length whose cards agree one by one in name,
    cost and type line, and in id unless the header was malformed; so do
    the later parser and the art generator on a document that opens with
    the cards header and has no header substring after it. *)
Theorem parsers_list_same_cards (content : jsstring) :
  (exists parsed,
      CardsOnly.parseContent E content = Normal parsed
      /\ Forall2 sameCard parsed (ArtGen.parseContent content))
  /\ (forallb noHeader (splitLines content) = true ->
      exists parsed info,
        Spoiler.parseContent E (js "3. CARD FILE" ++ LF ++ content)
        = Normal (parsed, info)
        /\ Forall2 sameCard parsed
             (ArtGen.parseContent (js "3. CARD FILE" ++ LF ++ content))).
Proof.
  destruct (parseContent_sameCards content) as (parsed & Hrun & Hsame).
  split; [exists parsed; split; assumption|].
  intros Hall. rewrite (parseContent_as_cardsOnly E content Hall), Hrun.
  cbn [bind]. eexists _, _. split; [reflexivity|].
  assert (Hart : ArtGen.parseContent (js "3. CARD FILE" ++ LF ++ content)
                 = ArtGen.parseContent content).
  { unfold ArtGen.parseContent. cbv zeta.
    assert (Hsplit : splitLines (js "3. CARD FILE" ++ LF ++ content)
                     = js "3. CARD FILE" :: splitLines content).
    { unfold splitLines, LF.
      rewrite splitLinesFrom_stretch; [reflexivity | reflexivity | reflexivity]. }
    rewrite Hsplit. reflexivity. }
  rewrite Hart. exact Hsame.
Qed.

End SameCards.

Lemma trim_isCleanLine (line : jsstring) :
  isEmpty (trim line) = false -> isCleanLine (trim line) = true.
Proof.
  intros H. unfold isCleanLine. destruct (trim_ends line) as [H1 H2].
  rewrite H, H1, H2. reflexivity.
Qed.

Lemma addBodyLine_shape (a : ArtGen.Card) (cleanLine : jsstring) :
  isCleanLine cleanLine = true ->
  artCardShape a -> artCardShape (ArtGen.addBodyLine a cleanLine).
Proof.
  intros Hclean (Hname & Hid & Hno & Htext & Hnf & Hfl).
  assert (Hne : cleanLine <> []).
  { intros ->. discriminate Hclean. }
  unfold ArtGen.addBodyLine, artCardShape.
  destruct (isEmpty (ArtGen.card_type a)) eqn:Hty.
  - cbn [ArtGen.card_name ArtGen.card_id ArtGen.card_type ArtGen.card_text
         ArtGen.card_flavor].
    split; [exact Hname|]. split; [exact Hid|].
    split; [intros Hc; contradiction|].
    split; [exact Htext|]. split; [exact Hnf | exact Hfl].
  - assert (Htype : ArtGen.card_type a <> []).
    { intros Hc. rewrite Hc in Hty. discriminate. }
    destruct (ArtGen.isFlavorLine cleanLine) eqn:Hflav;
      cbn [ArtGen.card_name ArtGen.card_id ArtGen.card_type ArtGen.card_text
           ArtGen.card_flavor];
      (split; [exact Hname|]); (split; [exact Hid|]);
      (split; [intros Hc; contradiction|]).
    + split; [exact Htext|]. split; [exact Hnf|].
      right. destruct Hfl as [->|Hfl]; [cbn [app]; apply startsWith_self_app|].
      destruct (startsWith_prefix _ _ Hfl) as [t ->].
      rewrite <- app_assoc. apply startsWith_self_app.
    + split; [|split; [|exact Hfl]].
      * rewrite forallb_app, Htext. cbn [forallb]. rewrite Hclean. reflexivity.
      * rewrite forallb_app, Hnf. cbn [forallb]. rewrite Hflav. reflexivity.
Qed.

Lemma artGen_processLine_shape (st : ArtGen.PState) (line : jsstring) :
  Forall artCardShape (ArtGen.cards st) ->
  (forall a, ArtGen.currentCard st = Some a -> artCardShape a) ->
  Forall artCardShape (ArtGen.cards (ArtGen.processLine st line))
  /\ (forall a, ArtGen.currentCard (ArtGen.processLine st line) = Some a ->
                artCardShape a).
Proof.
  intros Hcards Hopen. unfold ArtGen.processLine. cbv zeta.
  destruct (isEmpty (trim (Spoiler.stripSourceTag line))) eqn:Hne;
    [split; assumption|].
  destruct (_ || _).
  - cbn [ArtGen.cards ArtGen.currentCard]. split.
    + destruct (ArtGen.currentCard st) as [a|]; [|exact Hcards].
      apply Forall_app. split; [exact Hcards|].
      constructor; [apply Hopen; reflexivity | constructor].
    + intros a Ha. injection Ha as <-.
      destruct (Spoiler.idTagRegex _) as [m|] eqn:Hre; unfold artCardShape;
        cbn [ArtGen.card_name ArtGen.card_id ArtGen.card_type ArtGen.card_text
             ArtGen.card_flavor forallb].
      * destruct (idTagRegex_fields _ _ Hre) as (_ & Hidp & Hname & _).
        split; [exact Hname|]. split; [exact Hidp|]. repeat split. left. reflexivity.
      * split; [intros Hc; rewrite Hc in Hne; discriminate|].
        repeat split. left. reflexivity.
  - destruct (ArtGen.currentCard st) as [a|] eqn:Hcur.
    + cbn [ArtGen.cards ArtGen.currentCard]. split; [exact Hcards|].
      intros a' Ha. injection Ha as <-.
      apply addBodyLine_shape; [apply trim_isCleanLine; exact Hne|].
      apply Hopen. reflexivity.
    + split; [exact Hcards|]. rewrite Hcur. discriminate.
Qed.

Lemma artGen_fold_shape (lines : list jsstring) (st : ArtGen.PState) :
  Forall artCardShape (ArtGen.cards st) ->
  (forall a, ArtGen.currentCard st = Some a -> artCardShape a) ->
  Forall artCardShape (ArtGen.cards (fold_left ArtGen.processLine lines st))
  /\ (forall a, ArtGen.currentCard (fold_left ArtGen.processLine lines st) = Some a ->
                artCardShape a).
Proof.
  revert st; induction lines as [|line lines IH]; intros st Hc Ho.
  - split; assumption.
  - cbn [fold_left].
    destruct (artGen_processLine_shape st line Hc Ho) as [H1 H2].
    apply IH; assumption.
Qed.

(** X17: every card of the art generator, on every document, has a name;
    its id is made of capital letters and digits; without a type line it
    has no rules text and no flavor; its rules lines are not empty, have
    no white space at either end and fail the flavor test; its flavor is
    empty or starts with a blank. *)
Theorem artGen_cards_shape (content : jsstring) :
  Forall artCardShape (ArtGen.parseContent content).
Proof.
  unfold ArtGen.parseContent. cbv zeta.
  destruct (artGen_fold_shape (splitLines content) ArtGen.initial) as [Hc Ho].
  { constructor. }
  { discriminate. }
  destruct (ArtGen.currentCard _) as [a|]; [|exact Hc].
  apply Forall_app. split; [exact Hc|].
  constructor; [apply Ho; reflexivity | constructor].
Qed.


(* ================================================================== *)
(** * Further properties: mana symbols and the color class of the page *)
(* ================================================================== *)

(** What a match of the symbol pattern says about the text. *)
Lemma symbolRegex_inv (s symbol rest : jsstring) :
  Page.symbolRegex s = Some (symbol, rest) ->
  s = js "{" ++ symbol ++ js "}" ++ rest
  /\ symbol <> [] /\ forallb Page.isSymbolUnit symbol = true.
Proof.
  unfold Page.symbolRegex. intros H.
  apply chr_inv in H. destruct H as (c & s1 & -> & Hc & H).
  apply (isChar_eq "{" _ 123 eq_refl) in Hc. subst c.
  apply plusGreedy_inv in H. destruct H as (m & s2 & -> & Hm & Hclass & H).
  apply chr_inv in H. destruct H as (d & s3 & -> & Hd & H).
  apply (isChar_eq "}" _ 125 eq_refl) in Hd. subst d.
  injection H as <- <-. repeat split; assumption.
Qed.

Lemma symbolRegex_hit (symbol rest : jsstring) :
  symbol <> [] -> forallb Page.isSymbolUnit symbol = true ->
  Page.symbolRegex (js "{" ++ symbol ++ js "}" ++ rest) = Some (symbol, rest).
Proof.
  intros Hne Hclass. unfold Page.symbolRegex.
  change (js "{" ++ symbol ++ js "}" ++ rest)
    with (123 :: (symbol ++ 125 :: rest)).
  rewrite chr_hit by reflexivity.
  apply plusGreedy_run; [exact Hne | exact Hclass | reflexivity | reflexivity].
Qed.

Lemma symbolRegex_other (c : N) (s : jsstring) :
  isChar "{" c = false -> Page.symbolRegex (c :: s) = None.
Proof.
  intros H. unfold Page.symbolRegex. cbn [chr]. rewrite H. reflexivity.
Qed.

Lemma symbolUnit_ascii (c : N) :
  Page.isSymbolUnit c = true -> (c <? 128) = true.
Proof.
  unfold Page.isSymbolUnit, isUpperAZ, isDigit, between.
  change (isChar "/" c) with (47 =? c).
  unit_cases c; range_cases.
Qed.

Lemma removeFirstSlash_class (symbol : jsstring) :
  forallb Page.isSymbolUnit symbol = true ->
  forallb (fun c => c <? 128) (Page.removeFirstSlash symbol) = true.
Proof.
  induction symbol as [|c symbol IH]; [reflexivity|].
  cbn [forallb Page.removeFirstSlash]. intros H.
  apply andb_prop in H. destruct H as [Hc Hs].
  destruct (isChar "/" c).
  - apply forallb_forall. intros x Hx.
    apply symbolUnit_ascii. revert x Hx. apply forallb_forall. exact Hs.
  - cbn [forallb]. rewrite (IH Hs), (symbolUnit_ascii c Hc). reflexivity.
Qed.

Section Symbols.
Variable E : CaseTables.

(** The icon of a symbol of the class does not depend on the engine's
    tables. *)
Lemma icon_iconOf (symbol : jsstring) :
  forallb Page.isSymbolUnit symbol = true ->
  Page.icon E symbol = iconOf symbol.
Proof.
  intros Hclass. unfold Page.icon, iconOf. cbv zeta.
  assert (Hlow : toLowerCase E (Page.removeFirstSlash symbol)
                 = map asciiLower (Page.removeFirstSlash symbol)).
  { unfold toLowerCase.
    rewrite <- (app_nil_r (Page.removeFirstSlash symbol)) at 1.
    rewrite caseConvert_ascii_prefix by (apply removeFirstSlash_class; exact Hclass).
    cbn [caseConvert]. apply app_nil_r. }
  rewrite Hlow.
  destruct (jsstring_eqb _ (js "t")) eqn:Ht; [reflexivity|].
  reflexivity.
Qed.

(** More steps than code units change nothing. *)
Lemma replaceSymbols_fuel (n m : nat) (s : jsstring) :
  (List.length s <= n)%nat -> (List.length s <= m)%nat ->
  Page.replaceSymbols E n s = Page.replaceSymbols E m s.
Proof.
  revert m s; induction n as [|n IH]; intros m s Hn Hm.
  - destruct s; [|cbn in Hn; lia]. destruct m; reflexivity.
  - destruct s as [|c s]; [destruct m; reflexivity|].
    destruct m as [|m]; [cbn in Hm; lia|].
    cbn [Page.replaceSymbols].
    destruct (Page.symbolRegex (c :: s)) as [[symbol rest]|] eqn:Hre.
    + apply symbolRegex_inv in Hre. destruct Hre as (Heq & _ & _).
      apply (f_equal (@List.length N)) in Heq.
      rewrite !length_app in Heq. cbn [List.length js map list_ascii_of_string] in Heq.
      cbn [List.length] in Hn, Hm.
      rewrite (IH m rest); [reflexivity | lia | lia].
    + cbn [List.length] in Hn, Hm.
      rewrite (IH m s); [reflexivity | lia | lia].
Qed.

(** The replacement, one position at a time. *)
Lemma formatSymbols_step (c : N) (s : jsstring) :
  Page.formatSymbols E (c :: s)
  = match Page.symbolRegex (c :: s) with
    | Some (symbol, rest) => Page.icon E symbol ++ Page.formatSymbols E rest
    | None => c :: Page.formatSymbols E s
    end.
Proof.
  assert (Hfs : forall t n, (List.length t <= n)%nat ->
                            Page.replaceSymbols E n t = Page.formatSymbols E t).
  { intros t n Hn. unfold Page.formatSymbols.
    destruct t as [|d t]; [destruct n; reflexivity|].
    cbn [isEmpty]. apply replaceSymbols_fuel; [exact Hn | lia]. }
  unfold Page.formatSymbols at 1. cbn [isEmpty List.length Page.replaceSymbols].
  destruct (Page.symbolRegex (c :: s)) as [[symbol rest]|] eqn:Hre.
  - apply symbolRegex_inv in Hre. destruct Hre as (Heq & _ & _).
    apply (f_equal (@List.length N)) in Heq.
    rewrite !length_app in Heq. cbn [List.length js map list_ascii_of_string] in Heq.
    rewrite Hfs by lia. reflexivity.
  - rewrite Hfs by lia. reflexivity.
Qed.

(** Where no opening brace stands the pattern fails at every position,
    and every unit is copied. *)
Lemma formatSymbols_plain (text : jsstring) :
  forallb (fun c => negb (isChar "{" c)) text = true ->
  Page.formatSymbols E text = text.
Proof.
  induction text as [|c text IH]; [reflexivity|].
  cbn [forallb]. intros H. apply andb_prop in H. destruct H as [Hc Ht].
  apply negb_true_iff in Hc.
  rewrite formatSymbols_step, (symbolRegex_other c text Hc), (IH Ht).
  reflexivity.
Qed.

(** X18: a text without an opening brace is formatted as itself,
    whatever the engine's case tables. *)
Theorem formatSymbols_without_brace (text : jsstring) :
  forallb (fun c => negb (isChar "{" c)) text = true ->
  Page.formatSymbols E text = text.
Proof.
  intros H. apply formatSymbols_plain. exact H.
Qed.

(** X19: the first symbol of a text.  Text without an opening brace
    followed by a symbol in braces (capital letters, digits, slashes) is
    formatted as that text, the icon of the symbol and the formatted rest;
    the icon does not depend on the engine's case tables. *)
Theorem formatSymbols_symbol (pre symbol post : jsstring) :
  forallb (fun c => negb (isChar "{" c)) pre = true ->
  symbol <> [] ->
  forallb Page.isSymbolUnit symbol = true ->
  Page.formatSymbols E (pre ++ js "{" ++ symbol ++ js "}" ++ post)
  = pre ++ iconOf symbol ++ Page.formatSymbols E post.
Proof.
  intros Hpre Hne Hclass. induction pre as [|c pre IH].
  - cbn [app]. change (js "{" ++ symbol ++ js "}" ++ post)
      with (123 :: (symbol ++ js "}" ++ post)).
    rewrite formatSymbols_step.
    change (123 :: (symbol ++ js "}" ++ post))
      with (js "{" ++ symbol ++ js "}" ++ post).
    rewrite (symbolRegex_hit symbol post Hne Hclass), (icon_iconOf symbol Hclass).
    reflexivity.
  - cbn [forallb] in Hpre. apply andb_prop in Hpre. destruct Hpre as [Hc Hp].
    apply negb_true_iff in Hc. cbn [app].
    rewrite formatSymbols_step, (symbolRegex_other c _ Hc), (IH Hp).
    reflexivity.
Qed.

End Symbols.

Lemma orEmptyString_id (s : jsstring) : Page.orEmptyString s = s.
Proof.
  destruct s; reflexivity.
Qed.

(** A text that includes a symbol in braces includes the symbol. *)
Lemma includes_inner (s a b c : jsstring) :
  includes s (a ++ b ++ c) = true -> includes s b = true.
Proof.
  intros H. apply includes_split in H. destruct H as (pre & post & ->).
  replace (pre ++ (a ++ b ++ c) ++ post) with ((pre ++ a) ++ b ++ (c ++ post))
    by (rewrite <- !app_assoc; reflexivity).
  apply includes_middle.
Qed.

Section ColorClass.
Variable E : CaseTables.

(** X20: the color class of a card.  It is one of nine classes; it is
    artifact exactly when the type line says artifact and the cost has no
    color letter, also for a land; it is land exactly when the type line
    says land and the card is not such an artifact; it is gold exactly
    when the cost has two or more color letters and the type line does
    not say land; it is colorless exactly when the cost has no color
    letter and the type line says neither. *)
Theorem colorClass_spec (card : Spoiler.Card) :
  In (Page.colorClass E card) colorClasses
  /\ (Page.colorClass E card = js "artifact"
      <-> includes (toLowerCase E (Spoiler.card_type card)) (js "artifact") = true
          /\ Page.costColors (Spoiler.card_cost card) = [])
  /\ (Page.colorClass E card = js "land"
      <-> includes (toLowerCase E (Spoiler.card_type card)) (js "land") = true
          /\ (includes (toLowerCase E (Spoiler.card_type card)) (js "artifact") = false
              \/ Page.costColors (Spoiler.card_cost card) <> []))
  /\ (Page.colorClass E card = js "gold"
      <-> (2 <= List.length (Page.costColors (Spoiler.card_cost card)))%nat
          /\ includes (toLowerCase E (Spoiler.card_type card)) (js "land") = false)
  /\ (Page.colorClass E card = js "colorless"
      <-> Page.costColors (Spoiler.card_cost card) = []
          /\ includes (toLowerCase E (Spoiler.card_type card)) (js "land") = false
          /\ includes (toLowerCase E (Spoiler.card_type card)) (js "artifact") = false).
Proof.
  unfold Page.colorClass. cbv zeta. rewrite orEmptyString_id.
  unfold Page.costColors. cbv zeta.
  name_tests (Spoiler.card_cost card).
  set (land := includes _ (js "land")).
  set (artifact := includes _ (js "artifact")).
  clearbody pW pU pB pR pG land artifact.
  destruct pW, pU, pB, pR, pG, land, artifact; vm_compute;
    (split; [repeat (first [left; reflexivity | right])|]);
    repeat split; intros; 
    repeat match goal with H : _ /\ _ |- _ => destruct H end;
    try discriminate; try reflexivity; try lia;
    try (left; reflexivity); try (right; discriminate);
    try match goal with H : _ \/ _ |- _ => destruct H; try discriminate; try contradiction end;
    try match goal with H : ?x <> ?x |- _ => contradiction H; reflexivity end.
Qed.
End ColorClass.

Section CastingColors.
Variable E : CaseTables.

(** X21: the casting colors of the art generator show on the page.  For
    the same cost the page finds at least as many color letters as the
    art generator finds color symbols, so a card with two or more casting
    colors whose type line does not say land is gold on the page. *)
Theorem casting_colors_on_page (a : ArtGen.Card) (card : Spoiler.Card) :
  ArtGen.card_cost a = Spoiler.card_cost card ->
  (List.length (ArtGen.getColors a)
   <= List.length (Page.costColors (Spoiler.card_cost card)))%nat
  /\ ((2 <= List.length (ArtGen.getColors a))%nat ->
      includes (toLowerCase E (Spoiler.card_type card)) (js "land") = false ->
      Page.colorClass E card = js "gold").
Proof.
  intros Hcost.
  unfold Page.colorClass, ArtGen.getColors. cbv zeta.
  rewrite orEmptyString_id, Hcost. unfold Page.costColors. cbv zeta.
  assert (HW := includes_inner (Spoiler.card_cost card) (js "{") (js "W") (js "}")).
  assert (HU := includes_inner (Spoiler.card_cost card) (js "{") (js "U") (js "}")).
  assert (HB := includes_inner (Spoiler.card_cost card) (js "{") (js "B") (js "}")).
  assert (HR := includes_inner (Spoiler.card_cost card) (js "{") (js "R") (js "}")).
  assert (HG := includes_inner (Spoiler.card_cost card) (js "{") (js "G") (js "}")).
  change (js "{" ++ js "W" ++ js "}") with (js "{W}") in HW.
  change (js "{" ++ js "U" ++ js "}") with (js "{U}") in HU.
  change (js "{" ++ js "B" ++ js "}") with (js "{B}") in HB.
  change (js "{" ++ js "R" ++ js "}") with (js "{R}") in HR.
  change (js "{" ++ js "G" ++ js "}") with (js "{G}") in HG.
  destruct (isEmpty (Spoiler.card_cost card)); cbn [negb andb].
  { split; [cbn; lia | cbn; lia]. }
  name_tests (Spoiler.card_cost card).
  set (aW := includes _ (js "{W}")) in *.
  set (aU := includes _ (js "{U}")) in *.
  set (aB := includes _ (js "{B}")) in *.
  set (aR := includes _ (js "{R}")) in *.
  set (aG := includes _ (js "{G}")) in *.
  set (land := includes _ (js "land")).
  set (artifact := includes _ (js "artifact")).
  clearbody pW pU pB pR pG aW aU aB aR aG land artifact.
  destruct aW; [rewrite (HW eq_refl) | destruct pW];
    (destruct aU; [rewrite (HU eq_refl) | destruct pU]);
    (destruct aB; [rewrite (HB eq_refl) | destruct pB]);
    (destruct aR; [rewrite (HR eq_refl) | destruct pR]);
    (destruct aG; [rewrite (HG eq_refl) | destruct pG]);
    clear; (split; [vm_compute; lia|]); intros H2 Hland;
    first [ exfalso; vm_compute in H2; lia
          | rewrite Hland; destruct artifact; vm_compute; reflexivity ].
Qed.
End CastingColors.


(* ================================================================== *)
(** * Further properties: the formatted rules text and the mechanics
      list *)
(* ================================================================== *)

Section MatcherBacktrack.
Context {R : Type}.

(** A greedy star gives back the last unit of its run when the rest of
    the pattern fails after the whole run and accepts one unit
    earlier. *)
Lemma starGreedy_gives_back_one (p : N -> bool) (k : jsstring -> @Cont R)
      (m rest acc : jsstring) (c : N) (r : R) :
  forallb p m = true -> p c = true ->
  match rest with [] => true | d :: _ => negb (p d) end = true ->
  k (acc ++ m ++ [c]) rest = None ->
  k (acc ++ m) (c :: rest) = Some r ->
  starGreedy p k acc (m ++ c :: rest) = Some r.
Proof.
  revert acc; induction m as [|a m IH]; intros acc Hm Hc Hrest Hnone Hk.
  - rewrite app_nil_r in Hk. cbn [app] in Hnone |- *.
    cbn [starGreedy]. rewrite Hc.
    assert (Hrun : starGreedy p k (acc ++ [c]) rest = None).
    { destruct rest as [|d rest]; [exact Hnone|].
      cbn [starGreedy]. apply negb_true_iff in Hrest. rewrite Hrest.
      exact Hnone. }
    rewrite Hrun. exact Hk.
  - cbn [forallb] in Hm. apply andb_prop in Hm. destruct Hm as [Ha Hm].
    cbn [app starGreedy]. rewrite Ha.
    rewrite (IH (acc ++ [a]) Hm Hc Hrest); [reflexivity| |];
      rewrite <- app_assoc; assumption.
Qed.

End MatcherBacktrack.

(** What a match of the second pattern says about the text. *)
Lemma wordDashRegex_inv (s word rest : jsstring) :
  Page.wordDashRegex s = Some (word, rest) ->
  s = word ++ 32 :: EM_DASH :: rest
  /\ word <> [] /\ forallb Page.isAlpha word = true.
Proof.
  unfold Page.wordDashRegex. intros H.
  apply plusGreedy_inv in H. destruct H as (m & s1 & -> & Hm & Hclass & H).
  apply chr_inv in H. destruct H as (c & s2 & -> & Hc & H).
  apply (isChar_eq " " _ 32 eq_refl) in Hc. subst c.
  apply chr_inv in H. destruct H as (d & s3 & -> & Hd & H).
  apply N.eqb_eq in Hd. subst d.
  injection H as <- <-. repeat split; assumption.
Qed.

(** Letters, a blank and a dash: the first pattern takes the letters as
    group 1. *)
Lemma leadRegex_word_dash (word rest : jsstring) :
  word <> [] -> forallb Page.isAlpha word = true ->
  Page.leadRegex (word ++ 32 :: EM_DASH :: rest)
  = Some (word, js " " ++ [EM_DASH], rest).
Proof.
  intros Hne Hclass. unfold Page.leadRegex.
  destruct word as [|c word]; [contradiction|].
  cbn [forallb] in Hclass. apply andb_prop in Hclass.
  destruct Hclass as [Hc Hw].
  cbn [app plusGreedy]. unfold Page.isAlphaOrSpace at 1. rewrite Hc. cbn [orb].
  apply starGreedy_gives_back_one.
  - apply forallb_forall. intros x Hx. unfold Page.isAlphaOrSpace.
    rewrite (proj1 (forallb_forall _ _) Hw x Hx). reflexivity.
  - reflexivity.
  - reflexivity.
  - reflexivity.
  - reflexivity.
Qed.

(** X22: the second replacement of [Page.getFormattedText] never applies. *)
Theorem italicReplace_never_applies (formatted : jsstring) :
  Page.italicReplace (Page.strongReplace formatted) = Page.strongReplace formatted.
Proof.
  unfold Page.strongReplace.
  destruct (Page.leadRegex formatted) as [[[g1 g2] rest]|] eqn:Hlead.
  - reflexivity.
  - unfold Page.italicReplace.
    destruct (Page.wordDashRegex formatted) as [[word rest]|] eqn:Hword;
      [|reflexivity].
    apply wordDashRegex_inv in Hword. destruct Hword as (-> & Hne & Hclass).
    rewrite (leadRegex_word_dash word rest Hne Hclass) in Hlead.
    discriminate.
Qed.

Lemma alphaOrSpace_no_brace (w : jsstring) :
  forallb Page.isAlphaOrSpace w = true ->
  forallb (fun c => negb (isChar "{" c)) w = true.
Proof.
  intros H. apply forallb_forall. intros c Hc.
  apply (proj1 (forallb_forall _ _) H) in Hc. revert Hc.
  unfold Page.isAlphaOrSpace, Page.isAlpha, isLowerAZ, isUpperAZ, isSpace,
    isLineTerminator, between.
  change (isChar "{" c) with (123 =? c).
  destruct (N.eqb_spec 123 c) as [<-|_]; [vm_compute; discriminate|reflexivity].
Qed.

Lemma alpha_alphaOrSpace (w : jsstring) :
  forallb Page.isAlpha w = true -> forallb Page.isAlphaOrSpace w = true.
Proof.
  intros H. apply forallb_forall. intros x Hx. unfold Page.isAlphaOrSpace.
  rewrite (proj1 (forallb_forall _ _) H x Hx). reflexivity.
Qed.

(** Letters and white space up to a colon: the first pattern takes them
    as group 1. *)
Lemma leadRegex_words_colon (words rest : jsstring) :
  words <> [] -> forallb Page.isAlphaOrSpace words = true ->
  Page.leadRegex (words ++ 58 :: rest) = Some (words, js ":", rest).
Proof.
  intros Hne Hclass. unfold Page.leadRegex.
  apply plusGreedy_run; [exact Hne | exact Hclass | reflexivity | reflexivity].
Qed.

Section FormattedText.
Variable E : CaseTables.

(** X22: no ability word is set in italics.  In every paragraph of the
    formatted rules text the second replacement leaves the text as the
    first replacement returned it. *)
Theorem getFormattedText_never_italic (card : Spoiler.Card) :
  Page.getFormattedText E card
  = join [] (map (fun line =>
                    js "<p>" ++ Page.strongReplace (Page.formatSymbols E line)
                      ++ js "</p>")
                 (Spoiler.card_text card)).
Proof.
  unfold Page.getFormattedText. f_equal. apply map_ext. intros line.
  unfold Page.formatLine. cbv zeta. rewrite italicReplace_never_applies.
  reflexivity.
Qed.

(** X23: what is set bold.  In a rules line without an opening brace,
    letters followed by a blank and a dash are put in strong tags, and so
    are letters and white space followed by a colon; the rest of the line
    follows as it is. *)
Theorem formatLine_bold_lead (word words rest : jsstring) :
  forallb (fun c => negb (isChar "{" c)) rest = true ->
  (word <> [] -> forallb Page.isAlpha word = true ->
   Page.formatLine E (word ++ js " " ++ [EM_DASH] ++ rest)
   = js "<p><strong>" ++ word ++ js "</strong> " ++ [EM_DASH] ++ rest
       ++ js "</p>")
  /\ (words <> [] -> forallb Page.isAlphaOrSpace words = true ->
      Page.formatLine E (words ++ js ":" ++ rest)
      = js "<p><strong>" ++ words ++ js "</strong>:" ++ rest ++ js "</p>").
Proof.
  intros Hrest. split.
  - intros Hne Hclass. unfold Page.formatLine. cbv zeta.
    rewrite italicReplace_never_applies.
    rewrite (formatSymbols_plain E).
    + unfold Page.strongReplace.
      change (word ++ js " " ++ [EM_DASH] ++ rest)
        with (word ++ 32 :: EM_DASH :: rest).
      rewrite (leadRegex_word_dash word rest Hne Hclass).
      same_text.
    + rewrite forallb_app.
      rewrite (alphaOrSpace_no_brace word (alpha_alphaOrSpace word Hclass)).
      cbn [app js map list_ascii_of_string forallb]. exact Hrest.
  - intros Hne Hclass. unfold Page.formatLine. cbv zeta.
    rewrite italicReplace_never_applies.
    rewrite (formatSymbols_plain E).
    + unfold Page.strongReplace.
      change (words ++ js ":" ++ rest) with (words ++ 58 :: rest).
      rewrite (leadRegex_words_colon words rest Hne Hclass).
      same_text.
    + rewrite forallb_app. rewrite (alphaOrSpace_no_brace words Hclass).
      cbn [app js map list_ascii_of_string forallb]. exact Hrest.
Qed.

End FormattedText.

Lemma no_colon_split (a b : jsstring) :
  forallb (fun c => negb (isChar ":" c)) (a ++ 58 :: b) = false.
Proof.
  rewrite forallb_app. cbn [forallb]. apply andb_false_r.
Qed.

(** X24: an item of the mechanics list.  A star, white space, a name
    without colon and a colon give the name and the colon in strong tags
    and the rest of the line; a star, white space and a text without
    colon give the text; a line that does not start with a star is kept
    as it is. *)
Theorem mechanicsItem_spec (line ws name text rest : jsstring) :
  forallb isSpace ws = true ->
  (name <> [] -> forallb isDot name = true ->
   forallb (fun c => negb (isChar ":" c)) name = true ->
   isSpace (hd 0 name) = false ->
   Page.mechanicsItem (js "*" ++ ws ++ name ++ js ":" ++ rest)
   = js "<li><strong>" ++ name ++ js ":</strong>" ++ rest ++ js "</li>")
  /\ (forallb (fun c => negb (isChar ":" c)) text = true ->
      isSpace (hd 0 text) = false ->
      Page.mechanicsItem (js "*" ++ ws ++ text) = js "<li>" ++ text ++ js "</li>")
  /\ (startsWith line (js "*") = false ->
      Page.mechanicsItem line = js "<li>" ++ line ++ js "</li>").
Proof.
  intros Hws. split; [|split].
  - intros Hne Hdot Hcolon Hhd.
    assert (Hre : Page.bulletNameRegex (js "*" ++ ws ++ name ++ js ":" ++ rest)
                  = Some (name, rest)).
    { unfold Page.bulletNameRegex.
      change (js "*" ++ ws ++ name ++ js ":" ++ rest)
        with (42 :: (ws ++ (name ++ 58 :: rest))).
      rewrite chr_hit by reflexivity.
      apply starGreedy_run; [exact Hws| |].
      - destruct name as [|c name]; [contradiction|].
        cbn [app hd] in Hhd |- *. rewrite Hhd. reflexivity.
      - cbn [app]. apply plusLazy_first; [exact Hne | exact Hdot | |reflexivity].
        intros a1 a2 Heq _ Hne2. destruct a2 as [|c a2]; [contradiction|].
        cbn [app chr].
        rewrite Heq, forallb_app in Hcolon. apply andb_prop in Hcolon.
        destruct Hcolon as [_ Hc]. cbn [forallb] in Hc.
        apply andb_prop in Hc. destruct Hc as [Hc _].
        apply negb_true_iff in Hc. rewrite Hc. reflexivity. }
    unfold Page.mechanicsItem. cbv zeta. rewrite Hre.
    change (Page.bulletRegex (js "<strong>" ++ name ++ js ":</strong>" ++ rest))
      with (@None jsstring).
    same_text.
  - intros Hcolon Hhd.
    assert (Hre : Page.bulletNameRegex (js "*" ++ ws ++ text) = None).
    { destruct (Page.bulletNameRegex (js "*" ++ ws ++ text)) as [[name' rest']|] eqn:Hre;
        [|reflexivity].
      exfalso. unfold Page.bulletNameRegex in Hre.
      apply chr_inv in Hre. destruct Hre as (c & s1 & Heq & _ & Hre).
      change (js "*" ++ ws ++ text) with (42 :: (ws ++ text)) in Heq.
      injection Heq as _ Heq.
      apply starGreedy_inv in Hre. destruct Hre as (m & s2 & -> & _ & Hre).
      apply plusLazy_inv in Hre. destruct Hre as (g & s3 & -> & _ & _ & Hre).
      apply chr_inv in Hre. destruct Hre as (d & s4 & -> & Hd & _).
      apply (isChar_eq ":" _ 58 eq_refl) in Hd. subst d.
      assert (Hall : forallb (fun c => negb (isChar ":" c)) (ws ++ text) = true).
      { rewrite forallb_app, Hcolon, andb_true_r.
        apply forallb_forall. intros x Hx.
        apply (proj1 (forallb_forall _ _) Hws) in Hx.
        change (isChar ":" x) with (58 =? x).
        destruct (N.eqb_spec 58 x) as [<-|_]; [discriminate Hx | reflexivity]. }
      rewrite Heq in Hall.
      replace (m ++ g ++ 58 :: s4) with ((m ++ g) ++ 58 :: s4) in Hall
        by (rewrite <- app_assoc; reflexivity).
      rewrite no_colon_split in Hall. discriminate. }
    assert (Hb : Page.bulletRegex (js "*" ++ ws ++ text) = Some text).
    { unfold Page.bulletRegex.
      change (js "*" ++ ws ++ text) with (42 :: (ws ++ text)).
      rewrite chr_hit by reflexivity.
      apply starGreedy_run; [exact Hws| |reflexivity].
      destruct text as [|c text]; [reflexivity|].
      cbn [hd] in Hhd. rewrite Hhd. reflexivity. }
    unfold Page.mechanicsItem. cbv zeta. rewrite Hre, Hb. reflexivity.
  - intros Hstar. unfold Page.mechanicsItem. cbv zeta.
    assert (H1 : Page.bulletNameRegex line = None).
    { unfold Page.bulletNameRegex. destruct line as [|c line]; [reflexivity|].
      change (js "*") with [42] in Hstar. cbn [startsWith] in Hstar.
      rewrite startsWith_nil, andb_true_r in Hstar.
      cbn [chr]. change (isChar "*" c) with (42 =? c). rewrite Hstar.
      reflexivity. }
    assert (H2 : Page.bulletRegex line = None).
    { unfold Page.bulletRegex. destruct line as [|c line]; [reflexivity|].
      change (js "*") with [42] in Hstar. cbn [startsWith] in Hstar.
      rewrite startsWith_nil, andb_true_r in Hstar.
      cbn [chr]. change (isChar "*" c) with (42 =? c). rewrite Hstar.
      reflexivity. }
    rewrite H1, H2. reflexivity.
Qed.


(* ================================================================== *)
(** * The further properties on concrete lines and documents *)
(* ================================================================== *)

(** The vocabulary term die in capitals inside the word SOLDIER. *)
Lemma isRuleLine_term_any_case_witness :
  In (js "die") Spoiler.mechanics
  /\ Spoiler.isRuleLine plainTables (js "SOL" ++ js "DIE" ++ js "R of Bant")
     = true.
Proof.
  assert (Hin : In (js "die") Spoiler.mechanics)
    by (unfold Spoiler.mechanics; cbn [map]; in_list).
  split; [exact Hin|].
  apply (isRuleLine_term_any_case plainTables (js "SOL") (js "DIE")
           (js "R of Bant") (js "die") Hin); reflexivity.
Defined.

(** A white and blue cost: White is a casting color and a color of the
    identity. *)
Lemma getColors_in_identity_witness :
  In (js "White")
     (ArtGen.getColors
        {| ArtGen.card_id := js "U12"; ArtGen.card_name := js "Sky Warden";
           ArtGen.card_cost := js "{2}{W}{U}"; ArtGen.card_type := js "Creature";
           ArtGen.card_text := [js "Flying"]; ArtGen.card_flavor := [] |})
  /\ In (js "White")
        (ArtGen.getColorIdentity plainTables
           {| ArtGen.card_id := js "U12"; ArtGen.card_name := js "Sky Warden";
              ArtGen.card_cost := js "{2}{W}{U}";
              ArtGen.card_type := js "Creature";
              ArtGen.card_text := [js "Flying"]; ArtGen.card_flavor := [] |}).
Proof.
  assert (Hin : In (js "White")
                   (ArtGen.getColors
                      {| ArtGen.card_id := js "U12";
                         ArtGen.card_name := js "Sky Warden";
                         ArtGen.card_cost := js "{2}{W}{U}";
                         ArtGen.card_type := js "Creature";
                         ArtGen.card_text := [js "Flying"];
                         ArtGen.card_flavor := [] |}))
    by (left; reflexivity).
  split; [exact Hin|].
  exact (getColors_in_identity plainTables _ _ Hin).
Defined.

(** The header of the scenario read back: its id is M01 and its cost the
    two symbols. *)
Lemma idTagRegex_reads_back_witness :
  exists m : Spoiler.MatchArray,
    Spoiler.idTagRegex (js "[M01] Test Card {1}{W}") = Some m
    /\ Spoiler.m0 m = Some (js "[M01] Test Card {1}{W}")
    /\ Spoiler.m1 m <> []
    /\ forallb isUpperOrDigit (Spoiler.m1 m) = true.
Proof.
  exists {| Spoiler.m0 := Some (js "[M01] Test Card {1}{W}");
            Spoiler.m1 := js "M01"; Spoiler.m2 := js "Test Card";
            Spoiler.m3 := Some (js "{1}{W}") |}.
  assert (Hm : Spoiler.idTagRegex (js "[M01] Test Card {1}{W}")
               = Some {| Spoiler.m0 := Some (js "[M01] Test Card {1}{W}");
                         Spoiler.m1 := js "M01"; Spoiler.m2 := js "Test Card";
                         Spoiler.m3 := Some (js "{1}{W}") |})
    by (vm_compute; reflexivity).
  split; [exact Hm|].
  pose proof (idTagRegex_reads_back _ _ Hm) as (H0 & H1 & H2 & _).
  split; [exact H0 | split; [exact H1 | exact H2]].
Defined.

(** The header of the scenario written out and parsed back, without and
    with its cost. *)
Lemma header_round_trip_witness :
  Spoiler.idTagRegex (js "[" ++ js "M01" ++ js "] " ++ js "Test Card")
  = Some {| Spoiler.m0 :=
              Some (js "[" ++ js "M01" ++ js "] " ++ js "Test Card");
            Spoiler.m1 := js "M01"; Spoiler.m2 := js "Test Card";
            Spoiler.m3 := None |}
  /\ Spoiler.idTagRegex
       (js "[" ++ js "M01" ++ js "] " ++ js "Test Card"
           ++ js " {" ++ js "1}{W" ++ js "}")
     = Some {| Spoiler.m0 :=
                 Some (js "[" ++ js "M01" ++ js "] " ++ js "Test Card"
                         ++ js " {" ++ js "1}{W" ++ js "}");
               Spoiler.m1 := js "M01"; Spoiler.m2 := js "Test Card";
               Spoiler.m3 := Some (js "{" ++ js "1}{W" ++ js "}") |}.
Proof.
  apply (header_round_trip (js "M01") (js "Test Card") (js "1}{W"));
    first [discriminate | reflexivity].
Defined.

(** A card of each script with the same id and name: one file name. *)
Lemma getFileName_shape_witness :
  ArtGen.getFileName plainTables
    {| ArtGen.card_id := js "M01"; ArtGen.card_name := js "Test Card";
       ArtGen.card_cost := js "{1}{W}"; ArtGen.card_type := js "Creature";
       ArtGen.card_text := [js "Flying"]; ArtGen.card_flavor := [] |}
  = Spoiler.getFileName plainTables
      {| Spoiler.card_id := js "M01"; Spoiler.card_name := js "Test Card";
         Spoiler.card_cost := js "{1}{W}"; Spoiler.card_type := js "Creature";
         Spoiler.card_text := [js "Flying"]; Spoiler.card_flavor := [] |}
  /\ Spoiler.getFileName plainTables
       {| Spoiler.card_id := js "M01"; Spoiler.card_name := js "Test Card";
          Spoiler.card_cost := js "{1}{W}"; Spoiler.card_type := js "Creature";
          Spoiler.card_text := [js "Flying"]; Spoiler.card_flavor := [] |}
     = js "M01_test_card.png".
Proof.
  split; [|vm_compute; reflexivity].
  apply (proj2 (proj2 (proj2
           (getFileName_shape plainTables
              {| Spoiler.card_id := js "M01"; Spoiler.card_name := js "Test Card";
                 Spoiler.card_cost := js "{1}{W}";
                 Spoiler.card_type := js "Creature";
                 Spoiler.card_text := [js "Flying"];
                 Spoiler.card_flavor := [] |}
              {| ArtGen.card_id := js "M01"; ArtGen.card_name := js "Test Card";
                 ArtGen.card_cost := js "{1}{W}";
                 ArtGen.card_type := js "Creature";
                 ArtGen.card_text := [js "Flying"];
                 ArtGen.card_flavor := [] |})))); reflexivity.
Defined.

(** Three lines, the second one empty, joined either way and split. *)
Lemma splitLines_join_witness :
  splitLines (join [13; 10] [js "[M01] Test Card"; []; js "Flying"])
  = [js "[M01] Test Card"; []; js "Flying"]
  /\ splitLines (join [10] [js "[M01] Test Card"; []; js "Flying"])
     = [js "[M01] Test Card"; []; js "Flying"].
Proof.
  destruct (splitLines_join [js "[M01] Test Card"; []; js "Flying"])
    as [Hcrlf Hlf]; [discriminate | reflexivity |].
  split; [exact Hcrlf | apply Hlf; reflexivity].
Defined.


(** The card of the scenario without the header line, and the scenario. *)
Lemma sections_keep_cards_witness :
  Spoiler.parseContent plainTables
    (js "3. CARD FILE" ++ LF
       ++ (js "[M01] Test Card {1}{W}" ++ LF ++ js "Creature" ++ LF
             ++ js "Flying"))
  = bind (CardsOnly.parseContent plainTables
            (js "[M01] Test Card {1}{W}" ++ LF ++ js "Creature" ++ LF
               ++ js "Flying"))
         (fun parsed =>
            Normal (parsed,
                    {| Spoiler.flavor := []; Spoiler.mechanics_ := [] |})).
Proof.
  apply (sections_keep_cards plainTables
           (js "[M01] Test Card {1}{W}" ++ LF ++ js "Creature" ++ LF
              ++ js "Flying")).
  vm_compute. reflexivity.
Defined.

(** Two headers, the second malformed: two cards from the later parser. *)
Lemma one_card_per_start_line_witness :
  exists parsed info,
    Spoiler.parseContent plainTables
      (js "3. CARD FILE" ++ LF
         ++ (js "[M01] Test Card {1}{W}" ++ LF ++ js "Creature" ++ LF
               ++ js "[M02]"))
    = Normal (parsed, info)
    /\ List.length parsed
       = List.length
           (filter isCardStart
              (splitLines (js "[M01] Test Card {1}{W}" ++ LF ++ js "Creature"
                              ++ LF ++ js "[M02]"))).
Proof.
  apply (proj2 (proj2
           (one_card_per_start_line plainTables
              (js "[M01] Test Card {1}{W}" ++ LF ++ js "Creature" ++ LF
                 ++ js "[M02]")))).
  vm_compute. reflexivity.
Defined.

(** A document with header-shaped lines and no cards header. *)
Lemma no_cards_without_header_witness :
  exists info,
    Spoiler.parseContent plainTables
      (js "1. FLAVOR & WORLD" ++ LF ++ js "[M01] Test Card {1}{W}" ++ LF
         ++ js "Creature")
    = Normal ([], info).
Proof.
  apply (no_cards_without_header plainTables
           (js "1. FLAVOR & WORLD" ++ LF ++ js "[M01] Test Card {1}{W}" ++ LF
              ++ js "Creature")).
  vm_compute. reflexivity.
Defined.

(** A preamble line, a card with three body lines and a blank line. *)
Lemma body_lines_conserved_witness :
  exists parsed info,
    Spoiler.parseContent plainTables
      (js "3. CARD FILE" ++ LF
         ++ (js "Preamble" ++ LF ++ js "[M01] Test Card {1}{W}" ++ LF
               ++ js "Creature" ++ LF ++ LF ++ js "Flying" ++ LF
               ++ js "Calm."))
    = Normal (parsed, info)
    /\ list_sum (map cardLineCount parsed)
       = List.length
           (filter isBodyLine
              (fromFirstCard
                 (splitLines
                    (js "Preamble" ++ LF ++ js "[M01] Test Card {1}{W}" ++ LF
                       ++ js "Creature" ++ LF ++ LF ++ js "Flying" ++ LF
                       ++ js "Calm.")))).
Proof.
  apply (proj2
           (body_lines_conserved plainTables
              (js "Preamble" ++ LF ++ js "[M01] Test Card {1}{W}" ++ LF
                 ++ js "Creature" ++ LF ++ LF ++ js "Flying" ++ LF
                 ++ js "Calm."))).
  vm_compute. reflexivity.
Defined.

(** A header with leading blanks, and a header behind a backslash and two
    letters s. *)
Lemma stripSourceTag_spec_witness :
  (Spoiler.stripSourceTag (js "  [M01] Test Card") = js "  [M01] Test Card"
   /\ trim (Spoiler.stripSourceTag (js "  [M01] Test Card"))
      = trim (js "  [M01] Test Card"))
  /\ Spoiler.stripSourceTag ([92] ++ repeat 115 2 ++ js "[M01] Test Card")
     = js "[M01] Test Card".
Proof.
  destruct (stripSourceTag_spec (js "  [M01] Test Card")
              (js "[M01] Test Card") 2) as [Hkept Hcut].
  split; [apply Hkept; reflexivity | apply Hcut; reflexivity].
Defined.

(** An ability word with its dash, and a keyword with its number. *)
Lemma isRuleLine_by_shape_witness :
  Spoiler.isRuleLine plainTables
    (76 :: js "andfall" ++ js " " ++ [EM_DASH] ++ js " It grows.") = true
  /\ Spoiler.isRuleLine plainTables (67 :: js "arnage" ++ 32 :: js "2") = true.
Proof.
  split.
  - apply (proj1 (isRuleLine_by_shape plainTables 76 32 (js "andfall")
                    (js "2") (js " It grows.") eq_refl
                    ltac:(discriminate) eq_refl)).
  - apply (proj2 (isRuleLine_by_shape plainTables 67 32 (js "arnage")
                    (js "2") [] eq_refl ltac:(discriminate) eq_refl));
      first [discriminate | reflexivity].
Defined.

(** A card with four colors in its cost and no other hint. *)
Lemma getShardIdentity_rule_conditions_witness :
  ArtGen.getShardIdentity plainTables
    {| ArtGen.card_id := js "R21"; ArtGen.card_name := js "Prism Herald";
       ArtGen.card_cost := js "{W}{U}{B}{R}"; ArtGen.card_type := js "Creature";
       ArtGen.card_text := []; ArtGen.card_flavor := [] |}
  = ArtGen.MAELSTROM
  /\ (4 <= List.length
             (ArtGen.getColorIdentity plainTables
                {| ArtGen.card_id := js "R21";
                   ArtGen.card_name := js "Prism Herald";
                   ArtGen.card_cost := js "{W}{U}{B}{R}";
                   ArtGen.card_type := js "Creature";
                   ArtGen.card_text := []; ArtGen.card_flavor := [] |}))%nat.
Proof.
  assert (H : ArtGen.getShardIdentity plainTables
                {| ArtGen.card_id := js "R21";
                   ArtGen.card_name := js "Prism Herald";
                   ArtGen.card_cost := js "{W}{U}{B}{R}";
                   ArtGen.card_type := js "Creature";
                   ArtGen.card_text := []; ArtGen.card_flavor := [] |}
              = ArtGen.MAELSTROM) by (vm_compute; reflexivity).
  split; [exact H|].
  exact (proj1 (getShardIdentity_rule_conditions plainTables _) H).
Defined.

(** The scenario with a malformed second header, read by both scripts. *)
Lemma parsers_list_same_cards_witness :
  exists parsed info,
    Spoiler.parseContent plainTables
      (js "3. CARD FILE" ++ LF
         ++ (js "[M01] Test Card {1}{W}" ++ LF ++ js "Creature" ++ LF
               ++ js "Flying" ++ LF ++ js "[M02]"))
    = Normal (parsed, info)
    /\ Forall2 sameCard parsed
         (ArtGen.parseContent
            (js "3. CARD FILE" ++ LF
               ++ (js "[M01] Test Card {1}{W}" ++ LF ++ js "Creature" ++ LF
                     ++ js "Flying" ++ LF ++ js "[M02]"))).
Proof.
  apply (proj2
           (parsers_list_same_cards plainTables
              (js "[M01] Test Card {1}{W}" ++ LF ++ js "Creature" ++ LF
                 ++ js "Flying" ++ LF ++ js "[M02]"))).
  vm_compute. reflexivity.
Defined.

(** A rules line without symbols. *)
Lemma formatSymbols_without_brace_witness :
  Page.formatSymbols plainTables (js "Flying, vigilance") = js "Flying, vigilance".
Proof.
  apply (formatSymbols_without_brace plainTables (js "Flying, vigilance")).
  reflexivity.
Defined.

(** A hybrid symbol in a rules line. *)
Lemma formatSymbols_symbol_witness :
  Page.formatSymbols plainTables
    (js "Pay " ++ js "{" ++ js "W/U" ++ js "}" ++ js ": Draw a card.")
  = js "Pay " ++ iconOf (js "W/U")
      ++ Page.formatSymbols plainTables (js ": Draw a card.").
Proof.
  apply (formatSymbols_symbol plainTables (js "Pay ") (js "W/U")
           (js ": Draw a card."));
    first [discriminate | reflexivity].
Defined.

(** A white and blue creature. *)
Lemma casting_colors_on_page_witness :
  Page.colorClass plainTables
    {| Spoiler.card_id := js "U12"; Spoiler.card_name := js "Sky Warden";
       Spoiler.card_cost := js "{2}{W}{U}"; Spoiler.card_type := js "Creature";
       Spoiler.card_text := [js "Flying"]; Spoiler.card_flavor := [] |}
  = js "gold".
Proof.
  apply (proj2
           (casting_colors_on_page plainTables
              {| ArtGen.card_id := js "U12"; ArtGen.card_name := js "Sky Warden";
                 ArtGen.card_cost := js "{2}{W}{U}";
                 ArtGen.card_type := js "Creature";
                 ArtGen.card_text := [js "Flying"]; ArtGen.card_flavor := [] |}
              {| Spoiler.card_id := js "U12"; Spoiler.card_name := js "Sky Warden";
                 Spoiler.card_cost := js "{2}{W}{U}";
                 Spoiler.card_type := js "Creature";
                 Spoiler.card_text := [js "Flying"];
                 Spoiler.card_flavor := [] |} eq_refl));
    [vm_compute; lia | vm_compute; reflexivity].
Defined.

(** An ability word with its dash, and a cost line. *)
Lemma formatLine_bold_lead_witness :
  Page.formatLine plainTables
    (js "Landfall" ++ js " " ++ [EM_DASH] ++ js " It grows.")
  = js "<p><strong>" ++ js "Landfall" ++ js "</strong> " ++ [EM_DASH]
      ++ js " It grows." ++ js "</p>"
  /\ Page.formatLine plainTables (js "Exhume cost" ++ js ":" ++ js " It grows.")
     = js "<p><strong>" ++ js "Exhume cost" ++ js "</strong>:"
         ++ js " It grows." ++ js "</p>".
Proof.
  destruct (formatLine_bold_lead plainTables (js "Landfall")
              (js "Exhume cost") (js " It grows.") eq_refl) as [Hdash Hcolon].
  split; [apply Hdash | apply Hcolon]; first [discriminate | reflexivity].
Defined.

(** The three kinds of mechanics lines. *)
Lemma mechanicsItem_spec_witness :
  Page.mechanicsItem (js "*" ++ js " " ++ js "Fabricate" ++ js ":"
                        ++ js " Create a token.")
  = js "<li><strong>" ++ js "Fabricate" ++ js ":</strong>"
      ++ js " Create a token." ++ js "</li>"
  /\ Page.mechanicsItem (js "*" ++ js " " ++ js "Five shards")
     = js "<li>" ++ js "Five shards" ++ js "</li>"
  /\ Page.mechanicsItem (js "Five shards")
     = js "<li>" ++ js "Five shards" ++ js "</li>".
Proof.
  destruct (mechanicsItem_spec (js "Five shards") (js " ") (js "Fabricate")
              (js "Five shards") (js " Create a token.") eq_refl)
    as (Hname & Htext & Hplain).
  split; [|split]; [apply Hname | apply Htext | apply Hplain];
    first [discriminate | reflexivity].
Defined.
